(** * Electroplating controller: a shallow embedding of formulas.py, scpi.py
      and gui.py

    The three Python modules are embedded as Rocq modules of the same names
    ([Formulas], [Scpi], [Gui]); [Py] holds the fragments of the Python
    runtime they rely on (exceptions, numbers, [str] methods).

    Conventions of the embedding.
    - Numbers.  The program is embedded twice.  [Formulas], [Scpi] and
      [Gui] read Python [float] values as exact rationals ([Q]): the
      control flow, the commands and the state machine are stated on
      them; rounding, infinities and NaN are outside that reading, in
      which [int] and [format_time] always return and the texts of the
      labels are not computed.  [Binary64], [Double], [Scpi64] and
      [Gui64] are the same methods on IEEE 754 doubles ([PrimFloat]), with
      the exceptions float operations raise ([OverflowError],
      [ValueError]) and the calls of [format_time] that can raise them;
      what depends on the arithmetic is stated on them.  Python [int]
      values are [Z]; an [int] met in float arithmetic is converted
      ([inject_Z] on rationals, [float_of_int] on doubles).
    - Python exceptions are the constructors of [Py.exn]; a computation
      that can raise returns a [Py.result], a method that also mutates its
      object is a function [S -> result A * S] ([Py.M]).  A state change
      made before an exception is raised persists, as in Python.
    - Strings are ASCII.  The builtins whose exact output is fixed by the
      Python runtime and not by the repository ([float(str)], [str(float)],
      fixed-point formatting) are the methods of the classes [Py.Builtins]
      and [Double.Builtins]; the theorems hold for every instance,
      [Decimal] and [Decimal64] are instances that run.
    - The instrument is a function from the requests made so far and the
      current request to a reply or a failure ([Scpi.Visa]); the theorems
      hold for every instrument.
    - Console output ([print]) and the text, colour and layout of labels
      are not modelled; buttons keep their [text] and [disabled] flags,
      and the titles of the dialogs opened are logged.

    The definitions come first; the theorems follow, proved by symbolic
    execution of the methods with the rules of [Logic.wp]. *)

From Stdlib Require Import ZArith QArith Qabs Qminmax Qround Lqa Lia Bool List.
From Stdlib Require Import Ascii String DecimalString.
From Stdlib Require Import PrimFloat FloatOps SpecFloat FloatAxioms.
From Stdlib Require Uint63.
From stdpp Require Import base option gmap strings.

Local Open Scope string_scope.
Local Open Scope Z_scope.

(* ================================================================== *)
(** * The Python runtime fragments used by the program *)
(* ================================================================== *)

Module Py.

(** Exceptions raised or named by the three modules. *)
Inductive exn : Set :=
| ZeroDivisionError
| ValueError
| TypeError
| KeyError
| OverflowError
| VisaIOError.

Inductive result (A : Type) : Type :=
| Ok (a : A)
| Raise (e : exn).
Arguments Ok {A} a.
Arguments Raise {A} e.

#[global] Instance result_ret : MRet result := fun A a => Ok a.
#[global] Instance result_bind : MBind result := fun A B f r =>
  match r with
  | Ok a => f a
  | Raise e => Raise e
  end.

(** [try: body except: handler]; [handler e = None] when no [except]
    clause names [e], which then propagates. *)
Definition try_result {A} (body : result A) (handler : exn -> option (result A))
  : result A :=
  match body with
  | Ok a => Ok a
  | Raise e => match handler e with
               | Some k => k
               | None => Raise e
               end
  end.

(** Methods: state passing with exceptions. *)
Definition M (S A : Type) : Type := S -> result A * S.

#[global] Instance M_ret {S} : MRet (M S) := fun A a s => (Ok a, s).
#[global] Instance M_bind {S} : MBind (M S) := fun A B f m s =>
  match m s with
  | (Ok a, s') => f a s'
  | (Raise e, s') => (Raise e, s')
  end.

Definition raise {S A} (e : exn) : M S A := fun s => (Raise e, s).
Definition lift {S A} (r : result A) : M S A := fun s => (r, s).
Definition gets {S A} (proj : S -> A) : M S A := fun s => (Ok (proj s), s).
Definition modify {S} (f : S -> S) : M S unit := fun s => (Ok tt, f s).

Definition try_except {S A} (body : M S A) (handler : exn -> option (M S A))
  : M S A := fun s =>
  match body s with
  | (Ok a, s') => (Ok a, s')
  | (Raise e, s') => match handler e with
                     | Some k => k s'
                     | None => (Raise e, s')
                     end
  end.

(** Run a method of a sub-object held in a field of [S]. *)
Definition zoom {S T A} (get : S -> T) (put : T -> S -> S) (m : M T A) : M S A :=
  fun s => let (r, t') := m (get s) in (r, put t' s).

(** ** Numbers *)

(** [int(x)] on a float: truncation toward zero. *)
Definition int_of_float (x : Q) : Z := Z.quot (Qnum x) (Zpos (Qden x)).

(** Float division; a zero divisor raises. *)
Definition truediv (x y : Q) : result Q :=
  if Qeq_bool y 0 then Raise ZeroDivisionError else Ok (x / y)%Q.

Definition Qlt_bool (x y : Q) : bool := negb (Qle_bool y x).

(** [dict[key]] and [dict.get(key, default)]. *)
Definition getitem {V} (d : gmap Z V) (key : Z) : result V :=
  match d !! key with
  | Some v => Ok v
  | None => Raise KeyError
  end.

Definition dict_get {V} (d : gmap Z V) (key : Z) (default : V) : V :=
  match d !! key with
  | Some v => v
  | None => default
  end.

(** [str(n)] on an int. *)
Definition str_of_int (n : Z) : string := NilZero.string_of_int (Z.to_int n).

(** [f"{n:02d}"] on an int. *)
Definition format_02d (n : Z) : string :=
  let s := str_of_int n in
  if (String.length s <? 2)%nat then "0" +:+ s else s.

(** ** Strings *)

(** [str.isspace] on the ASCII range: TAB, LF, VT, FF, CR, FS, GS, RS, US
    and the space. *)
Definition isspace (c : ascii) : bool :=
  let n := nat_of_ascii c in
  ((9 <=? n) && (n <=? 13) || (28 <=? n) && (n <=? 32))%nat.

Fixpoint lstrip (s : string) : string :=
  match s with
  | String c r => if isspace c then lstrip r else s
  | EmptyString => EmptyString
  end.

Fixpoint rstrip (s : string) : string :=
  match s with
  | String c r =>
      match rstrip r with
      | EmptyString => if isspace c then EmptyString else String c EmptyString
      | r' => String c r'
      end
  | EmptyString => EmptyString
  end.

Definition strip (s : string) : string := rstrip (lstrip s).

Definition upper_ascii (c : ascii) : ascii :=
  let n := nat_of_ascii c in
  if ((97 <=? n) && (n <=? 122))%nat then ascii_of_nat (n - 32) else c.

Fixpoint upper (s : string) : string :=
  match s with
  | String c r => String (upper_ascii c) (upper r)
  | EmptyString => EmptyString
  end.

Definition startswith (s p : string) : bool := String.prefix p s.

(** [sub in s]. *)
Fixpoint contains (sub s : string) : bool :=
  String.prefix sub s ||
  match s with
  | String _ r => contains sub r
  | EmptyString => false
  end.

(** [s.split()]: the maximal runs of non-space characters.  [cur] is the
    run being read, reversed. *)
Fixpoint split_go (cur : string) (s : string) : list string :=
  let flush := match cur with
               | EmptyString => nil
               | _ => String.rev cur :: nil
               end in
  match s with
  | EmptyString => flush
  | String c r =>
      if isspace c then (flush ++ split_go EmptyString r)%list
      else split_go (String c cur) r
  end.

Definition split (s : string) : list string := split_go EmptyString s.

(** ** Builtins fixed by the runtime *)

Class Builtins : Type := {
  (** [float(s)] on a string; [None] is [ValueError]. *)
  float_of_str : string -> option Q;
  (** [str(x)] on a float, as an f-string field [{x}] renders it. *)
  str_of_float : Q -> string;
  (** [f"{x:.2f}"] is [format_fixed 2 x]. *)
  format_fixed : nat -> Q -> string
}.

Definition float {S} `{Builtins} (s : string) : M S Q :=
  match float_of_str s with
  | Some x => mret x
  | None => raise ValueError
  end.

(** ** Attribute assignment *)

(** [set proj f r] is [r] with the field [proj] replaced by
    [f (proj r)].  The instances are built from the eta-expansion of the
    record's constructor by abstracting the projection. *)
Class Setter {R T : Type} (proj : R -> T) : Type := set : (T -> T) -> R -> R.
Arguments set {R T} proj {Setter} f r.

Ltac make_setter eta proj :=
  let e := eval cbv beta delta [eta] in eta in
  let e' := eval pattern proj in e in
  lazymatch e' with
  | ?u proj =>
      let r := eval cbv beta in (fun f a => u (fun x => f (proj x)) a) in
      exact r
  end.

(** [self.attr = v] and [self.obj.attr = v]. *)
Definition assign {R T} (proj : R -> T) `{!Setter proj} (v : T) : M R unit :=
  modify (set proj (fun _ => v)).

Definition assign_in {R T U} (obj : R -> T) `{!Setter obj}
    (proj : T -> U) `{!Setter proj} (v : U) : M R unit :=
  modify (set obj (set proj (fun _ => v))).

End Py.

Declare Scope py_scope.
Delimit Scope py_scope with py.
Notation "proj ::= v" := (Py.assign proj v) (at level 70, no associativity) : py_scope.
Notation "obj ∙ proj ::= v" := (Py.assign_in obj proj v)
  (at level 70, proj at level 9, no associativity) : py_scope.
Notation "'pass'" := (mret tt) : py_scope.

(* ================================================================== *)
(** * An executable instance of the builtins: plain decimal notation *)
(* ================================================================== *)

(** Used to run the program on concrete inputs.  [float] reads
    [[+-]digits[.digits][E[+-]digits]]; [str] and the fixed-point format
    print positional decimals (a float with no finite expansion is cut
    after 17 fractional digits by [str]). *)
Module Decimal.
Import Py.

Definition digit (c : ascii) : option Z :=
  let n := nat_of_ascii c in
  if ((48 <=? n) && (n <=? 57))%nat then Some (Z.of_nat (n - 48)) else None.

(** The leading digits of [s]: their value after [acc], their number and
    the rest of [s]. *)
Fixpoint digits (acc : Z) (count : nat) (s : string) : Z * nat * string :=
  match s with
  | String c r =>
      match digit c with
      | Some d => digits (10 * acc + d) (Datatypes.S count) r
      | None => (acc, count, s)
      end
  | EmptyString => (acc, count, s)
  end.

Definition sign (s : string) : bool * string :=
  match s with
  | String "-" r => (true, r)
  | String "+" r => (false, r)
  | _ => (false, s)
  end.

Definition exponent (s : string) : option Z :=
  match s with
  | EmptyString => Some 0
  | String c r =>
      if Ascii.eqb (upper_ascii c) "E" then
        let (neg, r) := sign r in
        match digits 0 0 r with
        | (e, Datatypes.S _, EmptyString) => Some (if neg : bool then - e else e)
        | _ => None
        end
      else None
  end.

Definition Qpow10 (e : Z) : Q := (inject_Z 10 ^ e)%Q.

Definition parse_float (s : string) : option Q :=
  let (neg, s) := sign s in
  let '(ip, ni, s) := digits 0 0 s in
  let '(m, nf, s) :=
    match s with
    | String "." r => let '(m, nf, r) := digits ip 0 r in (m, nf, r)
    | _ => (ip, 0%nat, s)
    end in
  if (ni + nf =? 0)%nat then None
  else
    e ← exponent s;
    Some (Qred (inject_Z (if neg : bool then - m else m)
                * Qpow10 (e - Z.of_nat nf))).

Definition round_half_even (x : Q) : Z :=
  let f := Qfloor x in
  match ((x - inject_Z f) ?= 1 # 2)%Q with
  | Lt => f
  | Gt => f + 1
  | Eq => if Z.even f then f else f + 1
  end.

Fixpoint zeros (count : nat) : string :=
  match count with
  | O => ""
  | Datatypes.S n => "0" +:+ zeros n
  end.

(** [s] with leading zeros up to [width] characters. *)
Definition zero_pad (width : nat) (s : string) : string :=
  zeros (width - String.length s) +:+ s.

(** [scaled] is the number times [10 ^ places], already rounded. *)
Definition positional (negative : bool) (places : nat) (scaled : Z) : string :=
  let p := 10 ^ Z.of_nat places in
  (if negative then "-" else "") +:+ str_of_int (Z.abs scaled / p) +:+
  (if (places =? 0)%nat then ""
   else "." +:+ zero_pad places (str_of_int (Z.abs scaled mod p))).

Definition fixed (places : nat) (x : Q) : string :=
  positional (Qlt_bool x 0) places
    (round_half_even (x * Qpow10 (Z.of_nat places))).

(** Drop the trailing zeros of a fraction, keeping one digit. *)
Fixpoint trim (s : string) : string :=
  match s with
  | String c r =>
      match trim r with
      | EmptyString => if Ascii.eqb c "0" then EmptyString else String c EmptyString
      | r' => String c r'
      end
  | EmptyString => EmptyString
  end.

Fixpoint last_char (s : string) : ascii :=
  match s with
  | String c EmptyString => c
  | String _ r => last_char r
  | EmptyString => "0"%char
  end.

Definition shortest (x : Q) : string :=
  let s := fixed 17 x in
  match trim s with
  | EmptyString => "0.0"
  | t => if Ascii.eqb (last_char t) "." then t +:+ "0" else t
  end.

Definition builtins : Builtins := {|
  float_of_str := parse_float;
  str_of_float := shortest;
  format_fixed := fixed
|}.

End Decimal.

(* ================================================================== *)
(** * formulas.py *)
(* ================================================================== *)

Module Formulas.
Import Py.

(** [format_time(seconds)].  Every call site passes a number, for which
    [int(seconds)] does not raise; the [except (TypeError, ValueError)]
    branch returning ["N/A"] needs a non-numeric argument. *)
Definition format_time (seconds : Q) : string :=
  let seconds := int_of_float seconds in
  if seconds <? 0 then "00:00:00"
  else
    let hours := seconds / 3600 in
    let minutes := (seconds mod 3600) / 60 in
    let sec := seconds mod 60 in
    format_02d hours +:+ ":" +:+ format_02d minutes +:+ ":" +:+ format_02d sec.

(** The class attributes of [PlatingCalculator]. *)
Definition MOLAR_MASS_G_MOL : Q := 150.0.
Definition DENSITY_G_CM3 : Q := 10.0.
Definition CHARGE_VALENCE : Z := 2.
Definition CURRENT_EFFICIENCY : Q := 0.95.
Definition F : Q := 96485.0.

Definition CURRENT_DENSITY_MAP : gmap Z Q :=
  {[ 1 := 5.0%Q; 2 := 4.0%Q; 3 := 3.0%Q; 4 := 2.5%Q; 5 := 2.0%Q ]}.

(** The dict returned by [calculate_metrics]. *)
Record Metrics : Type := {
  target_current_A : Q;
  target_voltage_V : Q;
  estimated_time_sec : Q
}.

(** The body of the [try] block of [calculate_metrics]. *)
Definition calculate_metrics_body (thickness_um area_cm2 : Q) (complexity_level : Z)
  : result Metrics :=
  (* 1. target current *)
  level_1 ← getitem CURRENT_DENSITY_MAP 1;
  let density_mA_cm2 := dict_get CURRENT_DENSITY_MAP complexity_level level_1 in
  target_current_A ← truediv density_mA_cm2 1000.0;
  let target_current_A := (target_current_A * area_cm2)%Q in
  (* 2. plating mass *)
  thickness_cm ← truediv thickness_um 10000.0;
  let volume_cm3 := (thickness_cm * area_cm2)%Q in
  let target_mass_g := (volume_cm3 * DENSITY_G_CM3)%Q in
  (* 3. estimated time, Faraday's law *)
  let numerator := (target_mass_g * inject_Z CHARGE_VALENCE * F)%Q in
  let denominator := (MOLAR_MASS_G_MOL * target_current_A * CURRENT_EFFICIENCY)%Q in
  estimated_time_sec ← truediv numerator denominator;
  (* 4. target voltage *)
  let voltage_factor := (1.0 + inject_Z (complexity_level - 1) * 0.2)%Q in
  let target_voltage_V := (2.0 * voltage_factor)%Q in
  mret {| target_current_A := target_current_A;
          target_voltage_V := target_voltage_V;
          estimated_time_sec := estimated_time_sec |}.

(** The zeros of the [except] clause. *)
Definition safe_zeros : Metrics :=
  {| target_current_A := 0.0; target_voltage_V := 0.0; estimated_time_sec := 0 |}.

Definition calculate_metrics (thickness_um area_cm2 : Q) (complexity_level : Z)
  : result Metrics :=
  try_result (calculate_metrics_body thickness_um area_cm2 complexity_level)
    (fun e => match e with
              | ValueError | ZeroDivisionError | TypeError => Some (Ok safe_zeros)
              | _ => None
              end).

End Formulas.

(* ================================================================== *)
(** * formulas.py in binary64 *)
(* ================================================================== *)

(** The same two functions with Python's own floats, IEEE 754 binary64
    rounded to nearest even, to run them bit for bit on a given input.
    The theorems of this development are about the rational model above;
    this module only evaluates. *)
Module Binary64.
Import Py.
Abbreviation binary64 := PrimFloat.float.
#[local] Set Warnings "-inexact-float".

(** [float(n)] on an int: the nearest float, [OverflowError] beyond the
    range. *)
Definition float_of_int (n : Z) : result binary64 :=
  let x := SF2Prim (binary_normalize prec emax n 0 false) in
  if is_infinity x then Raise OverflowError else Ok x.

Definition truediv (x y : binary64) : result binary64 :=
  if PrimFloat.eqb y 0 then Raise ZeroDivisionError else Ok (x / y)%float.

(** [int(x)]: truncation toward zero; infinities and NaN raise. *)
Definition int_of_float (x : binary64) : result Z :=
  match Prim2SF x with
  | S754_zero _ => Ok 0
  | S754_finite negative m e =>
      let magnitude :=
        if 0 <=? e then Zpos m * 2 ^ e else Zpos m / 2 ^ (- e) in
      Ok (if negative then - magnitude else magnitude)
  | S754_infinity _ => Raise OverflowError
  | S754_nan => Raise ValueError
  end.

Definition format_time (seconds : binary64) : result string :=
  try_result
    (seconds ← int_of_float seconds;
     if seconds <? 0 then mret "00:00:00"
     else
       let hours := seconds / 3600 in
       let minutes := (seconds mod 3600) / 60 in
       let sec := seconds mod 60 in
       mret (format_02d hours +:+ ":" +:+ format_02d minutes +:+ ":"
             +:+ format_02d sec))
    (fun e => match e with
              | TypeError | ValueError => Some (Ok "N/A")
              | _ => None
              end).

Definition MOLAR_MASS_G_MOL : binary64 := 150.0.
Definition DENSITY_G_CM3 : binary64 := 10.0.
Definition CHARGE_VALENCE : Z := 2.
Definition CURRENT_EFFICIENCY : binary64 := 0.95.
Definition F : binary64 := 96485.0.

Definition CURRENT_DENSITY_MAP : gmap Z binary64 :=
  {[ 1 := 5.0%float; 2 := 4.0%float; 3 := 3.0%float; 4 := 2.5%float;
     5 := 2.0%float ]}.

Record Metrics : Type := {
  target_current_A : binary64;
  target_voltage_V : binary64;
  estimated_time_sec : binary64
}.

Definition calculate_metrics (thickness_um area_cm2 : binary64) (complexity_level : Z)
  : result Metrics :=
  try_result
    (level_1 ← getitem CURRENT_DENSITY_MAP 1;
     let density_mA_cm2 := dict_get CURRENT_DENSITY_MAP complexity_level level_1 in
     target_current_A ← truediv density_mA_cm2 1000.0;
     let target_current_A := (target_current_A * area_cm2)%float in
     thickness_cm ← truediv thickness_um 10000.0;
     let volume_cm3 := (thickness_cm * area_cm2)%float in
     let target_mass_g := (volume_cm3 * DENSITY_G_CM3)%float in
     valence ← float_of_int CHARGE_VALENCE;
     let numerator := (target_mass_g * valence * F)%float in
     let denominator :=
       (MOLAR_MASS_G_MOL * target_current_A * CURRENT_EFFICIENCY)%float in
     estimated_time_sec ← truediv numerator denominator;
     steps ← float_of_int (complexity_level - 1);
     let voltage_factor := (1.0 + steps * 0.2)%float in
     let target_voltage_V := (2.0 * voltage_factor)%float in
     mret {| target_current_A := target_current_A;
             target_voltage_V := target_voltage_V;
             estimated_time_sec := estimated_time_sec |})
    (fun e => match e with
              | ValueError | ZeroDivisionError | TypeError =>
                  Some (Ok {| target_current_A := 0.0;
                              target_voltage_V := 0.0;
                              estimated_time_sec := 0 |})
              | _ => None
              end).

End Binary64.

(* ================================================================== *)
(** * scpi.py *)
(* ================================================================== *)

Module Scpi.
Import Py.
Local Open Scope py_scope.

Definition PSU_ADDRESS : string := "ASRL/dev/ttyUSB0::INSTR".
Definition BAUD_RATE : Z := 115200.
Definition TIMEOUT_MS : Z := 5000.

(** ** The instrument behind pyvisa

    What the program hands to pyvisa is logged in [wire]; the operation
    [op], when [n] operations came before it, is answered by
    [respond n op]: a reply (ignored by a write) or a failure, which pyvisa
    raises as [VisaIOError]. *)
Inductive io_op : Set :=
| Open (address : string)
| Write (message : string)
| Query (message : string)
| Close.

Inductive outcome : Set :=
| Reply (answer : string)
| Fail.

Record Visa : Type := {
  respond : nat -> io_op -> outcome;
  wire : list io_op
}.

Definition visa_io (op : io_op) : M Visa string := fun v =>
  let v' := {| respond := respond v; wire := (wire v ++ [op])%list |} in
  match respond v (length (wire v)) op with
  | Reply answer => (Ok answer, v')
  | Fail => (Raise VisaIOError, v')
  end.

(** The serial settings [connect] stores on the opened resource. *)
Record Resource : Type := {
  baud_rate : Z;
  read_termination : string;
  write_termination : string;
  timeout : Z
}.

(** ** class PowerSupplyInterface *)
Record PowerSupplyInterface : Type := {
  is_connected : bool;
  output_on : bool;
  psu : option Resource;
  rm : option string;
  (** the outside world reached through [psu] *)
  visa : Visa
}.

Definition PowerSupplyInterface_eta (a : PowerSupplyInterface) :=
  Build_PowerSupplyInterface
    (is_connected a) (output_on a) (psu a) (rm a) (visa a).

#[global] Instance set_is_connected : Setter is_connected :=
  ltac:(make_setter PowerSupplyInterface_eta is_connected).
#[global] Instance set_output_on : Setter output_on :=
  ltac:(make_setter PowerSupplyInterface_eta output_on).
#[global] Instance set_psu : Setter psu :=
  ltac:(make_setter PowerSupplyInterface_eta psu).
#[global] Instance set_rm : Setter rm :=
  ltac:(make_setter PowerSupplyInterface_eta rm).
#[global] Instance set_visa : Setter visa :=
  ltac:(make_setter PowerSupplyInterface_eta visa).

(** [__init__]. *)
Definition init (v : Visa) : PowerSupplyInterface :=
  {| is_connected := false; output_on := false; psu := None; rm := None;
     visa := v |}.

Definition io (op : io_op) : M PowerSupplyInterface string :=
  zoom visa (fun v => set visa (fun _ => v)) (visa_io op).

Definition LF : string := String (ascii_of_nat 10) EmptyString.

Section Methods.
Context `{Builtins}.

(** [connect(self)]. *)
Definition connect : M PowerSupplyInterface bool :=
  connected ← gets is_connected;
  if connected : bool then mret true
  else
    try_except
      (rm ::= Some "@py";;
       io (Open PSU_ADDRESS);;
       psu ::= Some {| baud_rate := BAUD_RATE; read_termination := LF;
                       write_termination := LF; timeout := TIMEOUT_MS |};;
       (* test the connection *)
       io (Query "*IDN?");;
       is_connected ::= true;;
       mret true)
      (fun e => match e with
                | VisaIOError =>
                    Some (is_connected ::= false;;
                          psu ::= None;;
                          rm ::= None;;
                          mret false)
                | _ =>
                    Some (is_connected ::= false;;
                          mret false)
                end).

(** [disconnect(self)]. *)
Definition disconnect : M PowerSupplyInterface unit :=
  p ← gets psu;
  (if p is Some _ then
     try_except
       ((* ensure output is off before disconnecting *)
        io (Write "OUTP OFF");;
        io Close;;
        pass)
       (fun e => match e with
                 | VisaIOError => Some pass
                 | _ => None
                 end);;
     psu ::= None
   else pass);;
  is_connected ::= false;;
  output_on ::= false.

(** [send_command(self, command)].  The [try] block of the APPLY branch
    yields [Some b] when it executes [return b] and [None] when it ends
    without returning, control then reaching the final [return False]. *)
Definition send_command (command : string) : M PowerSupplyInterface bool :=
  connected ← gets is_connected;
  p ← gets psu;
  if negb connected || negb (bool_decide (is_Some p)) then mret false
  else
    let command := upper (strip command) in
    if startswith command "APPLY" then
      returned ←
        try_except
          (let parts := split command in
           if (length parts =? 3)%nat then
             V ← float (nth 1 parts "");
             A ← float (nth 2 parts "");
             io (Write ("VOLTage " +:+ format_fixed 2 V));;
             io (Write ("CURRent " +:+ format_fixed 3 A));;
             mret (Some true)
           else mret None)
          (fun e => match e with
                    | ValueError | VisaIOError => Some (mret (Some false))
                    | _ => None
                    end);
      match returned with
      | Some b => mret b
      | None => mret false
      end
    else if String.eqb command "OUTP ON" then
      try_except
        (io (Write "OUTPut:STATe ON");;
         output_on ::= true;;
         mret true)
        (fun e => match e with
                  | VisaIOError => Some (mret false)
                  | _ => None
                  end)
    else if String.eqb command "OUTP OFF" then
      try_except
        (io (Write "OUTPut:STATe OFF");;
         output_on ::= false;;
         mret true)
        (fun e => match e with
                  | VisaIOError => Some (mret false)
                  | _ => None
                  end)
    else mret false.

(** The local variables of [read_data]. *)
Record read_data_locals : Type := {
  local_V : Q;
  local_A : Q;
  local_status : string
}.

Definition read_data_locals_eta (a : read_data_locals) :=
  Build_read_data_locals (local_V a) (local_A a) (local_status a).

#[local] Instance set_local_V : Setter local_V :=
  ltac:(make_setter read_data_locals_eta local_V).
#[local] Instance set_local_A : Setter local_A :=
  ltac:(make_setter read_data_locals_eta local_A).
#[local] Instance set_local_status : Setter local_status :=
  ltac:(make_setter read_data_locals_eta local_status).

(** A method body runs on the object and its frame of locals. *)
Definition self {L X} (m : M PowerSupplyInterface X)
  : M (PowerSupplyInterface * L) X :=
  zoom fst (fun p s => (p, snd s)) m.

Definition frame {L X} (m : M L X) : M (PowerSupplyInterface * L) X :=
  zoom snd (fun l s => (fst s, l)) m.

Definition with_locals {L X} (locals : L) (m : M (PowerSupplyInterface * L) X)
  : M PowerSupplyInterface X :=
  fun p => let (r, s) := m (p, locals) in (r, fst s).

(** [read_data(self)]: returns [(V, A, status)]. *)
Definition read_data : M PowerSupplyInterface (Q * Q * string) :=
  with_locals
    {| local_status := "PLATING ACTIVE"; local_V := 0.0; local_A := 0.0 |}
    (connected ← self (gets is_connected);
     p ← self (gets psu);
     if negb connected || negb (bool_decide (is_Some p))
     then mret (0.0%Q, 0.0%Q, "NOT CONNECTED")
     else
       on ← self (gets output_on);
       if negb on then mret (0.0%Q, 0.0%Q, "OUTPUT OFF (Connected)")
       else
         try_except
           (answer ← self (io (Query "MEASure:VOLTage?"));
            v ← float (strip answer);
            frame (local_V ::= v);;
            answer ← self (io (Query "MEASure:CURRent?"));
            a ← float (strip answer);
            frame (local_A ::= a);;
            (* the system error register *)
            try_except
              (answer ← self (io (Query "SYSTem:ERRor?"));
               let error_state := strip answer in
               if negb (contains "No error" error_state)
               then frame (local_status ::=
                             "ALERT: PSU Error (" +:+ error_state +:+ ")")
               else pass)
              (fun e => match e with
                        | VisaIOError => Some pass
                        | _ => None
                        end))
           (fun e => match e with
                     | VisaIOError =>
                         Some (frame (local_status ::= "COMMS ERROR - PSU OFFLINE");;
                               self disconnect)
                     | ValueError =>
                         Some (frame (local_status ::= "MEASUREMENT READ FAIL"))
                     | _ => None
                     end);;
         v ← frame (gets local_V);
         a ← frame (gets local_A);
         status ← frame (gets local_status);
         mret (v, a, status)).

End Methods.

End Scpi.

(* ================================================================== *)
(** * gui.py *)
(* ================================================================== *)

(** The Kivy widgets the handlers read and write. *)
Module Button.
Record t : Type := { text : string; disabled : bool }.
Definition eta (b : t) := Build_t (text b) (disabled b).
#[global] Instance set_text : Py.Setter text := ltac:(Py.make_setter eta text).
#[global] Instance set_disabled : Py.Setter disabled :=
  ltac:(Py.make_setter eta disabled).
End Button.

Module TextInput.
Record t : Type := { name : string; text : string }.
End TextInput.

(** [kivy.clock.Clock]: the intervals scheduled and not cancelled; each one
    calls [live_monitor] once per period. *)
Module Clock.
Record t : Type := { scheduled : list nat; created : nat }.
Definition schedule_interval (c : t) : nat * t :=
  (created c, {| scheduled := (scheduled c ++ [created c])%list;
                 created := Datatypes.S (created c) |}).
Definition cancel (event : nat) (c : t) : t :=
  {| scheduled := filter (fun e => e ≠ event) (scheduled c);
     created := created c |}.
End Clock.

Module Gui.
Import Py.
Local Open Scope py_scope.

(** ** class ElectroplatingControllerApp *)
Record App : Type := {
  target_thickness_um : Q;
  target_area_cm2 : Q;
  complexity : Z;
  current_readout_V : Q;
  current_readout_A : Q;
  status_message : string;
  progress_percent : Z;
  time_elapsed_sec : Z;
  is_plating_active : bool;
  target_current_A : Q;
  target_voltage_V : Q;
  estimated_time_sec : Q;
  psu_interface : Scpi.PowerSupplyInterface;
  live_update_event : option nat;
  (** widgets: the text of [status_label], the value of [progress_bar] *)
  status_label : string;
  progress_bar : Z;
  connect_btn : Button.t;
  start_btn : Button.t;
  pause_btn : Button.t;
  abort_btn : Button.t;
  (** the environment: Kivy's clock, the titles of the dialogs opened and
      the commands passed to [psu_interface.send_command], oldest first *)
  clock : Clock.t;
  modals : list string;
  issued : list string
}.

Definition App_eta (a : App) :=
  Build_App
    (target_thickness_um a) (target_area_cm2 a) (complexity a)
    (current_readout_V a) (current_readout_A a) (status_message a)
    (progress_percent a) (time_elapsed_sec a) (is_plating_active a)
    (target_current_A a) (target_voltage_V a) (estimated_time_sec a)
    (psu_interface a) (live_update_event a) (status_label a) (progress_bar a)
    (connect_btn a) (start_btn a) (pause_btn a) (abort_btn a)
    (clock a) (modals a) (issued a).

#[global] Instance set_target_thickness_um : Setter target_thickness_um :=
  ltac:(make_setter App_eta target_thickness_um).
#[global] Instance set_target_area_cm2 : Setter target_area_cm2 :=
  ltac:(make_setter App_eta target_area_cm2).
#[global] Instance set_complexity : Setter complexity :=
  ltac:(make_setter App_eta complexity).
#[global] Instance set_current_readout_V : Setter current_readout_V :=
  ltac:(make_setter App_eta current_readout_V).
#[global] Instance set_current_readout_A : Setter current_readout_A :=
  ltac:(make_setter App_eta current_readout_A).
#[global] Instance set_status_message : Setter status_message :=
  ltac:(make_setter App_eta status_message).
#[global] Instance set_progress_percent : Setter progress_percent :=
  ltac:(make_setter App_eta progress_percent).
#[global] Instance set_time_elapsed_sec : Setter time_elapsed_sec :=
  ltac:(make_setter App_eta time_elapsed_sec).
#[global] Instance set_is_plating_active : Setter is_plating_active :=
  ltac:(make_setter App_eta is_plating_active).
#[global] Instance set_target_current_A : Setter target_current_A :=
  ltac:(make_setter App_eta target_current_A).
#[global] Instance set_target_voltage_V : Setter target_voltage_V :=
  ltac:(make_setter App_eta target_voltage_V).
#[global] Instance set_estimated_time_sec : Setter estimated_time_sec :=
  ltac:(make_setter App_eta estimated_time_sec).
#[global] Instance set_psu_interface : Setter psu_interface :=
  ltac:(make_setter App_eta psu_interface).
#[global] Instance set_live_update_event : Setter live_update_event :=
  ltac:(make_setter App_eta live_update_event).
#[global] Instance set_status_label : Setter status_label :=
  ltac:(make_setter App_eta status_label).
#[global] Instance set_progress_bar : Setter progress_bar :=
  ltac:(make_setter App_eta progress_bar).
#[global] Instance set_connect_btn : Setter connect_btn :=
  ltac:(make_setter App_eta connect_btn).
#[global] Instance set_start_btn : Setter start_btn :=
  ltac:(make_setter App_eta start_btn).
#[global] Instance set_pause_btn : Setter pause_btn :=
  ltac:(make_setter App_eta pause_btn).
#[global] Instance set_abort_btn : Setter abort_btn :=
  ltac:(make_setter App_eta abort_btn).
#[global] Instance set_clock : Setter clock :=
  ltac:(make_setter App_eta clock).
#[global] Instance set_modals : Setter modals :=
  ltac:(make_setter App_eta modals).
#[global] Instance set_issued : Setter issued :=
  ltac:(make_setter App_eta issued).

(** The attributes and widgets as [build] creates them, before its final
    call of [update_calculations]. *)
Definition created (v : Scpi.Visa) : App := {|
  target_thickness_um := 10.0;
  target_area_cm2 := 50.0;
  complexity := 1;
  current_readout_V := 0.0;
  current_readout_A := 0.0;
  status_message := "NOT CONNECTED";
  progress_percent := 0;
  time_elapsed_sec := 0;
  is_plating_active := false;
  target_current_A := 0.0;
  target_voltage_V := 0.0;
  estimated_time_sec := 0;
  psu_interface := Scpi.init v;
  live_update_event := None;
  status_label := "NOT CONNECTED";
  progress_bar := 0;
  connect_btn := {| Button.text := "CONNECT"; Button.disabled := false |};
  start_btn := {| Button.text := "START PLATING"; Button.disabled := true |};
  pause_btn := {| Button.text := "PAUSE"; Button.disabled := true |};
  abort_btn := {| Button.text := "ABORT"; Button.disabled := true |};
  clock := {| Clock.scheduled := []; Clock.created := 0 |};
  modals := [];
  issued := []
|}.

Section Handlers.
Context `{Builtins}.

(** A method call on [self.psu_interface]. *)
Definition device {X} (m : M Scpi.PowerSupplyInterface X) : M App X :=
  zoom psu_interface (fun p => set psu_interface (fun _ => p)) m.

(** [self.psu_interface.send_command(command)], logged in [issued]. *)
Definition send_command (command : string) : M App bool :=
  modify (set issued (fun l => (l ++ [command])%list));;
  device (Scpi.send_command command).

(** [show_modal(title, message, ...)] and the dialogs built in place. *)
Definition show_modal (title : string) : M App unit :=
  modify (set modals (fun l => (l ++ [title])%list)).

Definition schedule_interval : M App nat :=
  c ← gets clock;
  let (event, c) := Clock.schedule_interval c in
  clock ::= c;;
  mret event.

Definition cancel (event : nat) : M App unit :=
  modify (set clock (Clock.cancel event)).

(** [update_calculations(self)]. *)
Definition update_calculations : M App unit :=
  thickness ← gets target_thickness_um;
  area ← gets target_area_cm2;
  level ← gets complexity;
  metrics ← lift (Formulas.calculate_metrics thickness area level);
  target_current_A ::= Formulas.target_current_A metrics;;
  target_voltage_V ::= Formulas.target_voltage_V metrics;;
  estimated_time_sec ::= Formulas.estimated_time_sec metrics;;
  (* enable start if connected and the calculated values are valid *)
  p ← gets psu_interface;
  est ← gets estimated_time_sec;
  active ← gets is_plating_active;
  start_btn ∙ Button.disabled ::=
    negb (Scpi.is_connected p) || Qle_bool est 0 || active.

(** [build(self)]; [v] is the instrument the application will talk to. *)
Definition build (v : Scpi.Visa) : result unit * App :=
  update_calculations (created v).

(** [on_thickness_input(self, instance)]: returns [instance], whose text
    is reverted when the input is refused. *)
Definition on_thickness_input (instance : TextInput.t) : M App TextInput.t :=
  try_except
    (val ← float (TextInput.text instance);
     (if Qle_bool val 0 then raise ValueError else pass);;
     target_thickness_um ::= val;;
     update_calculations;;
     mret instance)
    (fun e => match e with
              | ValueError =>
                  Some (show_modal "Input Error";;
                        last_valid ← gets target_thickness_um;
                        mret {| TextInput.name := TextInput.name instance;
                                TextInput.text := str_of_float last_valid |})
              | _ => None
              end).

(** [on_area_input(self, instance)]. *)
Definition on_area_input (instance : TextInput.t) : M App TextInput.t :=
  try_except
    (val ← float (TextInput.text instance);
     (if Qle_bool val 0 then raise ValueError else pass);;
     target_area_cm2 ::= val;;
     update_calculations;;
     mret instance)
    (fun e => match e with
              | ValueError =>
                  Some (show_modal "Input Error";;
                        last_valid ← gets target_area_cm2;
                        mret {| TextInput.name := TextInput.name instance;
                                TextInput.text := str_of_float last_valid |})
              | _ => None
              end).

(** [on_input_focus(self, instance, value)]. *)
Definition on_input_focus (instance : TextInput.t) (value : bool)
  : M App TextInput.t :=
  if negb value then
    if String.eqb (TextInput.name instance) "thickness_input"
    then on_thickness_input instance
    else if String.eqb (TextInput.name instance) "area_input"
    then on_area_input instance
    else mret instance
  else mret instance.

(** [on_complexity_change(self, instance, value)]. *)
Definition on_complexity_change (value : Q) : M App unit :=
  complexity ::= int_of_float value;;
  update_calculations.

(** [_execute_abort(self)]. *)
Definition _execute_abort : M App unit :=
  event ← gets live_update_event;
  (if event is Some ev then
     cancel ev;;
     live_update_event ::= None
   else pass);;
  send_command "OUTP OFF";;
  is_plating_active ::= false;;
  time_elapsed_sec ::= 0;;
  progress_percent ::= 0;;
  start_btn ∙ Button.text ::= "START PLATING";;
  status_message ::= "ABORTED. Resetting.";;
  status_label ::= "ABORTED. Resetting.";;
  (* reset buttons *)
  start_btn ∙ Button.disabled ::= false;;
  pause_btn ∙ Button.disabled ::= true;;
  abort_btn ∙ Button.disabled ::= true;;
  connect_btn ∙ Button.disabled ::= false;;
  (* clear live readouts and progress *)
  current_readout_V ::= 0.0%Q;;
  current_readout_A ::= 0.0%Q;;
  progress_bar ::= 0;;
  status_label ::= "ABORTED. Resetting.".

(** [on_connect_toggle(self, instance)]. *)
Definition on_connect_toggle : M App unit :=
  p ← gets psu_interface;
  (if negb (Scpi.is_connected p) then
     connected ← device Scpi.connect;
     if connected : bool then
       status_message ::= "CONNECTED (Ready to Apply)";;
       connect_btn ∙ Button.text ::= "DISCONNECT";;
       est ← gets estimated_time_sec;
       start_btn ∙ Button.disabled ::= Qle_bool est 0
     else
       status_message ::= "CONNECTION FAILED";;
       show_modal "Connection Failed"
   else
     device Scpi.disconnect;;
     status_message ::= "DISCONNECTED";;
     connect_btn ∙ Button.text ::= "CONNECT";;
     start_btn ∙ Button.disabled ::= true);;
  message ← gets status_message;
  status_label ::= message;;
  pause_btn ∙ Button.disabled ::= true;;
  abort_btn ∙ Button.disabled ::= true;;
  (* if disconnecting while plating, ensure we stop *)
  p ← gets psu_interface;
  active ← gets is_plating_active;
  if negb (Scpi.is_connected p) && active then _execute_abort else pass.

(** [start_process(self)]. *)
Definition start_process : M App unit :=
  p ← gets psu_interface;
  est ← gets estimated_time_sec;
  if negb (Scpi.is_connected p) || Qle_bool est 0 then
    show_modal "Error"
  else
    (* 1. apply settings *)
    V ← gets target_voltage_V;
    A ← gets target_current_A;
    let apply_command := "APPLY " +:+ str_of_float V +:+ " " +:+ str_of_float A in
    applied ← send_command apply_command;
    if negb applied then
      status_message ::= "ERROR: Failed to set parameters.";;
      status_label ::= "ERROR: Failed to set parameters."
    else
      (* 2. turn output on *)
      on ← send_command "OUTP ON";
      (if on : bool then
         is_plating_active ::= true;;
         time_elapsed_sec ::= 0;;
         progress_percent ::= 0;;
         (* start the live monitoring loop *)
         event ← gets live_update_event;
         (if event is Some ev then cancel ev else pass);;
         ev ← schedule_interval;
         live_update_event ::= Some ev;;
         status_message ::= "PLATING ACTIVE";;
         start_btn ∙ Button.text ::= "START PLATING";;
         start_btn ∙ Button.disabled ::= true;;
         pause_btn ∙ Button.disabled ::= false;;
         abort_btn ∙ Button.disabled ::= false;;
         connect_btn ∙ Button.disabled ::= true
       else
         status_message ::= "ERROR: Failed to turn output ON.");;
      message ← gets status_message;
      status_label ::= message.

(** The time the confirmation dialog of [on_start_plating] announces as
    "Est. Time Remaining". *)
Definition time_remaining (a : App) : string :=
  Formulas.format_time (estimated_time_sec a - inject_Z (time_elapsed_sec a)).

(** [on_start_plating(self, instance)]: opens the confirmation dialog,
    whose START button calls [start_process]. *)
Definition on_start_plating : M App unit :=
  show_modal "START CONFIRMATION".

(** [on_pause_plating(self, instance)]. *)
Definition on_pause_plating : M App unit :=
  active ← gets is_plating_active;
  if active : bool then
    send_command "OUTP OFF";;
    is_plating_active ::= false;;
    event ← gets live_update_event;
    (if event is Some ev then
       cancel ev;;
       live_update_event ::= None
     else pass);;
    elapsed ← gets time_elapsed_sec;
    status_message ::=
      "PAUSED (Elapsed: " +:+ Formulas.format_time (inject_Z elapsed) +:+ ")";;
    message ← gets status_message;
    status_label ::= message;;
    start_btn ∙ Button.text ::= "RESUME";;
    start_btn ∙ Button.disabled ::= false;;
    pause_btn ∙ Button.disabled ::= true;;
    abort_btn ∙ Button.disabled ::= false;;
    connect_btn ∙ Button.disabled ::= true
  else pass.

(** [on_abort_plating(self, instance)]: opens the confirmation dialog,
    whose OK button calls [_execute_abort]. *)
Definition on_abort_plating : M App unit :=
  show_modal "ABORT CONFIRMATION".

(** [live_monitor(self, dt)]. *)
Definition live_monitor (dt : Q) : M App unit :=
  active ← gets is_plating_active;
  if negb active then pass
  else
    (* 1. read actual data *)
    '(V, A, status) ← device Scpi.read_data;
    current_readout_V ::= V;;
    current_readout_A ::= A;;
    (* 3. update time and progress *)
    elapsed ← gets time_elapsed_sec;
    time_elapsed_sec ::= elapsed + 1;;
    est ← gets estimated_time_sec;
    (if Qlt_bool 0 est then
       elapsed ← gets time_elapsed_sec;
       ratio ← lift (truediv (inject_Z elapsed) est);
       progress_percent ::= Z.min 100 (int_of_float (ratio * 100))
     else
       progress_percent ::= 0);;
    progress ← gets progress_percent;
    progress_bar ::= progress;;
    status_label ::= status +:+ " (" +:+ str_of_int progress +:+ "%)";;
    (* 4. check for alerts and completion *)
    (if contains "ALERT" status then show_modal "Instrument Alert" else pass);;
    elapsed ← gets time_elapsed_sec;
    est ← gets estimated_time_sec;
    if Qle_bool est (inject_Z elapsed) then
      event ← gets live_update_event;
      (if event is Some ev then
         cancel ev;;
         live_update_event ::= None
       else pass);;
      send_command "OUTP OFF";;
      is_plating_active ::= false;;
      status_message ::= "PLATING COMPLETE";;
      (* final progress update *)
      progress_bar ::= 100;;
      status_label ::= "PLATING COMPLETE";;
      start_btn ∙ Button.disabled ::= true;;
      pause_btn ∙ Button.disabled ::= true;;
      abort_btn ∙ Button.disabled ::= true;;
      connect_btn ∙ Button.disabled ::= false;;
      show_modal "Process Complete"
    else pass.

(** ** The events Kivy delivers *)

Inductive event : Type :=
| ThicknessInput (instance : TextInput.t)
| AreaInput (instance : TextInput.t)
| InputFocus (instance : TextInput.t) (value : bool)
| ComplexityChange (value : Q)
| ConnectToggle
| StartPlating
| StartProcess
| PausePlating
| AbortPlating
| ExecuteAbort
| LiveMonitor (dt : Q).

Definition handle (e : event) : M App unit :=
  match e with
  | ThicknessInput instance => on_thickness_input instance;; pass
  | AreaInput instance => on_area_input instance;; pass
  | InputFocus instance value => on_input_focus instance value;; pass
  | ComplexityChange value => on_complexity_change value
  | ConnectToggle => on_connect_toggle
  | StartPlating => on_start_plating
  | StartProcess => start_process
  | PausePlating => on_pause_plating
  | AbortPlating => on_abort_plating
  | ExecuteAbort => _execute_abort
  | LiveMonitor dt => live_monitor dt
  end.

(** The parameter edits: text inputs and the complexity slider. *)
Definition parameter_edit (e : event) : bool :=
  match e with
  | ThicknessInput _ | AreaInput _ | InputFocus _ _ | ComplexityChange _ => true
  | _ => false
  end.

(** The states of the application: [build], then any sequence of handler
    calls, whatever the instrument answers and whether or not the widget
    behind a call is enabled. *)
Inductive reachable : App -> Prop :=
| reachable_build v : reachable (build v).2
| reachable_handle a e : reachable a -> reachable (handle e a).2.

End Handlers.

(** ** The process state read off the attributes *)

Inductive ProcessState : Set :=
| Disconnected
| Connected
| Active
| Paused
| Complete.

Definition process_state (a : App) : ProcessState :=
  if is_plating_active a then Active
  else if String.eqb (status_message a) "PLATING COMPLETE" then Complete
  else if String.eqb (Button.text (start_btn a)) "RESUME" then Paused
  else if Scpi.is_connected (psu_interface a) then Connected
  else Disconnected.

(** The monitoring loop: the interval held in [live_update_event] is the
    only one scheduled. *)
Definition loop_tracked (a : App) : Prop :=
  Clock.scheduled (clock a) =
  match live_update_event a with
  | Some ev => [ev]
  | None => []
  end.

(** The stored targets are those of the stored parameters. *)
Definition targets_consistent (a : App) : Prop :=
  Formulas.calculate_metrics
    (target_thickness_um a) (target_area_cm2 a) (complexity a)
  = Ok {| Formulas.target_current_A := target_current_A a;
          Formulas.target_voltage_V := target_voltage_V a;
          Formulas.estimated_time_sec := estimated_time_sec a |}.

End Gui.

(* ================================================================== *)
(** * Reasoning about methods *)
(* ================================================================== *)

Module Logic.
Import Py.

(** [wp m Q E s]: run from [s], the method [m] returns a value and a state
    in [Q], or raises an exception with a state in [E]. *)
Definition wp {S X} (m : M S X) (Q : X -> S -> Prop) (E : exn -> S -> Prop)
    (s : S) : Prop :=
  match m s with
  | (Ok x, s') => Q x s'
  | (Raise e, s') => E e s'
  end.

(** [m] never raises. *)
Definition no_raise {S} : exn -> S -> Prop := fun _ _ => False.

End Logic.

(* ================================================================== *)
(** * Notions of the specification *)
(* ================================================================== *)

Module Spec.
Import Py.

(** The current density of section 4.1: the table on {1..5}, the level-1
    entry for every other level. *)
Definition density_for (level : Z) : Q :=
  if level =? 1 then 5.0
  else if level =? 2 then 4.0
  else if level =? 3 then 3.0
  else if level =? 4 then 2.5
  else if level =? 5 then 2.0
  else 5.0.

(** A well-formed setpoint command: APPLY-prefixed, three
    whitespace-separated parts, the last two readable as floats. *)
Definition apply_well_formed `{Builtins} (c : string) : bool :=
  startswith c "APPLY" &&
  match split c with
  | [_; v; i] =>
      bool_decide (is_Some (float_of_str v)) &&
      bool_decide (is_Some (float_of_str i))
  | _ => false
  end.

(** The progress of the transition table of section 4.2, as written there:
    [min(100, elapsed_sec / estimated_time_sec * 100)]. *)
Definition exact_progress (est : Q) (elapsed : Z) : Q :=
  Qmin 100 (inject_Z elapsed / est * 100).

(** The same percentage cut to a whole number, 0 without a positive
    estimate: what [live_monitor] stores when the elapsed time is
    [elapsed]. *)
Definition whole_progress (est : Q) (elapsed : Z) : Z :=
  if Qlt_bool 0 est
  then Z.min 100 (int_of_float (inject_Z elapsed / est * 100))
  else 0.

(** The process parameters an application holds, and what a parameter
    edit makes of them: a text input that reads as a positive number
    replaces its parameter, any other text changes nothing; the slider
    sets the level. *)
Definition parameters (a : Gui.App) : Q * Q * Z :=
  (Gui.target_thickness_um a, Gui.target_area_cm2 a, Gui.complexity a).

Definition accepted `{Builtins} (text : string) : option Q :=
  match float_of_str text with
  | Some val => if Qle_bool val 0 then None else Some val
  | None => None
  end.

Definition edited `{Builtins} (e : Gui.event) (p : Q * Q * Z) : Q * Q * Z :=
  let '(thickness, area, level) := p in
  let thickness_input instance :=
    match accepted (TextInput.text instance) with
    | Some val => (val, area, level)
    | None => p
    end in
  let area_input instance :=
    match accepted (TextInput.text instance) with
    | Some val => (thickness, val, level)
    | None => p
    end in
  match e with
  | Gui.ThicknessInput instance => thickness_input instance
  | Gui.AreaInput instance => area_input instance
  | Gui.InputFocus instance value =>
      if value then p
      else if String.eqb (TextInput.name instance) "thickness_input"
      then thickness_input instance
      else if String.eqb (TextInput.name instance) "area_input"
      then area_input instance
      else p
  | Gui.ComplexityChange value => (thickness, area, int_of_float value)
  | _ => p
  end.

(** The computed targets an application holds. *)
Definition targets (a : Gui.App) : Formulas.Metrics :=
  {| Formulas.target_current_A := Gui.target_current_A a;
     Formulas.target_voltage_V := Gui.target_voltage_V a;
     Formulas.estimated_time_sec := Gui.estimated_time_sec a |}.

End Spec.

(* ================================================================== *)
(** * Concrete runs *)
(* ================================================================== *)

(** Instruments and application states on which the program is run, with
    the decimal builtins. *)
Module Scenario.
Import Py Scpi Gui.
#[local] Existing Instance Decimal.builtins.

(** A supply that answers every request. *)
Definition bench : Visa := {|
  respond := fun _ op =>
    match op with
    | Query "MEASure:VOLTage?" => Reply "2.01"
    | Query "MEASure:CURRent?" => Reply "0.249"
    | Query "SYSTem:ERRor?" => Reply "0,No error"
    | _ => Reply "ACME,PSU-1,0,1.0"
    end;
  wire := []
|}.

(** A supply that connects and takes its settings, and whose line is dead
    when the first measurement is queried. *)
Definition unplugged : Visa := {|
  respond := fun _ op =>
    match op with
    | Query "MEASure:VOLTage?" => Fail
    | Query "MEASure:CURRent?" => Fail
    | _ => Reply "ACME,PSU-1,0,1.0"
    end;
  wire := []
|}.

(** The state a handler leaves. *)
Definition after {X} (m : M App X) (a : App) : App := (m a).2.

(** Built, connected (CONNECT pressed). *)
Definition ready (v : Visa) : App := after on_connect_toggle (build v).2.

(** Plating: START confirmed. *)
Definition plating (v : Visa) : App := after start_process (ready v).

(** Paused after three ticks of plating. *)
Definition paused : App :=
  after on_pause_plating
    (after (live_monitor 1)
       (after (live_monitor 1)
          (after (live_monitor 1) (plating bench)))).

End Scenario.

(* ================================================================== *)
(** * Further notions *)
(* ================================================================== *)

Module Notions.
Import Py.

(** The status tokens [read_data] can return. *)
Definition status_token (status : string) : bool :=
  String.eqb status "PLATING ACTIVE"
  || String.eqb status "OUTPUT OFF (Connected)"
  || String.eqb status "NOT CONNECTED"
  || String.eqb status "COMMS ERROR - PSU OFFLINE"
  || String.eqb status "MEASUREMENT READ FAIL"
  || startswith status "ALERT: PSU Error (".

(** The value of [output_on] after [send_command] returned [accepted] on
    the normalised command [c]. *)
Definition output_after (c : string) (accepted before : bool) : bool :=
  if accepted then
    if String.eqb c "OUTP ON" then true
    else if String.eqb c "OUTP OFF" then false
    else before
  else before.

(** The interface after the operations [ops] were handed to pyvisa. *)
Definition after_io (ops : list Scpi.io_op) (p : Scpi.PowerSupplyInterface)
  : Scpi.PowerSupplyInterface :=
  set Scpi.visa
    (fun v => {| Scpi.respond := Scpi.respond v;
                 Scpi.wire := (Scpi.wire v ++ ops)%list |}) p.

(** Whether the instrument answered an operation. *)
Definition answered (o : Scpi.outcome) : bool :=
  match o with
  | Scpi.Reply _ => true
  | Scpi.Fail => false
  end.

Definition is_write (op : Scpi.io_op) : bool :=
  match op with
  | Scpi.Write _ => true
  | _ => false
  end.

(** The attributes of the interface agree with one another: connected
    only when a resource is held, and the output on only when
    connected. *)
Definition coherent (p : Scpi.PowerSupplyInterface) : bool :=
  implb (Scpi.is_connected p) (bool_decide (is_Some (Scpi.psu p)))
  && implb (Scpi.output_on p) (Scpi.is_connected p).

(** A client of the interface: any sequence of calls of its four
    methods. *)
Inductive method : Type :=
| Connect
| Disconnect
| SendCommand (command : string)
| ReadData.

Section Client.
Context `{Builtins}.
Local Open Scope py_scope.

Definition invoke (m : method) : M Scpi.PowerSupplyInterface unit :=
  match m with
  | Connect => Scpi.connect;; pass
  | Disconnect => Scpi.disconnect
  | SendCommand command => Scpi.send_command command;; pass
  | ReadData => Scpi.read_data;; pass
  end.

Fixpoint session (ms : list method) : M Scpi.PowerSupplyInterface unit :=
  match ms with
  | [] => pass
  | m :: ms => invoke m;; session ms
  end.

End Client.

Section Run.
Context `{Builtins}.
Local Open Scope py_scope.

(** [n] periods of the monitoring interval: [n] calls of
    [live_monitor]. *)
Fixpoint ticks (dt : Q) (n : nat) : M Gui.App unit :=
  match n with
  | O => pass
  | S n => Gui.live_monitor dt;; ticks dt n
  end.

End Run.

End Notions.

(* ================================================================== *)
(** * The program on IEEE 754 doubles *)
(* ================================================================== *)

(** Where the value of a float decides what the program does (a
    quotient that overflows, a product that is rounded, a NaN that passes
    a comparison), the methods are run on binary64 values: [Double] holds
    the runtime fragments, [Scpi64] and [Gui64] the methods, which differ
    from [Scpi] and [Gui] in the type of the floats and in the calls whose
    only effect there is an exception.  [Binary64] above has
    formulas.py. *)

Module Double.
Import Py.
Export Binary64.
#[local] Set Warnings "-inexact-float".

(** ** Ints and floats together *)

(** The exact value of a finite float. *)
Definition exact (x : binary64) : option Q :=
  match Prim2SF x with
  | S754_zero _ => Some 0%Q
  | S754_finite negative m e =>
      let magnitude :=
        if 0 <=? e then inject_Z (Zpos m * 2 ^ e)
        else (Zpos m # Z.to_pos (2 ^ (- e)))%Q in
      Some (if negative then (- magnitude)%Q else magnitude)
  | S754_infinity _ | S754_nan => None
  end.

(** [n >= x] for an int [n] and a float [x]: Python compares the two
    values exactly. *)
Definition int_ge_float (n : Z) (x : binary64) : bool :=
  match Prim2SF x with
  | S754_nan => false
  | S754_infinity negative => negative
  | _ => match exact x with
         | Some q => Qle_bool q (inject_Z n)
         | None => false
         end
  end.

(** The float nearest to a rational, ties to even: the quotient of its
    numerator and denominator, rounded once. *)
Definition of_Q (q : Q) : binary64 :=
  let quotient negative n :=
    SF2Prim (SFdiv prec emax (S754_finite negative n 0)
               (S754_finite false (Qden q) 0)) in
  match Qnum q with
  | Z0 => 0%float
  | Zpos n => quotient false n
  | Zneg n => quotient true n
  end.


Definition positive_float (f : spec_float) : Prop :=
  match f with
  | S754_infinity false | S754_finite false _ _ => True
  | _ => False
  end.

(** An argument of [format_time]: the elapsed time is an int, the
    estimated time a float. *)
Inductive number : Set :=
| Int (n : Z)
| Float (x : binary64).

(** [int(v)]. *)
Definition int (v : number) : result Z :=
  match v with
  | Int n => Ok n
  | Float x => int_of_float x
  end.

(** [format_time(seconds)] of formulas.py. *)
Definition format_time (seconds : number) : result string :=
  try_result
    (seconds ← int seconds;
     if seconds <? 0 then mret "00:00:00"
     else
       let hours := seconds / 3600 in
       let minutes := (seconds mod 3600) / 60 in
       let sec := seconds mod 60 in
       mret (format_02d hours +:+ ":" +:+ format_02d minutes +:+ ":"
             +:+ format_02d sec))
    (fun e => match e with
              | TypeError | ValueError => Some (Ok "N/A")
              | _ => None
              end).

(** ** Builtins fixed by the runtime *)

(** [float(s)] ([None]: ValueError), [str(x)] and [f"{x:.{places}f}"]. *)
Class Builtins : Type := {
  float_of_str : string -> option binary64;
  str_of_float : binary64 -> string;
  format_fixed : nat -> binary64 -> string
}.

Definition float {S} `{Builtins} (s : string) : M S binary64 :=
  match float_of_str s with
  | Some x => mret x
  | None => raise ValueError
  end.

End Double.

(** ** An instance that runs: decimal notation *)

Module Decimal64.
Import Py Double.
#[local] Set Warnings "-inexact-float".

Definition is_digit (c : ascii) : bool := bool_decide (is_Some (Decimal.digit c)).

(** An underscore stands between two digits. *)
Fixpoint grouped (previous : bool) (s : string) : bool :=
  match s with
  | EmptyString => true
  | String "_" r =>
      previous && match r with
                  | String c _ => is_digit c
                  | EmptyString => false
                  end && grouped false r
  | String c r => grouped (is_digit c) r
  end.

Fixpoint ungroup (s : string) : string :=
  match s with
  | EmptyString => EmptyString
  | String "_" r => ungroup r
  | String c r => String c (ungroup r)
  end.

Fixpoint lower (s : string) : string :=
  match s with
  | String c r =>
      let n := nat_of_ascii c in
      String (if ((65 <=? n) && (n <=? 90))%nat then ascii_of_nat (n + 32) else c)
             (lower r)
  | EmptyString => EmptyString
  end.

(** [float(s)]: white space around, a sign, then [inf], [infinity],
    [nan] in any case, or a decimal numeral with optional fraction and
    exponent, rounded to the nearest double. *)
Definition parse (s : string) : option binary64 :=
  let s := strip s in
  let (negative, body) := Decimal.sign s in
  let word := lower body in
  if String.eqb word "inf" || String.eqb word "infinity"
  then Some (if negative then neg_infinity else infinity)
  else if String.eqb word "nan" then Some nan
  else if grouped false body && negb (startswith body "+")
          && negb (startswith body "-") then
    q ← Decimal.parse_float (ungroup body);
    let x := of_Q q in
    Some (if negative then (- x)%float else x)
  else None.

(** [f"{x:.{places}f}"]. *)
Definition fixed (places : nat) (x : binary64) : string :=
  match Prim2SF x with
  | S754_nan => "nan"
  | S754_infinity negative => if negative then "-inf" else "inf"
  | S754_zero negative => Decimal.positional negative places 0
  | S754_finite negative _ _ =>
      match exact x with
      | Some q =>
          Decimal.positional negative places
            (Decimal.round_half_even (Qabs q * Decimal.Qpow10 (Z.of_nat places)))
      | None => "nan"
      end
  end.

(** The decimal exponent of a positive rational: [10 ^ k <= q < 10 ^ (k + 1)]. *)
Fixpoint magnitude (fuel : nat) (k : Z) (q : Q) : Z :=
  match fuel with
  | O => k
  | Datatypes.S fuel =>
      if Qlt_bool q (Decimal.Qpow10 (k + 1)) then k else magnitude fuel (k + 1) q
  end.

(** The shortest numeral that reads back as [x]: the first number of
    significant digits at which one of the two neighbouring numerals
    does, the nearer one when both do.  The result is the digits and the
    power of ten of the last one. *)
Fixpoint shortest_digits (fuel : nat) (digits : Z) (k : Z) (x : binary64) (q : Q)
  : Z * Z :=
  let unit := k - digits + 1 in
  let scaled := (q * Decimal.Qpow10 (- unit))%Q in
  let low := Qfloor scaled in
  let reads d := PrimFloat.eqb (of_Q (inject_Z d * Decimal.Qpow10 unit)) x in
  let nearer :=
    match ((scaled - inject_Z low) ?= 1 # 2)%Q with
    | Lt => true
    | Gt => false
    | Eq => Z.even low
    end in
  match fuel with
  | O => (low, unit)
  | Datatypes.S fuel =>
      match reads low, reads (low + 1) with
      | true, true => (if nearer then low else low + 1, unit)
      | true, false => (low, unit)
      | false, true => (low + 1, unit)
      | false, false => shortest_digits fuel (digits + 1) k x q
      end
  end.

(** Drop the trailing zeros of a numeral. *)
Fixpoint normal (fuel : nat) (d unit : Z) : Z * Z :=
  match fuel with
  | O => (d, unit)
  | Datatypes.S fuel =>
      if (d mod 10 =? 0) && negb (d =? 0) then normal fuel (d / 10) (unit + 1)
      else (d, unit)
  end.

(** [repr] of a positive finite float with digits [d] and last power
    [unit]: positional when the decimal exponent lies in [-4, 16),
    scientific otherwise. *)
Definition layout (d unit : Z) : string :=
  let digits := str_of_int d in
  let count := Z.of_nat (String.length digits) in
  let k := unit + count - 1 in
  if (k <? -4) || (16 <=? k) then
    let head := match digits with
                | String c EmptyString => String c EmptyString
                | String c r => String c ("." +:+ r)
                | EmptyString => "0"
                end in
    head +:+ "e" +:+ (if k <? 0 then "-" else "+")
    +:+ format_02d (Z.abs k)
  else if 0 <=? unit then
    digits +:+ Decimal.zeros (Z.to_nat unit) +:+ ".0"
  else if 0 <=? k then
    let whole := Z.to_nat (k + 1) in
    substring 0 whole digits +:+ "."
    +:+ substring whole (String.length digits - whole) digits
  else
    "0." +:+ Decimal.zeros (Z.to_nat (- k - 1)) +:+ digits.

(** [str(x)]. *)
Definition repr (x : binary64) : string :=
  match Prim2SF x with
  | S754_nan => "nan"
  | S754_infinity negative => if negative then "-inf" else "inf"
  | S754_zero negative => if negative then "-0.0" else "0.0"
  | S754_finite negative _ _ =>
      match exact x with
      | Some q =>
          let q := Qabs q in
          let k := magnitude 700 (-400) q in
          let '(d, unit) := shortest_digits 17 1 k (abs x) q in
          let '(d, unit) := normal 20 d unit in
          (if negative then "-" else "") +:+ layout d unit
      | None => "nan"
      end
  end.

Definition builtins : Builtins := {|
  float_of_str := parse;
  str_of_float := repr;
  format_fixed := fixed
|}.

End Decimal64.

(* ================================================================== *)
(** * scpi.py on doubles *)
(* ================================================================== *)

(** The two methods of [PowerSupplyInterface] that read floats; the
    object, [connect] and [disconnect] are those of [Scpi]. *)
Module Scpi64.
Import Py Double.
Export Scpi.
Local Open Scope py_scope.
#[local] Set Warnings "-inexact-float".

Section Methods.
Context `{Double.Builtins}.

(** [send_command(self, command)].  The [try] block of the APPLY branch
    yields [Some b] when it executes [return b] and [None] when it ends
    without returning, control then reaching the final [return False]. *)
Definition send_command (command : string) : M PowerSupplyInterface bool :=
  connected ← gets is_connected;
  p ← gets psu;
  if negb connected || negb (bool_decide (is_Some p)) then mret false
  else
    let command := upper (strip command) in
    if startswith command "APPLY" then
      returned ←
        try_except
          (let parts := split command in
           if (length parts =? 3)%nat then
             V ← float (nth 1 parts "");
             A ← float (nth 2 parts "");
             io (Write ("VOLTage " +:+ format_fixed 2 V));;
             io (Write ("CURRent " +:+ format_fixed 3 A));;
             mret (Some true)
           else mret None)
          (fun e => match e with
                    | ValueError | VisaIOError => Some (mret (Some false))
                    | _ => None
                    end);
      match returned with
      | Some b => mret b
      | None => mret false
      end
    else if String.eqb command "OUTP ON" then
      try_except
        (io (Write "OUTPut:STATe ON");;
         output_on ::= true;;
         mret true)
        (fun e => match e with
                  | VisaIOError => Some (mret false)
                  | _ => None
                  end)
    else if String.eqb command "OUTP OFF" then
      try_except
        (io (Write "OUTPut:STATe OFF");;
         output_on ::= false;;
         mret true)
        (fun e => match e with
                  | VisaIOError => Some (mret false)
                  | _ => None
                  end)
    else mret false.

(** The local variables of [read_data]. *)
Record read_data_locals : Type := {
  local_V : binary64;
  local_A : binary64;
  local_status : string
}.

Definition read_data_locals_eta (a : read_data_locals) :=
  Build_read_data_locals (local_V a) (local_A a) (local_status a).

#[local] Instance set_local_V : Setter local_V :=
  ltac:(make_setter read_data_locals_eta local_V).
#[local] Instance set_local_A : Setter local_A :=
  ltac:(make_setter read_data_locals_eta local_A).
#[local] Instance set_local_status : Setter local_status :=
  ltac:(make_setter read_data_locals_eta local_status).

(** [read_data(self)]: returns [(V, A, status)]. *)
Definition read_data : M PowerSupplyInterface (binary64 * binary64 * string) :=
  with_locals
    {| local_status := "PLATING ACTIVE"; local_V := 0.0%float; local_A := 0.0%float |}
    (connected ← self (gets is_connected);
     p ← self (gets psu);
     if negb connected || negb (bool_decide (is_Some p))
     then mret (0.0%float, 0.0%float, "NOT CONNECTED")
     else
       on ← self (gets output_on);
       if negb on then mret (0.0%float, 0.0%float, "OUTPUT OFF (Connected)")
       else
         try_except
           (answer ← self (io (Query "MEASure:VOLTage?"));
            v ← float (strip answer);
            frame (local_V ::= v);;
            answer ← self (io (Query "MEASure:CURRent?"));
            a ← float (strip answer);
            frame (local_A ::= a);;
            (* the system error register *)
            try_except
              (answer ← self (io (Query "SYSTem:ERRor?"));
               let error_state := strip answer in
               if negb (contains "No error" error_state)
               then frame (local_status ::=
                             "ALERT: PSU Error (" +:+ error_state +:+ ")")
               else pass)
              (fun e => match e with
                        | VisaIOError => Some pass
                        | _ => None
                        end))
           (fun e => match e with
                     | VisaIOError =>
                         Some (frame (local_status ::= "COMMS ERROR - PSU OFFLINE");;
                               self disconnect)
                     | ValueError =>
                         Some (frame (local_status ::= "MEASUREMENT READ FAIL"))
                     | _ => None
                     end);;
         v ← frame (gets local_V);
         a ← frame (gets local_A);
         status ← frame (gets local_status);
         mret (v, a, status)).

End Methods.

End Scpi64.

(* ================================================================== *)
(** * gui.py on doubles *)
(* ================================================================== *)

Module Gui64.
Import Py Double.
Local Open Scope py_scope.
#[local] Set Warnings "-inexact-float".

(** ** class ElectroplatingControllerApp

    [estimated_time_sec] holds a float, or the int 0 of [build] and of
    the all-zero result, which is read as the float 0.0: the two compare
    alike with every number, and differ only in [on_start_plating], when
    an elapsed time beyond the floats is subtracted. *)
Record App : Type := {
  target_thickness_um : binary64;
  target_area_cm2 : binary64;
  complexity : Z;
  current_readout_V : binary64;
  current_readout_A : binary64;
  status_message : string;
  progress_percent : Z;
  time_elapsed_sec : Z;
  is_plating_active : bool;
  target_current_A : binary64;
  target_voltage_V : binary64;
  estimated_time_sec : binary64;
  psu_interface : Scpi.PowerSupplyInterface;
  live_update_event : option nat;
  (** widgets: the text of [status_label], the value of [progress_bar] *)
  status_label : string;
  progress_bar : Z;
  connect_btn : Button.t;
  start_btn : Button.t;
  pause_btn : Button.t;
  abort_btn : Button.t;
  (** the environment: Kivy's clock, the titles of the dialogs opened and
      the commands passed to [psu_interface.send_command], oldest first *)
  clock : Clock.t;
  modals : list string;
  issued : list string
}.

Definition App_eta (a : App) :=
  Build_App
    (target_thickness_um a) (target_area_cm2 a) (complexity a)
    (current_readout_V a) (current_readout_A a) (status_message a)
    (progress_percent a) (time_elapsed_sec a) (is_plating_active a)
    (target_current_A a) (target_voltage_V a) (estimated_time_sec a)
    (psu_interface a) (live_update_event a) (status_label a) (progress_bar a)
    (connect_btn a) (start_btn a) (pause_btn a) (abort_btn a)
    (clock a) (modals a) (issued a).

#[global] Instance set_target_thickness_um : Setter target_thickness_um :=
  ltac:(make_setter App_eta target_thickness_um).
#[global] Instance set_target_area_cm2 : Setter target_area_cm2 :=
  ltac:(make_setter App_eta target_area_cm2).
#[global] Instance set_complexity : Setter complexity :=
  ltac:(make_setter App_eta complexity).
#[global] Instance set_current_readout_V : Setter current_readout_V :=
  ltac:(make_setter App_eta current_readout_V).
#[global] Instance set_current_readout_A : Setter current_readout_A :=
  ltac:(make_setter App_eta current_readout_A).
#[global] Instance set_status_message : Setter status_message :=
  ltac:(make_setter App_eta status_message).
#[global] Instance set_progress_percent : Setter progress_percent :=
  ltac:(make_setter App_eta progress_percent).
#[global] Instance set_time_elapsed_sec : Setter time_elapsed_sec :=
  ltac:(make_setter App_eta time_elapsed_sec).
#[global] Instance set_is_plating_active : Setter is_plating_active :=
  ltac:(make_setter App_eta is_plating_active).
#[global] Instance set_target_current_A : Setter target_current_A :=
  ltac:(make_setter App_eta target_current_A).
#[global] Instance set_target_voltage_V : Setter target_voltage_V :=
  ltac:(make_setter App_eta target_voltage_V).
#[global] Instance set_estimated_time_sec : Setter estimated_time_sec :=
  ltac:(make_setter App_eta estimated_time_sec).
#[global] Instance set_psu_interface : Setter psu_interface :=
  ltac:(make_setter App_eta psu_interface).
#[global] Instance set_live_update_event : Setter live_update_event :=
  ltac:(make_setter App_eta live_update_event).
#[global] Instance set_status_label : Setter status_label :=
  ltac:(make_setter App_eta status_label).
#[global] Instance set_progress_bar : Setter progress_bar :=
  ltac:(make_setter App_eta progress_bar).
#[global] Instance set_connect_btn : Setter connect_btn :=
  ltac:(make_setter App_eta connect_btn).
#[global] Instance set_start_btn : Setter start_btn :=
  ltac:(make_setter App_eta start_btn).
#[global] Instance set_pause_btn : Setter pause_btn :=
  ltac:(make_setter App_eta pause_btn).
#[global] Instance set_abort_btn : Setter abort_btn :=
  ltac:(make_setter App_eta abort_btn).
#[global] Instance set_clock : Setter clock :=
  ltac:(make_setter App_eta clock).
#[global] Instance set_modals : Setter modals :=
  ltac:(make_setter App_eta modals).
#[global] Instance set_issued : Setter issued :=
  ltac:(make_setter App_eta issued).

(** The attributes and widgets as [build] creates them, before its final
    call of [update_calculations]. *)
Definition created (v : Scpi.Visa) : App := {|
  target_thickness_um := 10.0%float;
  target_area_cm2 := 50.0%float;
  complexity := 1;
  current_readout_V := 0.0%float;
  current_readout_A := 0.0%float;
  status_message := "NOT CONNECTED";
  progress_percent := 0;
  time_elapsed_sec := 0;
  is_plating_active := false;
  target_current_A := 0.0%float;
  target_voltage_V := 0.0%float;
  estimated_time_sec := 0%float;
  psu_interface := Scpi.init v;
  live_update_event := None;
  status_label := "NOT CONNECTED";
  progress_bar := 0;
  connect_btn := {| Button.text := "CONNECT"; Button.disabled := false |};
  start_btn := {| Button.text := "START PLATING"; Button.disabled := true |};
  pause_btn := {| Button.text := "PAUSE"; Button.disabled := true |};
  abort_btn := {| Button.text := "ABORT"; Button.disabled := true |};
  clock := {| Clock.scheduled := []; Clock.created := 0 |};
  modals := [];
  issued := []
|}.

Section Handlers.
Context `{Double.Builtins}.

(** A method call on [self.psu_interface]. *)
Definition device {X} (m : M Scpi.PowerSupplyInterface X) : M App X :=
  zoom psu_interface (fun p => set psu_interface (fun _ => p)) m.

(** [self.psu_interface.send_command(command)], logged in [issued]. *)
Definition send_command (command : string) : M App bool :=
  modify (set issued (fun l => (l ++ [command])%list));;
  device (Scpi64.send_command command).

(** [show_modal(title, message, ...)] and the dialogs built in place. *)
Definition show_modal (title : string) : M App unit :=
  modify (set modals (fun l => (l ++ [title])%list)).

Definition schedule_interval : M App nat :=
  c ← gets clock;
  let (event, c) := Clock.schedule_interval c in
  clock ::= c;;
  mret event.

Definition cancel (event : nat) : M App unit :=
  modify (set clock (Clock.cancel event)).

(** [update_calculations(self)]. *)
Definition update_calculations : M App unit :=
  thickness ← gets target_thickness_um;
  area ← gets target_area_cm2;
  level ← gets complexity;
  metrics ← lift (Binary64.calculate_metrics thickness area level);
  target_current_A ::= Binary64.target_current_A metrics;;
  target_voltage_V ::= Binary64.target_voltage_V metrics;;
  estimated_time_sec ::= Binary64.estimated_time_sec metrics;;
  (* the text of the estimated time label *)
  est ← gets estimated_time_sec;
  lift (format_time (Float est));;
  (* enable start if connected and the calculated values are valid *)
  p ← gets psu_interface;
  est ← gets estimated_time_sec;
  active ← gets is_plating_active;
  start_btn ∙ Button.disabled ::=
    negb (Scpi.is_connected p) || (est <=? 0)%float || active.

(** [build(self)]; [v] is the instrument the application will talk to. *)
Definition build (v : Scpi.Visa) : result unit * App :=
  update_calculations (created v).

(** [on_thickness_input(self, instance)]: returns [instance], whose text
    is reverted when the input is refused. *)
Definition on_thickness_input (instance : TextInput.t) : M App TextInput.t :=
  try_except
    (val ← float (TextInput.text instance);
     (if (val <=? 0)%float then raise ValueError else pass);;
     target_thickness_um ::= val;;
     update_calculations;;
     mret instance)
    (fun e => match e with
              | ValueError =>
                  Some (show_modal "Input Error";;
                        last_valid ← gets target_thickness_um;
                        mret {| TextInput.name := TextInput.name instance;
                                TextInput.text := str_of_float last_valid |})
              | _ => None
              end).

(** [on_area_input(self, instance)]. *)
Definition on_area_input (instance : TextInput.t) : M App TextInput.t :=
  try_except
    (val ← float (TextInput.text instance);
     (if (val <=? 0)%float then raise ValueError else pass);;
     target_area_cm2 ::= val;;
     update_calculations;;
     mret instance)
    (fun e => match e with
              | ValueError =>
                  Some (show_modal "Input Error";;
                        last_valid ← gets target_area_cm2;
                        mret {| TextInput.name := TextInput.name instance;
                                TextInput.text := str_of_float last_valid |})
              | _ => None
              end).

(** [on_input_focus(self, instance, value)]. *)
Definition on_input_focus (instance : TextInput.t) (value : bool)
  : M App TextInput.t :=
  if negb value then
    if String.eqb (TextInput.name instance) "thickness_input"
    then on_thickness_input instance
    else if String.eqb (TextInput.name instance) "area_input"
    then on_area_input instance
    else mret instance
  else mret instance.

(** [on_complexity_change(self, instance, value)]. *)
Definition on_complexity_change (value : binary64) : M App unit :=
  level ← lift (int_of_float value);
  complexity ::= level;;
  update_calculations.

(** [_execute_abort(self)]. *)
Definition _execute_abort : M App unit :=
  event ← gets live_update_event;
  (if event is Some ev then
     cancel ev;;
     live_update_event ::= None
   else pass);;
  send_command "OUTP OFF";;
  is_plating_active ::= false;;
  time_elapsed_sec ::= 0;;
  progress_percent ::= 0;;
  start_btn ∙ Button.text ::= "START PLATING";;
  status_message ::= "ABORTED. Resetting.";;
  status_label ::= "ABORTED. Resetting.";;
  (* reset buttons *)
  start_btn ∙ Button.disabled ::= false;;
  pause_btn ∙ Button.disabled ::= true;;
  abort_btn ∙ Button.disabled ::= true;;
  connect_btn ∙ Button.disabled ::= false;;
  (* clear live readouts and progress *)
  current_readout_V ::= 0.0%float;;
  current_readout_A ::= 0.0%float;;
  progress_bar ::= 0;;
  status_label ::= "ABORTED. Resetting.".

(** [on_connect_toggle(self, instance)]. *)
Definition on_connect_toggle : M App unit :=
  p ← gets psu_interface;
  (if negb (Scpi.is_connected p) then
     connected ← device Scpi.connect;
     if connected : bool then
       status_message ::= "CONNECTED (Ready to Apply)";;
       connect_btn ∙ Button.text ::= "DISCONNECT";;
       est ← gets estimated_time_sec;
       start_btn ∙ Button.disabled ::= (est <=? 0)%float
     else
       status_message ::= "CONNECTION FAILED";;
       show_modal "Connection Failed"
   else
     device Scpi.disconnect;;
     status_message ::= "DISCONNECTED";;
     connect_btn ∙ Button.text ::= "CONNECT";;
     start_btn ∙ Button.disabled ::= true);;
  message ← gets status_message;
  status_label ::= message;;
  pause_btn ∙ Button.disabled ::= true;;
  abort_btn ∙ Button.disabled ::= true;;
  (* if disconnecting while plating, ensure we stop *)
  p ← gets psu_interface;
  active ← gets is_plating_active;
  if negb (Scpi.is_connected p) && active then _execute_abort else pass.

(** [start_process(self)]. *)
Definition start_process : M App unit :=
  p ← gets psu_interface;
  est ← gets estimated_time_sec;
  if negb (Scpi.is_connected p) || (est <=? 0)%float then
    show_modal "Error"
  else
    (* 1. apply settings *)
    V ← gets target_voltage_V;
    A ← gets target_current_A;
    let apply_command := "APPLY " +:+ str_of_float V +:+ " " +:+ str_of_float A in
    applied ← send_command apply_command;
    if negb applied then
      status_message ::= "ERROR: Failed to set parameters.";;
      status_label ::= "ERROR: Failed to set parameters."
    else
      (* 2. turn output on *)
      on ← send_command "OUTP ON";
      (if on : bool then
         is_plating_active ::= true;;
         time_elapsed_sec ::= 0;;
         progress_percent ::= 0;;
         (* start the live monitoring loop *)
         event ← gets live_update_event;
         (if event is Some ev then cancel ev else pass);;
         ev ← schedule_interval;
         live_update_event ::= Some ev;;
         status_message ::= "PLATING ACTIVE";;
         start_btn ∙ Button.text ::= "START PLATING";;
         start_btn ∙ Button.disabled ::= true;;
         pause_btn ∙ Button.disabled ::= false;;
         abort_btn ∙ Button.disabled ::= false;;
         connect_btn ∙ Button.disabled ::= true
       else
         status_message ::= "ERROR: Failed to turn output ON.");;
      message ← gets status_message;
      status_label ::= message.

(** The time the confirmation dialog of [on_start_plating] announces as
    "Est. Time Remaining". *)
Definition time_remaining (a : App) : result string :=
  elapsed ← float_of_int (time_elapsed_sec a);
  format_time (Float (estimated_time_sec a - elapsed)).

(** [on_start_plating(self, instance)]: builds the message and opens the
    confirmation dialog, whose START button calls [start_process]. *)
Definition on_start_plating : M App unit :=
  a ← gets id;
  lift (time_remaining a);;
  show_modal "START CONFIRMATION".

(** [on_pause_plating(self, instance)]. *)
Definition on_pause_plating : M App unit :=
  active ← gets is_plating_active;
  if active : bool then
    send_command "OUTP OFF";;
    is_plating_active ::= false;;
    event ← gets live_update_event;
    (if event is Some ev then
       cancel ev;;
       live_update_event ::= None
     else pass);;
    elapsed ← gets time_elapsed_sec;
    text ← lift (format_time (Int elapsed));
    status_message ::= "PAUSED (Elapsed: " +:+ text +:+ ")";;
    message ← gets status_message;
    status_label ::= message;;
    start_btn ∙ Button.text ::= "RESUME";;
    start_btn ∙ Button.disabled ::= false;;
    pause_btn ∙ Button.disabled ::= true;;
    abort_btn ∙ Button.disabled ::= false;;
    connect_btn ∙ Button.disabled ::= true
  else pass.

(** [on_abort_plating(self, instance)]: opens the confirmation dialog,
    whose OK button calls [_execute_abort]. *)
Definition on_abort_plating : M App unit :=
  show_modal "ABORT CONFIRMATION".

(** [live_monitor(self, dt)]. *)
Definition live_monitor (dt : binary64) : M App unit :=
  active ← gets is_plating_active;
  if negb active then pass
  else
    (* 1. read actual data *)
    '(V, A, status) ← device Scpi64.read_data;
    current_readout_V ::= V;;
    current_readout_A ::= A;;
    (* 3. update time and progress *)
    elapsed ← gets time_elapsed_sec;
    time_elapsed_sec ::= elapsed + 1;;
    (* the text of the elapsed time label *)
    elapsed ← gets time_elapsed_sec;
    lift (format_time (Int elapsed));;
    est ← gets estimated_time_sec;
    (if (0 <? est)%float then
       elapsed ← gets time_elapsed_sec;
       elapsed ← lift (float_of_int elapsed);
       ratio ← lift (truediv elapsed est);
       percent ← lift (int_of_float (ratio * 100));
       progress_percent ::= Z.min 100 percent
     else
       progress_percent ::= 0);;
    progress ← gets progress_percent;
    progress_bar ::= progress;;
    status_label ::= status +:+ " (" +:+ str_of_int progress +:+ "%)";;
    (* 4. check for alerts and completion *)
    (if contains "ALERT" status then show_modal "Instrument Alert" else pass);;
    elapsed ← gets time_elapsed_sec;
    est ← gets estimated_time_sec;
    if int_ge_float elapsed est then
      event ← gets live_update_event;
      (if event is Some ev then
         cancel ev;;
         live_update_event ::= None
       else pass);;
      send_command "OUTP OFF";;
      is_plating_active ::= false;;
      status_message ::= "PLATING COMPLETE";;
      (* final progress update *)
      progress_bar ::= 100;;
      status_label ::= "PLATING COMPLETE";;
      (* the text of the elapsed time label *)
      lift (format_time (Float est));;
      start_btn ∙ Button.disabled ::= true;;
      pause_btn ∙ Button.disabled ::= true;;
      abort_btn ∙ Button.disabled ::= true;;
      connect_btn ∙ Button.disabled ::= false;;
      show_modal "Process Complete"
    else pass.

(** ** The events Kivy delivers *)

Inductive event : Type :=
| ThicknessInput (instance : TextInput.t)
| AreaInput (instance : TextInput.t)
| InputFocus (instance : TextInput.t) (value : bool)
| ComplexityChange (value : binary64)
| ConnectToggle
| StartPlating
| StartProcess
| PausePlating
| AbortPlating
| ExecuteAbort
| LiveMonitor (dt : binary64).

Definition handle (e : event) : M App unit :=
  match e with
  | ThicknessInput instance => on_thickness_input instance;; pass
  | AreaInput instance => on_area_input instance;; pass
  | InputFocus instance value => on_input_focus instance value;; pass
  | ComplexityChange value => on_complexity_change value
  | ConnectToggle => on_connect_toggle
  | StartPlating => on_start_plating
  | StartProcess => start_process
  | PausePlating => on_pause_plating
  | AbortPlating => on_abort_plating
  | ExecuteAbort => _execute_abort
  | LiveMonitor dt => live_monitor dt
  end.

(** The parameter edits: text inputs and the complexity slider. *)
Definition parameter_edit (e : event) : bool :=
  match e with
  | ThicknessInput _ | AreaInput _ | InputFocus _ _ | ComplexityChange _ => true
  | _ => false
  end.

(** The states of the application: [build], then any sequence of handler
    calls, whatever the instrument answers and whether or not the widget
    behind a call is enabled. *)
Inductive reachable : App -> Prop :=
| reachable_build v : reachable (build v).2
| reachable_handle a e : reachable a -> reachable (handle e a).2.

End Handlers.

(** ** The process state read off the attributes *)

Inductive ProcessState : Set :=
| Disconnected
| Connected
| Active
| Paused
| Complete.

Definition process_state (a : App) : ProcessState :=
  if is_plating_active a then Active
  else if String.eqb (status_message a) "PLATING COMPLETE" then Complete
  else if String.eqb (Button.text (start_btn a)) "RESUME" then Paused
  else if Scpi.is_connected (psu_interface a) then Connected
  else Disconnected.

(** The monitoring loop: the interval held in [live_update_event] is the
    only one scheduled. *)
Definition loop_tracked (a : App) : Prop :=
  Clock.scheduled (clock a) =
  match live_update_event a with
  | Some ev => [ev]
  | None => []
  end.

(** The computed targets an application holds. *)
Definition targets (a : App) : Binary64.Metrics :=
  {| Binary64.target_current_A := target_current_A a;
     Binary64.target_voltage_V := target_voltage_V a;
     Binary64.estimated_time_sec := estimated_time_sec a |}.

(** The stored targets are those [calculate_metrics] returns for the
    stored parameters, when it returns. *)
Definition targets_current (a : App) : Prop :=
  forall m,
    Binary64.calculate_metrics
      (target_thickness_um a) (target_area_cm2 a) (complexity a) = Ok m ->
    targets a = m.

End Gui64.

(* ================================================================== *)
(** * Notions of the specification, on doubles *)
(* ================================================================== *)

Module Spec64.
Import Py Double.
#[local] Set Warnings "-inexact-float".

(** The current density of section 4.1: the table on {1..5}, the level-1
    entry for every other level. *)
Definition density_for (level : Z) : binary64 :=
  if level =? 1 then 5.0
  else if level =? 2 then 4.0
  else if level =? 3 then 3.0
  else if level =? 4 then 2.5
  else if level =? 5 then 2.0
  else 5.0.

(** The result of section 4.1 for a given density: the current and the
    time from the density, the voltage from the raw level; the all-zero
    result when the denominator of the time is zero; [OverflowError]
    when the level is beyond the floats. *)
Definition computed (density thickness area : binary64) (level : Z)
  : result Metrics :=
  let current := (density / 1000.0 * area)%float in
  let numerator := (thickness / 10000.0 * area * 10.0 * 2.0 * 96485.0)%float in
  let denominator := (150.0 * current * 0.95)%float in
  if (denominator =? 0)%float
  then Ok {| target_current_A := 0.0; target_voltage_V := 0.0;
             estimated_time_sec := 0 |}
  else
    steps ← float_of_int (level - 1);
    Ok {| target_current_A := current;
          target_voltage_V := (2.0 * (1.0 + steps * 0.2))%float;
          estimated_time_sec := (numerator / denominator)%float |}.

(** The progress of the transition table of section 4.2 as the program
    computes it: [min(100, int(elapsed / estimated * 100))] in double
    arithmetic, cut to a whole number, 0 without a positive estimate;
    [OverflowError] when the elapsed time is beyond the floats or the
    product overflows. *)
Definition percent (est : binary64) (elapsed : Z) : result Z :=
  if (0 <? est)%float then
    x ← float_of_int elapsed;
    ratio ← truediv x est;
    whole ← int_of_float (ratio * 100);
    Ok (Z.min 100 whole)
  else Ok 0.


(** The process parameters an application holds, and what a parameter
    edit makes of them: a text input that reads as a float which is not
    [<= 0] replaces its parameter, any other text changes nothing; the
    slider sets the level to the whole part of its value, when it has
    one. *)
Definition parameters (a : Gui64.App) : binary64 * binary64 * Z :=
  (Gui64.target_thickness_um a, Gui64.target_area_cm2 a, Gui64.complexity a).

Definition accepted `{Builtins} (text : string) : option binary64 :=
  match float_of_str text with
  | Some val => if (val <=? 0)%float then None else Some val
  | None => None
  end.

Definition edited `{Builtins} (e : Gui64.event) (p : binary64 * binary64 * Z)
  : binary64 * binary64 * Z :=
  let '(thickness, area, level) := p in
  let thickness_input instance :=
    match accepted (TextInput.text instance) with
    | Some val => (val, area, level)
    | None => p
    end in
  let area_input instance :=
    match accepted (TextInput.text instance) with
    | Some val => (thickness, val, level)
    | None => p
    end in
  match e with
  | Gui64.ThicknessInput instance => thickness_input instance
  | Gui64.AreaInput instance => area_input instance
  | Gui64.InputFocus instance value =>
      if value then p
      else if String.eqb (TextInput.name instance) "thickness_input"
      then thickness_input instance
      else if String.eqb (TextInput.name instance) "area_input"
      then area_input instance
      else p
  | Gui64.ComplexityChange value =>
      match int_of_float value with
      | Ok whole => (thickness, area, whole)
      | Raise _ => p
      end
  | _ => p
  end.

Section Run.
Context `{Builtins}.
Local Open Scope py_scope.

(** [n] periods of the monitoring interval. *)
Fixpoint ticks (dt : binary64) (n : nat) : M Gui64.App unit :=
  match n with
  | O => pass
  | S n => Gui64.live_monitor dt;; ticks dt n
  end.

End Run.

End Spec64.

(* ================================================================== *)
(** * Concrete runs on doubles *)
(* ================================================================== *)

Module Scenario64.
Import Py Double Scpi Gui64.
#[local] Existing Instance Decimal64.builtins.
#[local] Set Warnings "-inexact-float".

(** The state a handler leaves. *)
Definition after {X} (m : M App X) (a : App) : App := (m a).2.

Definition input (name text : string) : TextInput.t :=
  {| TextInput.name := name; TextInput.text := text |}.

(** Built, connected (CONNECT pressed). *)
Definition ready (v : Visa) : App := after on_connect_toggle (build v).2.

(** Plating: START confirmed. *)
Definition plating (v : Visa) : App := after start_process (ready v).




(** A thickness so large that the estimated time is an infinity. *)
Definition thickness_1e308 : event :=
  ThicknessInput (input "thickness_input" "1e308").

End Scenario64.

(* ================================================================== *)
(** * The calculator *)
(* ================================================================== *)

Section FormulasFacts.
Import Py Formulas Spec.

Lemma getitem_level_1 : getitem CURRENT_DENSITY_MAP 1 = Ok 5.0%Q.
Proof. reflexivity. Qed.

Lemma dict_get_density level :
  dict_get CURRENT_DENSITY_MAP level 5.0%Q = density_for level.
Proof.
  unfold density_for, dict_get, CURRENT_DENSITY_MAP.
  destruct (Z.eqb_spec level 1) as [->|?]; [ reflexivity | ].
  destruct (Z.eqb_spec level 2) as [->|?]; [ reflexivity | ].
  destruct (Z.eqb_spec level 3) as [->|?]; [ reflexivity | ].
  destruct (Z.eqb_spec level 4) as [->|?]; [ reflexivity | ].
  destruct (Z.eqb_spec level 5) as [->|?]; [ reflexivity | ].
  rewrite !lookup_insert_ne by lia.
  now rewrite lookup_singleton_ne by lia.
Qed.

Lemma density_for_positive level : (0 < density_for level)%Q.
Proof. unfold density_for. repeat case_match; reflexivity. Qed.

Lemma truediv_nonzero x y : ¬ (y == 0)%Q -> truediv x y = Ok (x / y)%Q.
Proof.
  intros Hy. unfold truediv.
  destruct (Qeq_bool y 0) eqn:E; [ | reflexivity ].
  apply Qeq_bool_iff in E. contradiction.
Qed.

Lemma truediv_zero x y : (y == 0)%Q -> truediv x y = Raise ZeroDivisionError.
Proof.
  intros Hy. unfold truediv. apply Qeq_bool_iff in Hy. now rewrite Hy.
Qed.

Lemma calculate_metrics_body_unfold thickness area level :
  calculate_metrics_body thickness area level =
  let current := (density_for level / 1000.0 * area)%Q in
  est ← truediv (thickness / 10000.0 * area * DENSITY_G_CM3
                 * inject_Z CHARGE_VALENCE * F)%Q
                (MOLAR_MASS_G_MOL * current * CURRENT_EFFICIENCY)%Q;
  mret {| target_current_A := current;
          target_voltage_V := (2.0 * (1.0 + inject_Z (level - 1) * 0.2))%Q;
          estimated_time_sec := est |}.
Proof.
  unfold calculate_metrics_body. rewrite getitem_level_1. cbn [mbind result_bind].
  rewrite dict_get_density.
  rewrite !truediv_nonzero by (intros E; discriminate E).
  reflexivity.
Qed.

Lemma calculate_metrics_zero_area thickness area level :
  (area == 0)%Q -> calculate_metrics thickness area level = Ok safe_zeros.
Proof.
  intros Ha. unfold calculate_metrics.
  rewrite calculate_metrics_body_unfold. cbn zeta.
  rewrite truediv_zero; [ reflexivity | ].
  rewrite Ha. ring.
Qed.

Lemma calculate_metrics_nonzero_area thickness area level :
  ¬ (area == 0)%Q ->
  calculate_metrics thickness area level =
  let current := (density_for level / 1000.0 * area)%Q in
  Ok {| target_current_A := current;
        target_voltage_V := (2.0 * (1.0 + inject_Z (level - 1) * 0.2))%Q;
        estimated_time_sec :=
          (thickness / 10000.0 * area * DENSITY_G_CM3
           * inject_Z CHARGE_VALENCE * F
           / (MOLAR_MASS_G_MOL * current * CURRENT_EFFICIENCY))%Q |}.
Proof.
  intros Ha. unfold calculate_metrics.
  rewrite calculate_metrics_body_unfold. cbn zeta.
  rewrite truediv_nonzero; [ reflexivity | ].
  intros E. apply Ha.
  pose proof (density_for_positive level) as Hd.
  unfold MOLAR_MASS_G_MOL, CURRENT_EFFICIENCY in E.
  assert (Hx : (density_for level * area == 0)%Q).
  { transitivity
      (150.0 * (density_for level / 1000.0 * area) * 0.95 * (1000000 # 142500))%Q;
      [ field | rewrite E; ring ]. }
  apply Qmult_integral in Hx. destruct Hx as [Hx|Hx]; [ | exact Hx ].
  rewrite Hx in Hd. discriminate Hd.
Qed.

(** [calculate_metrics] never raises. *)
Lemma calculate_metrics_returns thickness area level :
  exists m, calculate_metrics thickness area level = Ok m.
Proof.
  destruct (Qeq_dec area 0) as [Ha|Ha].
  - rewrite (calculate_metrics_zero_area _ _ _ Ha). eauto.
  - rewrite (calculate_metrics_nonzero_area _ _ _ Ha). eauto.
Qed.

(** C7.  [calculate_metrics(10.0, 50.0, 3)] returns a current of 0.15 A, a
    voltage of 2.8 V and a time that rounds to 4513.92 s, which
    [format_time] renders as 01:15:13. *)
Theorem sample_calculation :
  exists m,
    calculate_metrics 10.0 50.0 3 = Ok m /\
    (target_current_A m == 0.15)%Q /\
    (target_voltage_V m == 2.8)%Q /\
    (Qabs (estimated_time_sec m - 4513.92) <= 0.005)%Q /\
    format_time (estimated_time_sec m) = "01:15:13".
Proof.
  eexists. split; [ reflexivity | ].
  repeat split; vm_compute; congruence.
Qed.

(** The same sample in binary64: the floats Python computes are the
    doubles nearest to 0.15 and 2.8, and 4513.918128654971. *)
#[local] Set Warnings "-inexact-float".
Remark sample_calculation_binary64 :
  Binary64.calculate_metrics 10.0 50.0 3
  = Ok {| Binary64.target_current_A := 0.15;
          Binary64.target_voltage_V := 2.8;
          Binary64.estimated_time_sec := 4513.918128654971 |} /\
  Binary64.format_time 4513.918128654971 = Ok "01:15:13".
Proof. split; vm_compute; reflexivity. Qed.
#[local] Set Warnings "inexact-float".

End FormulasFacts.

(* ================================================================== *)
(** * Rules for [wp] *)
(* ================================================================== *)

Section WpRules.
Import Py Logic.
Context {S : Type}.
Implicit Types (s : S) (E : exn -> S -> Prop).

Lemma wp_ret {X} (x : X) (Q : X -> S -> Prop) E s :
  Q x s -> wp (mret x) Q E s.
Proof. exact id. Qed.

Lemma wp_bind {X Y} (m : M S X) (f : X -> M S Y) (Q : Y -> S -> Prop) E s :
  wp m (fun x s' => wp (f x) Q E s') E s -> wp (m ≫= f) Q E s.
Proof.
  unfold wp, mbind, M_bind. destruct (m s) as [[x|e] s']; exact id.
Qed.

Lemma wp_gets {X} (proj : S -> X) (Q : X -> S -> Prop) E s :
  Q (proj s) s -> wp (gets proj) Q E s.
Proof. exact id. Qed.

Lemma wp_modify (f : S -> S) (Q : unit -> S -> Prop) E s :
  Q tt (f s) -> wp (modify f) Q E s.
Proof. exact id. Qed.

Lemma wp_assign {T} (proj : S -> T) `{!Setter proj} (v : T)
    (Q : unit -> S -> Prop) E s :
  Q tt (set proj (fun _ => v) s) -> wp (assign proj v) Q E s.
Proof. exact id. Qed.

Lemma wp_assign_in {T U} (obj : S -> T) `{!Setter obj} (proj : T -> U)
    `{!Setter proj} (v : U) (Q : unit -> S -> Prop) E s :
  Q tt (set obj (set proj (fun _ => v)) s) -> wp (assign_in obj proj v) Q E s.
Proof. exact id. Qed.

Lemma wp_raise {X} (e : exn) (Q : X -> S -> Prop) E s :
  E e s -> wp (raise e) Q E s.
Proof. exact id. Qed.

Lemma wp_lift {X} (r : result X) (x : X) (Q : X -> S -> Prop) E s :
  r = Ok x -> Q x s -> wp (lift r) Q E s.
Proof. intros ->. exact id. Qed.

Lemma wp_try_except {X} (body : M S X) handler (Q : X -> S -> Prop) E s :
  wp body Q
     (fun e s' => match handler e with
                  | Some k => wp k Q E s'
                  | None => E e s'
                  end) s ->
  wp (try_except body handler) Q E s.
Proof.
  unfold wp, try_except. destruct (body s) as [[x|e] s']; [ exact id | ].
  destruct (handler e); exact id.
Qed.

Lemma wp_zoom {T X} (get : S -> T) (put : T -> S -> S) (m : M T X)
    (Q : X -> S -> Prop) E s :
  wp m (fun x t => Q x (put t s)) (fun e t => E e (put t s)) (get s) ->
  wp (zoom get put m) Q E s.
Proof.
  unfold wp, zoom. destruct (m (get s)) as [[x|e] t]; exact id.
Qed.

Lemma wp_mono {X} (m : M S X) (Q Q' : X -> S -> Prop) E E' s :
  wp m Q E s ->
  (forall x s', Q x s' -> Q' x s') ->
  (forall e s', E e s' -> E' e s') ->
  wp m Q' E' s.
Proof.
  unfold wp. destruct (m s) as [[x|e] s']; eauto.
Qed.

(** What [wp] says of the run itself. *)
Lemma wp_returns {X} (m : M S X) (Q : X -> S -> Prop) s :
  wp m Q no_raise s -> exists x s', m s = (Ok x, s') /\ Q x s'.
Proof.
  unfold wp. destruct (m s) as [[x|e] s']; [ eauto | intros [] ].
Qed.

Lemma run_wp {X} (m : M S X) (Q : X -> S -> Prop) E s x s' :
  m s = (Ok x, s') -> Q x s' -> wp m Q E s.
Proof. unfold wp. intros ->. exact id. Qed.

End WpRules.

#[local] Arguments Logic.wp : simpl never.

(** Simplification of the states met during symbolic execution:
    projections of updated records and of pairs. *)
Ltac simpl_state :=
  cbn [fst snd Py.set
       Scpi.is_connected Scpi.output_on Scpi.psu Scpi.rm Scpi.visa
       Scpi.set_is_connected Scpi.set_output_on Scpi.set_psu Scpi.set_rm
       Scpi.set_visa Scpi.respond Scpi.wire
       Button.text Button.disabled Button.set_text Button.set_disabled
       Gui.target_thickness_um Gui.target_area_cm2 Gui.complexity
       Gui.current_readout_V Gui.current_readout_A Gui.status_message
       Gui.progress_percent Gui.time_elapsed_sec Gui.is_plating_active
       Gui.target_current_A Gui.target_voltage_V Gui.estimated_time_sec
       Gui.psu_interface Gui.live_update_event Gui.status_label
       Gui.progress_bar Gui.connect_btn Gui.start_btn Gui.pause_btn
       Gui.abort_btn Gui.clock Gui.modals Gui.issued
       Gui.set_target_thickness_um Gui.set_target_area_cm2 Gui.set_complexity
       Gui.set_current_readout_V Gui.set_current_readout_A
       Gui.set_status_message Gui.set_progress_percent
       Gui.set_time_elapsed_sec Gui.set_is_plating_active
       Gui.set_target_current_A Gui.set_target_voltage_V
       Gui.set_estimated_time_sec Gui.set_psu_interface
       Gui.set_live_update_event Gui.set_status_label Gui.set_progress_bar
       Gui.set_connect_btn Gui.set_start_btn Gui.set_pause_btn
       Gui.set_abort_btn Gui.set_clock Gui.set_modals Gui.set_issued] in *.

(** One step of symbolic execution; [wp_call] holds the rules of the
    methods specified so far. *)
Ltac wp_call := fail.

Ltac wp_step :=
  lazymatch goal with
  | |- Logic.wp (mbind _ _) _ _ _ => apply wp_bind
  | |- Logic.wp (mret _) _ _ _ => apply wp_ret
  | |- Logic.wp (Py.gets _) _ _ _ => apply wp_gets
  | |- Logic.wp (Py.modify _) _ _ _ => apply wp_modify
  | |- Logic.wp (Py.assign _ _) _ _ _ => apply wp_assign
  | |- Logic.wp (Py.assign_in _ _ _) _ _ _ => apply wp_assign_in
  | |- Logic.wp (Py.raise _) _ _ _ => apply wp_raise
  | |- Logic.wp (Py.try_except _ _) _ _ _ => apply wp_try_except
  | |- Logic.wp (Py.zoom _ _ _) _ _ _ => apply wp_zoom
  | |- Logic.wp (if ?b then _ else _) _ _ _ => destruct b eqn:?
  | |- Logic.wp (match ?x with _ => _ end) _ _ _ => destruct x eqn:?
  | |- match ?h with Some _ => _ | None => _ end => progress cbv beta iota
  | |- Logic.wp _ _ _ _ => wp_call
  end; cbv beta; simpl_state.

Ltac wp_run := repeat wp_step.

(* ================================================================== *)
(** * The power supply interface *)
(* ================================================================== *)

Section ScpiFacts.
Import Py Scpi Spec.
Context `{Builtins}.

(** C10.  [send_command] returns [False], raises nothing and leaves the
    interface and the wire untouched when the interface is not connected,
    and also when the stripped, upper-cased command is neither OUTP ON nor
    OUTP OFF nor a well-formed APPLY command. *)
Theorem send_command_refusals (command : string) (p : PowerSupplyInterface) :
  let c := upper (strip command) in
  is_connected p = false \/
  (c ≠ "OUTP ON" /\ c ≠ "OUTP OFF" /\ apply_well_formed c = false) ->
  send_command command p = (Ok false, p).
Proof.
  intros c Hc. unfold send_command. fold c.
  cbv [mbind M_bind gets].
  destruct (is_connected p) eqn:Hconn; [ | reflexivity ].
  destruct (psu p) as [r|] eqn:Hpsu; [ | reflexivity ].
  destruct Hc as [Hc | (Hon & Hoff & Hwf)]; [ discriminate Hc | ].
  cbn [negb orb]. rewrite bool_decide_eq_true_2 by eauto. cbn [negb].
  unfold apply_well_formed in Hwf.
  destruct (startswith c "APPLY").
  - cbn [andb] in Hwf. cbv [try_except float].
    destruct (split c) as [|p0 [|p1 [|p2 [|p3 ps]]]]; cbn [length Nat.eqb nth];
      try reflexivity.
    apply andb_false_iff in Hwf.
    destruct (float_of_str p1) as [V|]; [ | reflexivity ].
    destruct (float_of_str p2) as [A|]; [ | reflexivity ].
    destruct Hwf as [Hwf|Hwf]; apply bool_decide_eq_false in Hwf;
      exfalso; apply Hwf; eauto.
  - apply String.eqb_neq in Hon, Hoff. rewrite Hon, Hoff. reflexivity.
Qed.
Lemma wp_visa_io (op : io_op) (Q : string -> Visa -> Prop) E (v : Visa) :
  (forall answer, Q answer {| respond := respond v; wire := (wire v ++ [op])%list |}) ->
  E VisaIOError {| respond := respond v; wire := (wire v ++ [op])%list |} ->
  Logic.wp (visa_io op) Q E v.
Proof.
  intros HQ HE. unfold Logic.wp, visa_io.
  destruct (respond v (length (wire v)) op); auto.
Qed.

Lemma wp_io (op : io_op) (Q : string -> PowerSupplyInterface -> Prop) E p :
  (forall answer,
     Q answer (set visa (fun _ => {| respond := respond (visa p);
                                      wire := (wire (visa p) ++ [op])%list |}) p)) ->
  E VisaIOError (set visa (fun _ => {| respond := respond (visa p);
                                        wire := (wire (visa p) ++ [op])%list |}) p) ->
  Logic.wp (io op) Q E p.
Proof.
  intros HQ HE. unfold io. apply wp_zoom, wp_visa_io; assumption.
Qed.

Lemma wp_float {S} (text : string) (Q : Q -> S -> Prop) E (s : S) :
  (forall x, float_of_str text = Some x -> Q x s) ->
  (float_of_str text = None -> E ValueError s) ->
  Logic.wp (float text) Q E s.
Proof.
  intros HQ HE. unfold float.
  destruct (float_of_str text); [ apply wp_ret | apply wp_raise ]; auto.
Qed.

End ScpiFacts.

Ltac wp_call ::=
  lazymatch goal with
  | |- Logic.wp (Scpi.io _) _ _ _ => apply wp_io; [ intros ? | ]
  | |- Logic.wp (Py.float _) _ _ _ => apply wp_float; intros
  end.

Section ScpiTotal.
Import Py Scpi Logic.
Context `{Builtins}.

Lemma send_command_spec (command : string) p :
  Logic.wp (send_command command)
    (fun _ p' => is_connected p' = is_connected p /\ psu p' = psu p)
    Logic.no_raise p.
Proof.
  unfold send_command. wp_run; auto.
Qed.

Lemma wp_with_locals {L X} (locals : L) (m : M (PowerSupplyInterface * L) X)
    (Q : X -> PowerSupplyInterface -> Prop) E p :
  wp m (fun x s => Q x s.1) (fun e s => E e s.1) (p, locals) ->
  wp (with_locals locals m) Q E p.
Proof.
  unfold wp, with_locals. destruct (m (p, locals)) as [[x|e] s]; exact id.
Qed.

Lemma disconnect_spec p :
  wp disconnect
    (fun _ p' => is_connected p' = false /\ psu p' = None /\ output_on p' = false)
    no_raise p.
Proof.
  unfold disconnect. wp_run; auto.
Qed.

Lemma connect_spec p :
  wp connect (fun connected p' => is_connected p' = connected) no_raise p.
Proof.
  unfold connect. wp_run; auto.
Qed.

End ScpiTotal.

Ltac wp_call ::=
  lazymatch goal with
  | |- Logic.wp (Scpi.io _) _ _ _ => apply wp_io; [ intros ? | ]
  | |- Logic.wp (Py.float _) _ _ _ => apply wp_float; intros
  | |- Logic.wp (Scpi.with_locals _ _) _ _ _ => apply wp_with_locals
  | |- Logic.wp (Scpi.self _) _ _ _ => unfold Scpi.self
  | |- Logic.wp (Scpi.frame _) _ _ _ => unfold Scpi.frame
  | |- Logic.wp Scpi.disconnect _ _ _ =>
      eapply wp_mono; [ apply disconnect_spec | cbv beta; intros .. ]
  end.

Section ScpiRead.
Import Py Scpi Logic.
Context `{Builtins}.

Lemma read_data_spec p :
  wp read_data (fun _ _ => True) no_raise p.
Proof.
  unfold read_data. wp_run; auto.
Qed.

End ScpiRead.

Ltac wp_call ::=
  lazymatch goal with
  | |- Logic.wp (Scpi.io _) _ _ _ => apply wp_io; [ intros ? | ]
  | |- Logic.wp (Py.float _) _ _ _ => apply wp_float; intros
  | |- Logic.wp (Gui.device _) _ _ _ => unfold Gui.device
  | |- Logic.wp (Gui.send_command _) _ _ _ => unfold Gui.send_command
  | |- Logic.wp (Gui.show_modal _) _ _ _ => unfold Gui.show_modal
  | |- Logic.wp Gui.schedule_interval _ _ _ =>
      unfold Gui.schedule_interval, Clock.schedule_interval
  | |- Logic.wp (Gui.cancel _) _ _ _ => unfold Gui.cancel
  | |- Logic.wp Gui.update_calculations _ _ _ => unfold Gui.update_calculations
  | |- Logic.wp Gui._execute_abort _ _ _ => unfold Gui._execute_abort
  | |- Logic.wp (Gui.on_thickness_input _) _ _ _ => unfold Gui.on_thickness_input
  | |- Logic.wp (Gui.on_area_input _) _ _ _ => unfold Gui.on_area_input
  | |- Logic.wp (Gui.on_input_focus _ _) _ _ _ => unfold Gui.on_input_focus
  | |- Logic.wp (Gui.on_complexity_change _) _ _ _ =>
      unfold Gui.on_complexity_change
  | |- Logic.wp Gui.on_connect_toggle _ _ _ => unfold Gui.on_connect_toggle
  | |- Logic.wp Gui.on_start_plating _ _ _ => unfold Gui.on_start_plating
  | |- Logic.wp Gui.start_process _ _ _ => unfold Gui.start_process
  | |- Logic.wp Gui.on_pause_plating _ _ _ => unfold Gui.on_pause_plating
  | |- Logic.wp Gui.on_abort_plating _ _ _ => unfold Gui.on_abort_plating
  | |- Logic.wp (Py.lift (Formulas.calculate_metrics ?t ?a ?l)) _ _ _ =>
      let m := fresh "metrics" in
      destruct (calculate_metrics_returns t a l) as [m ?];
      eapply wp_lift; [ eassumption | ]
  | |- Logic.wp (Scpi.send_command _) _ _ _ =>
      eapply wp_mono;
      [ apply send_command_spec
      | cbv beta; intros ? ? [? ?]
      | cbv beta; intros ? ? [] ]
  | |- Logic.wp Scpi.read_data _ _ _ =>
      eapply wp_mono;
      [ apply read_data_spec
      | cbv beta; intros [[? ?] ?] ? _
      | cbv beta; intros ? ? [] ]
  | |- Logic.wp Scpi.connect _ _ _ =>
      eapply wp_mono;
      [ apply connect_spec
      | cbv beta; intros ? ? ?
      | cbv beta; intros ? ? [] ]
  | |- Logic.wp Scpi.disconnect _ _ _ =>
      eapply wp_mono;
      [ apply disconnect_spec
      | cbv beta; intros ? ? (? & ? & ?)
      | cbv beta; intros ? ? [] ]
  end.

(* ================================================================== *)
(** * The controller *)
(* ================================================================== *)

Section GuiFacts.
Import Py Scpi Gui Logic Spec.
Context `{Builtins}.

Lemma cancel_tracked n c :
  Clock.scheduled c = [n] -> Clock.scheduled (Clock.cancel n c) = [].
Proof.
  intros Hc. unfold Clock.cancel. cbn [Clock.scheduled]. rewrite Hc.
  rewrite filter_cons. destruct (decide (n ≠ n)); [ congruence | reflexivity ].
Qed.

(** ** The monitoring tick *)

Lemma int_of_float_integer (x : Q) (n : Z) :
  (x == inject_Z n)%Q -> int_of_float x = n.
Proof.
  unfold Qeq, int_of_float. cbn [inject_Z Qnum Qden]. intros Hx.
  rewrite Z.mul_1_r in Hx. rewrite Hx. apply Z.quot_mul. discriminate.
Qed.

Lemma int_of_float_lower_bound (x : Q) (n : Z) :
  (inject_Z n <= x)%Q -> n <= int_of_float x.
Proof.
  unfold Qle, int_of_float. cbn [inject_Z Qnum Qden]. intros Hx.
  rewrite Z.mul_1_r in Hx. apply Z.quot_le_lower_bound; lia.
Qed.

Lemma int_of_float_nonneg (x : Q) : (0 <= x)%Q -> 0 <= int_of_float x.
Proof.
  unfold Qle, int_of_float. cbn [Qnum Qden]. intros Hx.
  rewrite Z.mul_1_r in Hx. apply Z.quot_pos; lia.
Qed.

Lemma Qlt_bool_iff x y : Qlt_bool x y = true <-> (x < y)%Q.
Proof.
  unfold Qlt_bool. rewrite negb_true_iff.
  split; intros Hxy.
  - apply Qnot_le_lt. intros Hle. apply Qle_bool_iff in Hle. congruence.
  - destruct (Qle_bool y x) eqn:E; [ | reflexivity ].
    apply Qle_bool_iff in E. exfalso. apply (Qlt_not_le _ _ Hxy E).
Qed.

Lemma wp_truediv (x y : Q) (Q : Q -> App -> Prop) E a :
  ¬ (y == 0)%Q -> Q (x / y)%Q a -> wp (lift (truediv x y)) Q E a.
Proof.
  intros Hy HQ. eapply wp_lift; [ apply truediv_nonzero, Hy | exact HQ ].
Qed.

(** A tick of a plating application: the time advances by one, the
    progress is recomputed, and the run either goes on untouched or is
    completed. *)
Lemma live_monitor_plating (dt : Q) (a : App) :
  is_plating_active a = true ->
  let elapsed := time_elapsed_sec a + 1 in
  let est := estimated_time_sec a in
  wp (live_monitor dt)
    (fun _ a' =>
       time_elapsed_sec a' = elapsed /\
       estimated_time_sec a' = est /\
       progress_percent a' = whole_progress est elapsed /\
       if Qle_bool est (inject_Z elapsed)
       then is_plating_active a' = false /\
            status_message a' = "PLATING COMPLETE" /\
            progress_bar a' = 100 /\
            issued a' = (issued a ++ ["OUTP OFF"])%list /\
            live_update_event a' = None /\
            clock a' = (if live_update_event a is Some ev
                        then Clock.cancel ev (clock a) else clock a)
       else is_plating_active a' = true /\
            status_message a' = status_message a /\
            progress_bar a' = whole_progress est elapsed /\
            issued a' = issued a /\
            live_update_event a' = live_update_event a /\
            clock a' = clock a)
    no_raise a.
Proof.
  intros Hactive elapsed est. subst elapsed est.
  unfold live_monitor, whole_progress.
  apply wp_bind, wp_gets. rewrite Hactive. cbn [negb].
  wp_run;
    try (apply wp_truediv;
         [ intros E0;
           match goal with Hlt : Qlt_bool 0 _ = true |- _ =>
             apply Qlt_bool_iff in Hlt; rewrite E0 in Hlt; discriminate Hlt
           end | ]);
    wp_run; repeat split; congruence.
Qed.

(** A tick of an application that is not plating does nothing. *)
Lemma live_monitor_idle (dt : Q) (a : App) :
  is_plating_active a = false -> live_monitor dt a = (Ok tt, a).
Proof.
  intros Hidle. unfold live_monitor. cbv [mbind M_bind gets].
  rewrite Hidle. reflexivity.
Qed.

(** The tick on which the elapsed time reaches or passes the estimate
    completes the run. *)
Lemma tick_completes (dt : Q) (a : App) :
  is_plating_active a = true ->
  (0 < estimated_time_sec a)%Q ->
  (estimated_time_sec a <= inject_Z (time_elapsed_sec a + 1))%Q ->
  loop_tracked a ->
  exists a',
    live_monitor dt a = (Ok tt, a') /\
    time_elapsed_sec a' = time_elapsed_sec a + 1 /\
    progress_percent a' = 100 /\
    progress_bar a' = 100 /\
    process_state a' = Complete /\
    issued a' = (issued a ++ ["OUTP OFF"])%list /\
    live_update_event a' = None /\
    Clock.scheduled (clock a') = [] /\
    forall dt', live_monitor dt' a' = (Ok tt, a').
Proof.
  intros Hactive Hpos Hreach Hloop.
  destruct (wp_returns _ _ _ (live_monitor_plating dt a Hactive))
    as ([] & a' & Hrun & Htime & Hest & Hprogress & Hdone).
  rewrite (proj2 (Qle_bool_iff _ _) Hreach) in Hdone.
  destruct Hdone as (Hidle & Hmsg & Hbar & Hissued & Hevent & Hclock).
  exists a'. repeat split; try assumption.
  - rewrite Hprogress. unfold whole_progress.
    rewrite (proj2 (Qlt_bool_iff _ _) Hpos).
    apply Z.min_l, int_of_float_lower_bound.
    change (inject_Z 100) with (1 * 100)%Q.
    apply Qmult_le_compat_r; [ | discriminate ].
    apply Qle_shift_div_l; [ exact Hpos | ].
    rewrite Qmult_1_l. exact Hreach.
  - unfold process_state. rewrite Hidle, Hmsg. reflexivity.
  - rewrite Hclock. unfold loop_tracked in Hloop.
    destruct (live_update_event a) as [ev|]; [ | exact Hloop ].
    apply cancel_tracked, Hloop.
  - intros dt'. apply live_monitor_idle, Hidle.
Qed.

(** Whenever [start_process] leaves the application plating, it has
    set the elapsed time and the progress to 0: a start and a resume
    alike. *)
Lemma start_process_resets (a : App) :
  exists a',
    start_process a = (Ok tt, a') /\
    (is_plating_active a = false -> is_plating_active a' = true ->
     time_elapsed_sec a' = 0 /\ progress_percent a' = 0).
Proof.
  enough (Hwp : wp start_process
            (fun _ a' =>
               is_plating_active a = false -> is_plating_active a' = true ->
               time_elapsed_sec a' = 0 /\ progress_percent a' = 0)
            no_raise a).
  { apply wp_returns in Hwp. destruct Hwp as ([] & a' & Hrun & Hpost). eauto. }
  unfold start_process. wp_run; intros Hidle Hactive;
    try (split; reflexivity); congruence.
Qed.

(** C3.  With a zero area [calculate_metrics] returns the all-zero result
    and does not raise; with an estimated time that is not positive,
    [start_process] only opens the error dialog: no command is issued and
    the interface is untouched. *)
Theorem zero_area_is_not_startable (thickness area : Q) (level : Z) (a : App) :
  (area == 0)%Q ->
  (estimated_time_sec a <= 0)%Q ->
  Formulas.calculate_metrics thickness area level = Ok Formulas.safe_zeros /\
  (Formulas.estimated_time_sec Formulas.safe_zeros <= 0)%Q /\
  exists a',
    start_process a = (Ok tt, a') /\
    a' = set modals (fun l => (l ++ ["Error"])%list) a /\
    issued a' = issued a /\
    psu_interface a' = psu_interface a.
Proof.
  intros Harea Hest. split; [ apply calculate_metrics_zero_area, Harea | ].
  split; [ discriminate | ].
  eexists. split; [ | split; [ reflexivity | split; reflexivity ] ].
  unfold start_process. cbv [mbind M_bind gets].
  apply Qle_bool_iff in Hest. rewrite Hest, orb_true_r. reflexivity.
Qed.

(** ** Every handler returns, and keeps the invariants *)

Lemma filter_cancelled (n : nat) : filter (fun e => e ≠ n) [n] = [].
Proof.
  rewrite filter_cons.
  destruct (decide (n ≠ n)); [ congruence | reflexivity ].
Qed.

Lemma handle_spec (e : event) (a : App) :
  targets_consistent a ->
  loop_tracked a ->
  0 <= time_elapsed_sec a ->
  wp (handle e)
    (fun _ a' =>
       targets_consistent a' /\
       loop_tracked a' /\
       0 <= time_elapsed_sec a' /\
       parameters a' = edited e (parameters a) /\
       (parameter_edit e = true ->
        psu_interface a' = psu_interface a /\ issued a' = issued a))
    no_raise a.
Proof.
  intros Htargets Hloop Helapsed.
  destruct e; unfold handle; cbn [parameter_edit].
  11: unfold live_monitor.
  all: wp_run;
    try (apply wp_truediv;
         [ intros E0;
           match goal with Hlt : Qlt_bool 0 _ = true |- _ =>
             apply Qlt_bool_iff in Hlt; rewrite E0 in Hlt; discriminate Hlt
           end | ]);
    wp_run.
  all: unfold targets_consistent, loop_tracked, parameters, edited, accepted in *;
       simpl_state;
       cbn [Clock.scheduled Clock.cancel Clock.created Clock.schedule_interval
            fst snd] in *.
  all: repeat match goal with
         | Hf : float_of_str _ = _ |- _ => rewrite Hf
         | Hq : Qle_bool _ _ = _ |- _ => rewrite Hq
         | Hs : String.eqb _ _ = _ |- _ => rewrite Hs
         | Hn : negb ?value = _ |- _ => destruct value; try discriminate Hn; clear Hn
         | He : live_update_event _ = _ |- _ => rewrite He in *; clear He
         | Hp : (_, _) = (_, _) |- _ => injection Hp as <- <-
         | m : Formulas.Metrics |- _ => destruct m
         end;
       rewrite ?Hloop, ?filter_cancelled;
       repeat split; try assumption; try reflexivity; try discriminate; try lia.
Qed.

Lemma build_spec (v : Visa) :
  (build v).1 = Ok tt /\
  targets_consistent (build v).2 /\
  loop_tracked (build v).2 /\
  0 <= time_elapsed_sec (build v).2.
Proof.
  assert (Hwp : wp update_calculations
            (fun _ a' =>
               targets_consistent a' /\ loop_tracked a' /\
               0 <= time_elapsed_sec a')
            no_raise (created v)).
  { wp_run. unfold targets_consistent, loop_tracked. simpl_state.
    match goal with m : Formulas.Metrics |- _ => destruct m end.
    split; [ assumption | split; [ reflexivity | discriminate ] ]. }
  apply wp_returns in Hwp. destruct Hwp as ([] & a' & Hrun & Hpost).
  unfold build. rewrite Hrun. split; [ reflexivity | exact Hpost ].
Qed.

(** The invariants of the reachable states. *)
Lemma reachable_invariants (a : App) :
  reachable a ->
  targets_consistent a /\ loop_tracked a /\ 0 <= time_elapsed_sec a.
Proof.
  induction 1 as [v | a e _ (Htargets & Hloop & Helapsed)].
  - apply build_spec.
  - destruct (wp_returns _ _ _ (handle_spec e a Htargets Hloop Helapsed))
      as ([] & a' & Hrun & Ht & Hl & He & _).
    rewrite Hrun. repeat split; assumption.
Qed.

(** Every handler returns. *)
Lemma handle_returns (e : event) (a : App) :
  reachable a -> exists a', handle e a = (Ok tt, a').
Proof.
  intros Hreach.
  destruct (reachable_invariants a Hreach) as (Htargets & Hloop & Helapsed).
  destruct (wp_returns _ _ _ (handle_spec e a Htargets Hloop Helapsed))
    as ([] & a' & Hrun & _).
  eauto.
Qed.

End GuiFacts.

(* ================================================================== *)
(** * The program on concrete inputs *)
(* ================================================================== *)

Section Runs.
Import Py Scpi Gui Logic Spec Scenario.
#[local] Existing Instance Decimal.builtins.

Lemma plating_reachable (v : Visa) : reachable (plating v).
Proof.
  exact (reachable_handle _ StartProcess
           (reachable_handle _ ConnectToggle (reachable_build v))).
Qed.

Lemma paused_reachable : reachable paused.
Proof.
  exact (reachable_handle _ PausePlating
           (reachable_handle _ (LiveMonitor 1)
              (reachable_handle _ (LiveMonitor 1)
                 (reachable_handle _ (LiveMonitor 1)
                    (plating_reachable bench))))).
Qed.

(** C1 (the program at the failing input).  The supply stops answering
    during a run: the tick shows the COMMS ERROR token and the interface
    has disconnected itself, but the application is still plating, its
    interval is still scheduled, and the next tick is processed. *)
Theorem comms_failure_leaves_plating_active :
  let a := plating unplugged in
  let a1 := after (live_monitor 1) a in
  let a2 := after (live_monitor 1) a1 in
  reachable a /\
  process_state a = Active /\
  (live_monitor 1 a).1 = Ok tt /\
  status_label a1 = "COMMS ERROR - PSU OFFLINE (0%)" /\
  is_connected (psu_interface a1) = false /\
  is_plating_active a1 = true /\
  process_state a1 = Active /\
  Clock.scheduled (clock a1) = [0%nat] /\
  time_elapsed_sec a2 = 2 /\
  status_label a2 = "NOT CONNECTED (0%)" /\
  process_state a2 = Active.
Proof.
  split; [ apply plating_reachable | ].
  vm_compute. repeat split.
Qed.

(** C2 (the program at the failing input).  Paused after 3 seconds, the
    confirmation dialog announces the remaining time 00:45:05; the resume
    sends the setpoint and OUTP ON and restarts the loop, and the elapsed
    time is back at 0. *)
Theorem resume_resets_elapsed_time :
  let a := paused in
  let a' := after start_process a in
  reachable a /\
  process_state a = Paused /\
  time_elapsed_sec a = 3 /\
  time_remaining a = "00:45:05" /\
  (start_process a).1 = Ok tt /\
  process_state a' = Active /\
  issued a' = (issued a ++ ["APPLY 2.0 0.25"; "OUTP ON"])%list /\
  Clock.scheduled (clock a') = [1%nat] /\
  time_elapsed_sec a' = 0.
Proof.
  split; [ apply paused_reachable | ].
  vm_compute. repeat split.
Qed.

End Runs.

(* ================================================================== *)
(** * The theorems at concrete inputs *)
(* ================================================================== *)

Section Witnesses.
Import Py Scpi Gui Spec Scenario.
#[local] Existing Instance Decimal.builtins.

Lemma send_command_refusals_witness :
  let p := psu_interface (ready bench) in
  (is_connected p = true /\
   upper (strip "APPLY a b") ≠ "OUTP ON" /\
   upper (strip "APPLY a b") ≠ "OUTP OFF" /\
   apply_well_formed (upper (strip "APPLY a b")) = false) /\
  Scpi.send_command "APPLY a b" p = (Ok false, p) /\
  Scpi.send_command "APPLY 5" p = (Ok false, p).
Proof.
  split; [ vm_compute; repeat split; discriminate | ].
  split; apply send_command_refusals; right;
    vm_compute; repeat split; discriminate.
Defined.

Lemma zero_area_is_not_startable_witness :
  let a := ready bench in
  let a0 := set target_area_cm2 (fun _ => 0%Q) a in
  let stuck := after update_calculations a0 in
  (target_area_cm2 a0 == 0)%Q /\
  (estimated_time_sec stuck <= 0)%Q /\
  Formulas.calculate_metrics 10.0 (target_area_cm2 a0) 1
    = Ok Formulas.safe_zeros /\
  (Formulas.estimated_time_sec Formulas.safe_zeros <= 0)%Q /\
  exists a',
    start_process stuck = (Ok tt, a') /\
    a' = set modals (fun l => (l ++ ["Error"])%list) stuck /\
    issued a' = issued stuck /\
    psu_interface a' = psu_interface stuck.
Proof.
  set (a0 := set target_area_cm2 (fun _ => 0%Q) (ready bench)).
  set (stuck := after update_calculations a0).
  assert (H1 : (target_area_cm2 a0 == 0)%Q) by (vm_compute; reflexivity).
  assert (H2 : (estimated_time_sec stuck <= 0)%Q) by (vm_compute; discriminate).
  exact (conj H1 (conj H2
           (zero_area_is_not_startable 10.0 (target_area_cm2 a0) 1 stuck H1 H2))).
Defined.

End Witnesses.

(* ================================================================== *)
(** * Further properties of formulas.py *)
(* ================================================================== *)

Section FormulasMore.
Import Py Formulas Spec.

Lemma int_of_float_floor (q : Q) (n : Z) :
  0 <= n -> (inject_Z n <= q)%Q -> (q < inject_Z n + 1)%Q -> int_of_float q = n.
Proof.
  intros Hn Hle Hlt. unfold int_of_float.
  destruct q as [num den]. cbn [Qnum Qden].
  unfold Qle in Hle. unfold Qlt in Hlt. cbn in Hle, Hlt.
  rewrite Z.quot_div_nonneg by lia.
  symmetry. apply (Z.div_unique num (Z.pos den) n (num - Z.pos den * n)); lia.
Qed.


(** X1.  A duration of [h] hours, [m] minutes and [s] seconds, with any
    fraction of a second on top, is rendered as those three numbers, each
    padded to two digits; the hours are not wrapped at 24. *)
Theorem format_time_hours_minutes_seconds (q : Q) (h m s : Z) :
  0 <= h -> 0 <= m < 60 -> 0 <= s < 60 ->
  (inject_Z (3600 * h + 60 * m + s) <= q)%Q ->
  (q < inject_Z (3600 * h + 60 * m + s) + 1)%Q ->
  format_time q
  = format_02d h +:+ ":" +:+ format_02d m +:+ ":" +:+ format_02d s.
Proof.
  intros Hh Hm Hs Hle Hlt. unfold format_time.
  rewrite (int_of_float_floor q (3600 * h + 60 * m + s)) by (assumption || lia).
  destruct (Z.ltb_spec (3600 * h + 60 * m + s) 0) as [Hneg|_]; [ lia | ].
  assert (E1 : (3600 * h + 60 * m + s) / 3600 = h).
  { symmetry. apply (Z.div_unique _ 3600 h (60 * m + s)); lia. }
  assert (E2 : (3600 * h + 60 * m + s) mod 3600 = 60 * m + s).
  { symmetry. apply (Z.mod_unique _ 3600 h (60 * m + s)); lia. }
  assert (E3 : (60 * m + s) / 60 = m).
  { symmetry. apply (Z.div_unique _ 60 m s); lia. }
  assert (E4 : (3600 * h + 60 * m + s) mod 60 = s).
  { symmetry. apply (Z.mod_unique _ 60 (60 * h + m) s); lia. }
  rewrite E1, E2, E3, E4. reflexivity.
Qed.


End FormulasMore.

(* ================================================================== *)
(** * Further properties of scpi.py *)
(* ================================================================== *)

Ltac wp_call ::=
  lazymatch goal with
  | |- Logic.wp (Scpi.io _) _ _ _ => apply wp_io; [ intros ? | ]
  | |- Logic.wp (Py.float _) _ _ _ => apply wp_float; intros
  | |- Logic.wp (Scpi.with_locals _ _) _ _ _ => apply wp_with_locals
  | |- Logic.wp (Scpi.self _) _ _ _ => unfold Scpi.self
  | |- Logic.wp (Scpi.frame _) _ _ _ => unfold Scpi.frame
  | |- Logic.wp Scpi.disconnect _ _ _ =>
      eapply wp_mono;
      [ apply disconnect_spec
      | cbv beta; intros ? ? (? & ? & ?)
      | cbv beta; intros ? ? [] ]
  end.

Section ScpiMore.
Import Py Scpi Logic Spec Notions.
Context `{Builtins}.

Lemma startswith_append (prefix rest : string) :
  startswith (prefix +:+ rest) prefix = true.
Proof.
  unfold startswith. induction prefix as [|c prefix IH].
  - destruct rest; reflexivity.
  - change (match ascii_dec c c with
            | left _ => String.prefix prefix (prefix +:+ rest)
            | right _ => false
            end = true).
    destruct (ascii_dec c c); [ exact IH | contradiction ].
Qed.

Lemma alert_is_a_token (error_state : string) :
  status_token ("ALERT: PSU Error (" +:+ error_state +:+ ")") = true.
Proof.
  unfold status_token. rewrite startswith_append. apply orb_true_r.
Qed.

(** What [read_data] returns and what it leaves of the interface. *)
Lemma read_data_outcome (p : PowerSupplyInterface) :
  wp read_data
    (fun r p' =>
       status_token r.2 = true /\
       (r.2 = "COMMS ERROR - PSU OFFLINE" ->
        is_connected p = true /\ output_on p = true /\
        is_connected p' = false /\ psu p' = None /\ output_on p' = false) /\
       (r.2 ≠ "COMMS ERROR - PSU OFFLINE" ->
        is_connected p' = is_connected p /\ psu p' = psu p /\
        output_on p' = output_on p /\ rm p' = rm p))
    no_raise p.
Proof.
  unfold read_data. wp_run; cbn [fst snd local_V local_A local_status
                                  set_local_V set_local_A set_local_status set];
    repeat match goal with
      | Hb : negb ?b = false |- _ => apply negb_false_iff in Hb
      | Hb : _ || _ = false |- _ => apply orb_false_iff in Hb; destruct Hb
      end;
    (split; [ reflexivity || apply alert_is_a_token | ]);
    (split; [ intros E; try discriminate E; auto 10 | ]);
    intros E; try congruence; auto.
Qed.

(** X6.  [read_data] never raises, and its status is one of the six
    tokens: PLATING ACTIVE, OUTPUT OFF (Connected), NOT CONNECTED,
    COMMS ERROR - PSU OFFLINE, MEASUREMENT READ FAIL, or an alert
    starting with "ALERT: PSU Error (". *)
Theorem read_data_status_is_a_token (p : PowerSupplyInterface) :
  exists V A status p',
    read_data p = (Ok (V, A, status), p') /\ status_token status = true.
Proof.
  destruct (wp_returns _ _ _ (read_data_outcome p))
    as ([[V A] status] & p' & Hrun & Htoken & _).
  exists V, A, status, p'. split; assumption.
Qed.

(** X7.  When [read_data] reports COMMS ERROR - PSU OFFLINE the interface
    has disconnected itself: not connected, no resource, output off.
    With any other status, a measurement read failure and an alert
    included, the connection, the resource and the output flag are what
    they were. *)
Theorem comms_error_means_disconnected (p : PowerSupplyInterface) :
  exists V A status p',
    read_data p = (Ok (V, A, status), p') /\
    (status = "COMMS ERROR - PSU OFFLINE" ->
     is_connected p' = false /\ psu p' = None /\ output_on p' = false) /\
    (status ≠ "COMMS ERROR - PSU OFFLINE" ->
     is_connected p' = is_connected p /\ psu p' = psu p /\
     output_on p' = output_on p).
Proof.
  destruct (wp_returns _ _ _ (read_data_outcome p))
    as ([[V A] status] & p' & Hrun & _ & Hcomms & Hother).
  exists V, A, status, p'. cbn [snd] in *. split; [ exact Hrun | ].
  split; intros E; [ apply Hcomms in E | apply Hother in E ]; tauto.
Qed.

(** X8.  [read_data] talks to the instrument only when the interface is
    connected with its output on: otherwise it returns zero readings with
    NOT CONNECTED, or OUTPUT OFF (Connected), and leaves the interface
    and the wire as they are. *)
Theorem read_data_without_io (p : PowerSupplyInterface) :
  is_connected p = false \/ psu p = None \/ output_on p = false ->
  read_data p
  = (Ok (0.0%Q, 0.0%Q,
         if is_connected p && bool_decide (is_Some (psu p))
         then "OUTPUT OFF (Connected)" else "NOT CONNECTED"), p).
Proof.
  intros Hoff. destruct p as [connected on resource manager v].
  cbn [is_connected psu output_on] in *.
  destruct connected; [ | reflexivity ].
  destruct resource as [r|]; [ | reflexivity ].
  destruct Hoff as [Hoff | [Hoff | Hoff]]; try discriminate Hoff.
  subst on. reflexivity.
Qed.

Lemma apply_is_not_outp (c : string) :
  startswith c "APPLY" = true ->
  String.eqb c "OUTP ON" = false /\ String.eqb c "OUTP OFF" = false.
Proof.
  intros Hc. split.
  - destruct (String.eqb_spec c "OUTP ON") as [->|]; [ discriminate Hc | reflexivity ].
  - destruct (String.eqb_spec c "OUTP OFF") as [->|]; [ discriminate Hc | reflexivity ].
Qed.

Lemma after_io_nil p : after_io [] p = p.
Proof.
  destruct p as [c o r m [f w]].
  cbv [after_io set set_visa visa respond wire]. now rewrite app_nil_r.
Qed.

Lemma after_io_app ops ops' p : after_io ops' (after_io ops p) = after_io (ops ++ ops') p.
Proof.
  destruct p as [c o r m [f w]].
  cbv [after_io set set_visa visa respond wire]. now rewrite app_assoc.
Qed.

Lemma respond_after_io ops p : respond (visa (after_io ops p)) = respond (visa p).
Proof. reflexivity. Qed.

Lemma wire_after_io ops p : wire (visa (after_io ops p)) = (wire (visa p) ++ ops)%list.
Proof. reflexivity. Qed.

Lemma wp_io' (op : io_op) (Q : string -> PowerSupplyInterface -> Prop) E p :
  (forall answer, respond (visa p) (length (wire (visa p))) op = Reply answer ->
                  Q answer (after_io [op] p)) ->
  (respond (visa p) (length (wire (visa p))) op = Fail ->
   E VisaIOError (after_io [op] p)) ->
  wp (io op) Q E p.
Proof.
  intros HQ HE. unfold io. apply wp_zoom. unfold wp, visa_io.
  destruct (respond (visa p) (length (wire (visa p))) op) eqn:Hr; auto.
Qed.

Ltac split_effect :=
  (split; [ | split ]); [ | | reflexivity ]; [ reflexivity | ].

(** The whole effect of [send_command]. *)
Lemma send_command_effect (command : string) (p : PowerSupplyInterface) :
  wp (send_command command)
    (fun accepted p' =>
       exists ops,
         forallb is_write ops = true /\
         (accepted = true -> is_connected p = true /\ psu p ≠ None) /\
         p' = set output_on
                (fun before => output_after (upper (strip command)) accepted before)
                (after_io ops p))
    no_raise p.
Proof.
  unfold send_command. generalize (upper (strip command)). intros c.
  wp_run.
  all: try match goal with
           | Hc : startswith ?c "APPLY" = true |- _ =>
               destruct (apply_is_not_outp c Hc) as [Hon Hoff]
           end.
  all: destruct p as [conn on r m [f w]];
    cbv [after_io set set_visa set_output_on visa respond wire is_connected
         output_on psu rm output_after] in *.
  all: repeat match goal with
              | Hc : String.eqb _ _ = _ |- _ => rewrite Hc; clear Hc
              end.
  all: first
         [ exists []; rewrite app_nil_r; split_effect
         | eexists [_]; split_effect
         | eexists [_; _]; rewrite <- app_assoc; split_effect ].
  all: try discriminate.
  all: intros _;
    match goal with
    | Hc : negb _ || negb _ = false |- _ =>
        apply orb_false_iff in Hc; destruct Hc as [Hc Hr];
        apply negb_false_iff in Hc; apply negb_false_iff in Hr;
        apply bool_decide_eq_true in Hr; destruct Hr as [? ->]
    end; split; [ assumption | discriminate ].
Qed.

Ltac wp_run_io :=
  repeat first
    [ lazymatch goal with
      | |- wp (io _) _ _ _ => apply wp_io'; [ intros ? ? | intros ? ]
      end
    | wp_step ].

(** X9.  An APPLY command of three fields with numeric second and third
    fields writes the voltage limit, then the current limit.  When the
    first write fails the second is not sent; the command is accepted
    exactly when both writes are answered. *)
Theorem apply_writes_voltage_then_current (command a v i : string) (V A : Q) (p : PowerSupplyInterface) :
  is_connected p = true ->
  is_Some (psu p) ->
  startswith (upper (strip command)) "APPLY" = true ->
  split (upper (strip command)) = [a; v; i] ->
  float_of_str v = Some V ->
  float_of_str i = Some A ->
  let volt := Write ("VOLTage " +:+ format_fixed 2 V) in
  let cur := Write ("CURRent " +:+ format_fixed 3 A) in
  let n := length (wire (visa p)) in
  send_command command p =
    match respond (visa p) n volt with
    | Fail => (Ok false, after_io [volt] p)
    | Reply _ =>
        match respond (visa p) (S n) cur with
        | Fail => (Ok false, after_io [volt; cur] p)
        | Reply _ => (Ok true, after_io [volt; cur] p)
        end
    end.
Proof.
  intros Hc Hp Happly Hparts HV HA volt cur n.
  enough (Hwp : wp (send_command command)
                  (fun b p' => (Ok b, p') =
                     match respond (visa p) n volt with
                     | Fail => (Ok false, after_io [volt] p)
                     | Reply _ =>
                         match respond (visa p) (S n) cur with
                         | Fail => (Ok false, after_io [volt; cur] p)
                         | Reply _ => (Ok true, after_io [volt; cur] p)
                         end
                     end) no_raise p).
  { apply wp_returns in Hwp as (b & p' & -> & ->). reflexivity. }
  subst volt cur n. unfold send_command.
  revert Happly Hparts. generalize (upper (strip command)). intros c Happly Hparts.
  wp_run_io.
  all: rewrite ?Hparts in *; cbn [nth length Nat.eqb] in *; simplify_eq.
  all: repeat match goal with
              | Hr : respond (visa (after_io _ _)) _ _ = _ |- _ =>
                  rewrite respond_after_io, wire_after_io, length_app,
                    Nat.add_1_r in Hr
              end.
  all: repeat match goal with
              | Hr : respond _ _ _ = _ |- _ => rewrite Hr; clear Hr
              end.
  all: rewrite ?after_io_app; try reflexivity.
  rewrite Hc, (bool_decide_eq_true_2 _ Hp) in Heqb. discriminate Heqb.
Qed.

(** X10.  [send_command] never raises; it leaves the connection flag, the
    resource and the resource manager alone; what it hands to the
    instrument is writes only; and it accepts a command only on a
    connected interface. *)
Theorem send_command_only_writes (command : string) (p : PowerSupplyInterface) :
  exists accepted p' ops,
    send_command command p = (Ok accepted, p') /\
    is_connected p' = is_connected p /\ psu p' = psu p /\ rm p' = rm p /\
    respond (visa p') = respond (visa p) /\
    wire (visa p') = (wire (visa p) ++ ops)%list /\
    forallb is_write ops = true /\
    (accepted = true -> is_connected p = true /\ psu p ≠ None).
Proof.
  destruct (wp_returns _ _ _ (send_command_effect command p))
    as (accepted & p' & Hrun & ops & Hops & Hacc & ->).
  eexists accepted, _, ops. split; [ exact Hrun | ].
  destruct p as [conn on r m [f w]]. cbn. auto 10.
Qed.

(** X11.  The [output_on] flag changes only through an accepted switch
    command: after an accepted OUTP ON it is true, after an accepted
    OUTP OFF it is false, and after any other command, or a refused or
    failed one, it is what it was. *)
Theorem output_flag_follows_accepted_switch (command : string)
    (p : PowerSupplyInterface) :
  exists accepted p',
    send_command command p = (Ok accepted, p') /\
    output_on p' = output_after (upper (strip command)) accepted (output_on p).
Proof.
  destruct (wp_returns _ _ _ (send_command_effect command p))
    as (accepted & p' & Hrun & ops & _ & _ & ->).
  eexists accepted, _. split; [ exact Hrun | ].
  destruct p as [conn on r m [f w]]. reflexivity.
Qed.

(** ** Normal form of a command *)

Lemma isspace_upper_ascii (c : ascii) : isspace (upper_ascii c) = isspace c.
Proof. destruct c as [[] [] [] [] [] [] [] []]; reflexivity. Qed.

Lemma upper_ascii_idem (c : ascii) : upper_ascii (upper_ascii c) = upper_ascii c.
Proof. destruct c as [[] [] [] [] [] [] [] []]; reflexivity. Qed.

Lemma upper_idem (s : string) : upper (upper s) = upper s.
Proof.
  induction s as [|c s IH]; cbn [upper]; [ reflexivity | ].
  now rewrite upper_ascii_idem, IH.
Qed.

Lemma lstrip_upper (s : string) : lstrip (upper s) = upper (lstrip s).
Proof.
  induction s as [|c s IH]; cbn [upper lstrip]; [ reflexivity | ].
  rewrite isspace_upper_ascii. destruct (isspace c); [ exact IH | reflexivity ].
Qed.

Lemma rstrip_upper (s : string) : rstrip (upper s) = upper (rstrip s).
Proof.
  induction s as [|c s IH]; cbn [upper rstrip]; [ reflexivity | ].
  rewrite IH. destruct (rstrip s); cbn [upper].
  - rewrite isspace_upper_ascii. destruct (isspace c); reflexivity.
  - reflexivity.
Qed.

Lemma rstrip_idem (s : string) : rstrip (rstrip s) = rstrip s.
Proof.
  induction s as [|c s IH]; cbn [rstrip]; [ reflexivity | ].
  destruct (rstrip s) as [|c' s'] eqn:E.
  - destruct (isspace c) eqn:Ec; cbn [rstrip]; [ reflexivity | ].
    now rewrite Ec.
  - cbn [rstrip]. cbn [rstrip] in IH. rewrite IH. reflexivity.
Qed.

Lemma lstrip_head (s : string) :
  match lstrip s with
  | String c _ => isspace c = false
  | EmptyString => True
  end.
Proof.
  induction s as [|c s IH]; cbn [lstrip]; [ exact I | ].
  destruct (isspace c) eqn:Ec; [ exact IH | exact Ec ].
Qed.

Lemma lstrip_rstrip (s : string) :
  match s with
  | String c _ => isspace c = false
  | EmptyString => True
  end ->
  lstrip (rstrip s) = rstrip s.
Proof.
  destruct s as [|c s]; [ reflexivity | ]. intros Ec. cbn [rstrip].
  destruct (rstrip s); [ rewrite Ec | ]; cbn [lstrip]; now rewrite Ec.
Qed.

Lemma strip_idem (s : string) : strip (strip s) = strip s.
Proof.
  unfold strip. rewrite (lstrip_rstrip _ (lstrip_head s)). apply rstrip_idem.
Qed.

Lemma normal_form_idem (s : string) :
  upper (strip (upper (strip s))) = upper (strip s).
Proof.
  unfold strip at 1. rewrite lstrip_upper, rstrip_upper.
  fold (strip (strip s)). now rewrite strip_idem, upper_idem.
Qed.

(** X12.  [send_command] reads a command up to surrounding white space
    and letter case: a command and its stripped upper-case form have the
    same result and the same effect. *)
Theorem send_command_ignores_case_and_padding (command : string)
    (p : PowerSupplyInterface) :
  send_command (upper (strip command)) p = send_command command p.
Proof.
  unfold send_command. rewrite normal_form_idem. reflexivity.
Qed.

(** ** connect and disconnect *)

Ltac io_facts p :=
  destruct p as [? ? ? ? [? ?]];
  cbv [after_io set set_visa set_psu set_rm set_is_connected set_output_on
       visa respond wire is_connected output_on psu rm] in *;
  repeat match goal with
         | Hr : context [length (_ ++ _)] |- _ =>
             rewrite length_app, Nat.add_1_r in Hr
         end;
  repeat match goal with
         | Hr : _ = Reply _ |- _ => rewrite Hr; clear Hr
         | Hr : _ = Fail |- _ => rewrite Hr; clear Hr
         end;
  cbv [answered andb].

Lemma connect_effect (p : PowerSupplyInterface) :
  is_connected p = false ->
  let n := length (wire (visa p)) in
  let opened := answered (respond (visa p) n (Open PSU_ADDRESS)) in
  let identified := answered (respond (visa p) (S n) (Query "*IDN?")) in
  wp connect
    (fun connected p' =>
       connected = opened && identified /\
       is_connected p' = connected /\
       bool_decide (is_Some (psu p')) = connected /\
       bool_decide (is_Some (rm p')) = connected /\
       output_on p' = output_on p /\
       visa p' = visa (after_io (if opened then [Open PSU_ADDRESS; Query "*IDN?"]
                                 else [Open PSU_ADDRESS]) p))
    no_raise p.
Proof.
  intros Hc n opened identified. subst n opened identified.
  unfold connect. wp_run_io.
  all: try discriminate Hc.
  all: io_facts p.
  all: rewrite <- ?app_assoc; repeat split.
Qed.

(** X13.  On an interface that is not connected, [connect] never raises
    and succeeds exactly when the instrument answers both the opening of
    the resource and the identification query, which is not sent when
    the opening fails.  A successful connect holds a resource and a
    resource manager; a failed one holds neither.  The output flag is
    not touched. *)
Theorem connect_needs_open_and_identification (p : PowerSupplyInterface) :
  is_connected p = false ->
  let n := length (wire (visa p)) in
  let opened := answered (respond (visa p) n (Open PSU_ADDRESS)) in
  let identified := answered (respond (visa p) (S n) (Query "*IDN?")) in
  exists connected p',
    connect p = (Ok connected, p') /\
    connected = opened && identified /\
    is_connected p' = connected /\
    bool_decide (is_Some (psu p')) = connected /\
    bool_decide (is_Some (rm p')) = connected /\
    output_on p' = output_on p /\
    wire (visa p') =
      (wire (visa p) ++ if opened then [Open PSU_ADDRESS; Query "*IDN?"]
                        else [Open PSU_ADDRESS])%list.
Proof.
  intros Hc n opened identified.
  destruct (wp_returns _ _ _ (connect_effect p Hc))
    as (connected & p' & Hrun & -> & Hconn & Hpsu & Hrm & Hout & Hvisa).
  eexists _, p'. split; [ exact Hrun | ].
  rewrite Hvisa. auto 10.
Qed.

Lemma disconnect_effect (p : PowerSupplyInterface) :
  let n := length (wire (visa p)) in
  wp disconnect
    (fun _ p' =>
       is_connected p' = false /\ psu p' = None /\ output_on p' = false /\
       rm p' = rm p /\
       visa p' =
         visa (after_io
                 (match psu p with
                  | None => []
                  | Some _ =>
                      if answered (respond (visa p) n (Write "OUTP OFF"))
                      then [Write "OUTP OFF"; Close]
                      else [Write "OUTP OFF"]
                  end) p))
    no_raise p.
Proof.
  intros n. subst n. unfold disconnect. wp_run_io.
  all: io_facts p.
  all: rewrite <- ?app_assoc, ?app_nil_r; repeat split; assumption.
Qed.

(** X14.  [disconnect] never raises and always ends with the interface
    not connected, without resource and with the output flag off.  With
    a resource it writes OUTP OFF and then closes the resource, but the
    close is skipped when the write fails; without a resource it sends
    nothing.  The resource manager is kept. *)
Theorem disconnect_skips_close_after_failed_write (p : PowerSupplyInterface) :
  exists p',
    disconnect p = (Ok tt, p') /\
    is_connected p' = false /\ psu p' = None /\ output_on p' = false /\
    rm p' = rm p /\
    wire (visa p') =
      (wire (visa p) ++
       match psu p with
       | None => []
       | Some _ =>
           if answered (respond (visa p) (length (wire (visa p)))
                          (Write "OUTP OFF"))
           then [Write "OUTP OFF"; Close]
           else [Write "OUTP OFF"]
       end)%list.
Proof.
  destruct (wp_returns _ _ _ (disconnect_effect p))
    as ([] & p' & Hrun & Hconn & Hpsu & Hout & Hrm & Hvisa).
  exists p'. split; [ exact Hrun | ]. rewrite Hvisa. auto 10.
Qed.

(** ** Coherence of the attributes *)

Lemma coherent_iff (p : PowerSupplyInterface) :
  coherent p = true <->
  (is_connected p = true -> bool_decide (is_Some (psu p)) = true) /\
  (output_on p = true -> is_connected p = true).
Proof.
  unfold coherent.
  destruct (is_connected p), (bool_decide (is_Some (psu p))), (output_on p);
    cbn; intuition congruence.
Qed.

Lemma coherent_kept (p p' : PowerSupplyInterface) :
  is_connected p' = is_connected p ->
  psu p' = psu p ->
  (output_on p' = true -> output_on p = true \/ is_connected p = true) ->
  coherent p = true -> coherent p' = true.
Proof.
  rewrite !coherent_iff. intros -> -> Hout [Hpsu Hon]. split; [ exact Hpsu | ].
  intros E. destruct (Hout E); auto.
Qed.

Lemma coherent_offline (p : PowerSupplyInterface) :
  is_connected p = false -> output_on p = false -> coherent p = true.
Proof.
  intros Hc Hout. apply coherent_iff. rewrite Hc, Hout. split; discriminate.
Qed.

(** ** Summaries for the callers of the interface *)

Lemma connect_summary (p : PowerSupplyInterface) :
  wp connect
    (fun connected p' =>
       is_connected p' = connected /\
       (is_connected p = true -> p' = p) /\
       (is_connected p = false -> output_on p' = output_on p) /\
       (coherent p = true -> coherent p' = true))
    no_raise p.
Proof.
  destruct (is_connected p) eqn:Hc.
  - unfold connect. wp_run; [ | congruence.. ]. auto.
  - eapply wp_mono; [ apply (connect_effect p Hc) | | intros ? ? [] ].
    cbv beta. intros connected p' (_ & Hc' & Hpsu' & _ & Hout' & _).
    split; [ exact Hc' | ]. split; [ discriminate | ].
    split; [ intros _; exact Hout' | ].
    rewrite !coherent_iff. intros [_ Hon]. rewrite Hc', Hpsu', Hout', Hc in *.
    split; [ exact id | ]. intros E. apply Hon in E. discriminate E.
Qed.

Lemma disconnect_summary (p : PowerSupplyInterface) :
  wp disconnect
    (fun _ p' =>
       is_connected p' = false /\ psu p' = None /\ output_on p' = false /\
       coherent p' = true)
    no_raise p.
Proof.
  eapply wp_mono; [ apply disconnect_spec | | intros ? ? [] ].
  cbv beta. intros _ p' (Hc' & Hpsu' & Hout'). repeat split; try assumption.
  apply coherent_offline; assumption.
Qed.

Lemma send_command_summary (command : string) (p : PowerSupplyInterface) :
  wp (send_command command)
    (fun accepted p' =>
       is_connected p' = is_connected p /\
       psu p' = psu p /\
       output_on p' = output_after (upper (strip command)) accepted (output_on p) /\
       (accepted = true -> is_connected p = true) /\
       (coherent p = true -> coherent p' = true))
    no_raise p.
Proof.
  eapply wp_mono; [ apply send_command_effect | | intros ? ? [] ].
  cbv beta. intros accepted p' (ops & _ & Hacc & ->).
  split; [ | split; [ | split; [ | split ] ] ].
  - destruct p as [? ? ? ? []]; reflexivity.
  - destruct p as [? ? ? ? []]; reflexivity.
  - destruct p as [? ? ? ? []]; reflexivity.
  - intros E. now apply Hacc.
  - apply coherent_kept.
    + destruct p as [? ? ? ? []]; reflexivity.
    + destruct p as [? ? ? ? []]; reflexivity.
    + destruct accepted; [ intros _; right; now apply Hacc | ].
      destruct p as [? ? ? ? []]; cbn. auto.
Qed.

Lemma read_data_summary (p : PowerSupplyInterface) :
  wp read_data
    (fun r p' =>
       (r.2 = "COMMS ERROR - PSU OFFLINE" -> is_connected p' = false) /\
       (r.2 ≠ "COMMS ERROR - PSU OFFLINE" ->
        is_connected p' = is_connected p /\ output_on p' = output_on p) /\
       (coherent p = true -> coherent p' = true))
    no_raise p.
Proof.
  eapply wp_mono; [ apply read_data_outcome | | intros ? ? [] ].
  cbv beta. intros [[V A] status] p' (_ & Hcomms & Hother). cbn [snd] in *.
  split; [ | split ].
  - intros E. now destruct (Hcomms E) as (_ & _ & ? & _).
  - intros E. now destruct (Hother E) as (? & _ & ? & _).
  - destruct (string_dec status "COMMS ERROR - PSU OFFLINE") as [E|E].
    + destruct (Hcomms E) as (_ & _ & Hc' & _ & Hout').
      intros _. apply coherent_offline; assumption.
    + destruct (Hother E) as (Hc' & Hpsu' & Hout' & _).
      apply coherent_kept; [ exact Hc' | exact Hpsu' | ].
      rewrite Hout'. auto.
Qed.

(** ** The interface under any client *)

Lemma invoke_coherent (m : method) (p : PowerSupplyInterface) :
  coherent p = true ->
  wp (invoke m) (fun _ p' => coherent p' = true) no_raise p.
Proof.
  intros Hp. destruct m as [| |command|]; cbn [invoke].
  - apply wp_bind.
    eapply wp_mono; [ apply connect_summary | | intros ? ? [] ].
    cbv beta. intros connected p' (_ & _ & _ & Hkeep). apply wp_ret. auto.
  - eapply wp_mono; [ apply disconnect_summary | | intros ? ? [] ].
    cbv beta. intros _ p' (_ & _ & _ & Hp'). exact Hp'.
  - apply wp_bind.
    eapply wp_mono; [ apply send_command_summary | | intros ? ? [] ].
    cbv beta. intros accepted p' (_ & _ & _ & _ & Hkeep). apply wp_ret. auto.
  - apply wp_bind.
    eapply wp_mono; [ apply read_data_summary | | intros ? ? [] ].
    cbv beta. intros r p' (_ & _ & Hkeep). apply wp_ret. auto.
Qed.

Lemma session_coherent (ms : list method) (p : PowerSupplyInterface) :
  coherent p = true ->
  wp (session ms) (fun _ p' => coherent p' = true) no_raise p.
Proof.
  revert p. induction ms as [|m ms IH]; intros p Hp; cbn [session].
  - apply wp_ret. exact Hp.
  - apply wp_bind.
    eapply wp_mono; [ apply (invoke_coherent m p Hp) | | intros ? ? [] ].
    cbv beta. intros _ p' Hp'. apply IH, Hp'.
Qed.

(** X15.  Whatever sequence of [connect], [disconnect], [send_command]
    and [read_data] calls a client makes on a fresh interface, and
    however the instrument answers, no call raises, and afterwards the
    interface is connected only when it holds a resource and its
    output flag is on only when it is connected. *)
Theorem interface_stays_coherent (v : Visa) (ms : list method) :
  exists p, session ms (init v) = (Ok tt, p) /\ coherent p = true.
Proof.
  destruct (wp_returns _ _ _ (session_coherent ms (init v) eq_refl))
    as ([] & p & Hrun & Hp).
  exists p. split; assumption.
Qed.

End ScpiMore.

(* ================================================================== *)
(** * Further properties of gui.py *)
(* ================================================================== *)

Ltac wp_call ::=
  lazymatch goal with
  | |- Logic.wp (Scpi.io _) _ _ _ => apply wp_io; [ intros ? | ]
  | |- Logic.wp (Py.float _) _ _ _ => apply wp_float; intros
  | |- Logic.wp (Gui.device _) _ _ _ => unfold Gui.device
  | |- Logic.wp (Gui.send_command _) _ _ _ => unfold Gui.send_command
  | |- Logic.wp (Gui.show_modal _) _ _ _ => unfold Gui.show_modal
  | |- Logic.wp Gui.schedule_interval _ _ _ =>
      unfold Gui.schedule_interval, Clock.schedule_interval
  | |- Logic.wp (Gui.cancel _) _ _ _ => unfold Gui.cancel
  | |- Logic.wp Gui.update_calculations _ _ _ => unfold Gui.update_calculations
  | |- Logic.wp Gui._execute_abort _ _ _ => unfold Gui._execute_abort
  | |- Logic.wp (Gui.on_thickness_input _) _ _ _ => unfold Gui.on_thickness_input
  | |- Logic.wp (Gui.on_area_input _) _ _ _ => unfold Gui.on_area_input
  | |- Logic.wp (Gui.on_input_focus _ _) _ _ _ => unfold Gui.on_input_focus
  | |- Logic.wp (Gui.on_complexity_change _) _ _ _ =>
      unfold Gui.on_complexity_change
  | |- Logic.wp Gui.on_connect_toggle _ _ _ => unfold Gui.on_connect_toggle
  | |- Logic.wp Gui.on_start_plating _ _ _ => unfold Gui.on_start_plating
  | |- Logic.wp Gui.start_process _ _ _ => unfold Gui.start_process
  | |- Logic.wp Gui.on_pause_plating _ _ _ => unfold Gui.on_pause_plating
  | |- Logic.wp Gui.on_abort_plating _ _ _ => unfold Gui.on_abort_plating
  | |- Logic.wp (Py.lift (Formulas.calculate_metrics ?t ?a ?l)) _ _ _ =>
      let m := fresh "metrics" in
      destruct (calculate_metrics_returns t a l) as [m ?];
      eapply wp_lift; [ eassumption | ]
  | |- Logic.wp (Scpi.send_command _) _ _ _ =>
      eapply wp_mono;
      [ apply send_command_summary
      | cbv beta; intros ? ? (? & ? & ? & ? & ?)
      | cbv beta; intros ? ? [] ]
  | |- Logic.wp Scpi.read_data _ _ _ =>
      eapply wp_mono;
      [ apply read_data_summary
      | cbv beta; intros [[? ?] ?] ? (? & ? & ?)
      | cbv beta; intros ? ? [] ]
  | |- Logic.wp Scpi.connect _ _ _ =>
      eapply wp_mono;
      [ apply connect_summary
      | cbv beta; intros ? ? (? & ? & ? & ?)
      | cbv beta; intros ? ? [] ]
  | |- Logic.wp Scpi.disconnect _ _ _ =>
      eapply wp_mono;
      [ apply disconnect_summary
      | cbv beta; intros ? ? (? & ? & ? & ?)
      | cbv beta; intros ? ? [] ]
  end.

Section GuiMore.
Import Py Scpi Gui Logic Spec Notions.
Context `{Builtins}.

Lemma whole_percent_bounds (est : Q) (elapsed : Z) :
  0 <= elapsed -> (0 < est)%Q ->
  0 <= Z.min 100 (int_of_float (inject_Z elapsed / est * 100)) <= 100.
Proof.
  intros Helapsed Hpos.
  assert (0 <= int_of_float (inject_Z elapsed / est * 100)); [ | lia ].
  apply int_of_float_nonneg.
  apply Qmult_le_0_compat; [ | discriminate ].
  apply Qle_shift_div_l; [ exact Hpos | ].
  rewrite Qmult_0_l. unfold Qle. cbn [inject_Z Qnum Qden]. lia.
Qed.

Ltac wp_run_gui :=
  wp_run;
  try (apply wp_truediv;
       [ intros E0;
         match goal with Hlt : Qlt_bool 0 _ = true |- _ =>
           apply Qlt_bool_iff in Hlt; rewrite E0 in Hlt; discriminate Hlt
         end | ]);
  wp_run.

Lemma handle_keeps (e : event) (a : App) :
  0 <= time_elapsed_sec a ->
  coherent (psu_interface a) = true ->
  is_plating_active a = bool_decide (is_Some (live_update_event a)) ->
  0 <= progress_percent a <= 100 ->
  0 <= progress_bar a <= 100 ->
  wp (handle e)
    (fun _ a' =>
       coherent (psu_interface a') = true /\
       is_plating_active a' = bool_decide (is_Some (live_update_event a')) /\
       0 <= progress_percent a' <= 100 /\
       0 <= progress_bar a' <= 100)
    no_raise a.
Proof.
  intros Helapsed Hcoherent Hmonitor Hprogress Hbar.
  destruct e; unfold handle.
  11: unfold live_monitor.
  all: wp_run_gui.
  all: repeat match goal with
         | He : live_update_event _ = _ |- _ => rewrite He in *; clear He
         | Ha : is_plating_active _ = _ |- _ => rewrite Ha in *; clear Ha
         end.
  all: split; [ auto | split; [ try reflexivity; try assumption
                      | split; [ try lia | try lia ] ] ].
  all: apply whole_percent_bounds; [ lia | now apply Qlt_bool_iff ].
Qed.

Lemma build_keeps (v : Visa) :
  coherent (psu_interface (build v).2) = true /\
  is_plating_active (build v).2
  = bool_decide (is_Some (live_update_event (build v).2)) /\
  0 <= progress_percent (build v).2 <= 100 /\
  0 <= progress_bar (build v).2 <= 100.
Proof.
  assert (Hwp : wp update_calculations
            (fun _ a' =>
               coherent (psu_interface a') = true /\
               is_plating_active a'
               = bool_decide (is_Some (live_update_event a')) /\
               0 <= progress_percent a' <= 100 /\
               0 <= progress_bar a' <= 100)
            no_raise (created v)).
  { wp_run. repeat split; try reflexivity; try discriminate. }
  apply wp_returns in Hwp. destruct Hwp as ([] & a' & Hrun & Hpost).
  unfold build. rewrite Hrun. exact Hpost.
Qed.

Lemma reachable_keeps (a : App) :
  reachable a ->
  coherent (psu_interface a) = true /\
  is_plating_active a = bool_decide (is_Some (live_update_event a)) /\
  0 <= progress_percent a <= 100 /\
  0 <= progress_bar a <= 100.
Proof.
  induction 1 as [v | a e Hreach (Hcoherent & Hmonitor & Hprogress & Hbar)].
  - apply build_keeps.
  - destruct (reachable_invariants a Hreach) as (_ & _ & Helapsed).
    destruct (wp_returns _ _ _
                (handle_keeps e a Helapsed Hcoherent Hmonitor Hprogress Hbar))
      as ([] & a' & Hrun & Hpost).
    rewrite Hrun. exact Hpost.
Qed.

(** X16.  In every state the application can reach, the monitoring
    interval is scheduled exactly while the application is plating: one
    interval, the one held in [live_update_event], when
    [is_plating_active] is true, and none when it is false. *)
Theorem monitor_runs_exactly_while_plating (a : App) :
  reachable a ->
  if is_plating_active a
  then exists ev, live_update_event a = Some ev /\
                  Clock.scheduled (clock a) = [ev]
  else live_update_event a = None /\ Clock.scheduled (clock a) = [].
Proof.
  intros Hreach.
  destruct (reachable_invariants a Hreach) as (_ & Hloop & _).
  destruct (reachable_keeps a Hreach) as (_ & Hmonitor & _).
  unfold loop_tracked in Hloop. rewrite Hmonitor, Hloop.
  destruct (live_update_event a) as [ev|]; cbn; eauto.
Qed.

(** X17.  In every state the application can reach, the stored progress
    and the value of the progress bar lie between 0 and 100. *)
Theorem progress_stays_in_range (a : App) :
  reachable a ->
  0 <= progress_percent a <= 100 /\ 0 <= progress_bar a <= 100.
Proof.
  intros Hreach. destruct (reachable_keeps a Hreach) as (_ & _ & Hp & Hb).
  split; assumption.
Qed.

(** X18.  In every state the application can reach, its interface is
    connected only when it holds a resource, and the output flag is on
    only when the interface is connected. *)
Theorem application_keeps_interface_coherent (a : App) :
  reachable a -> coherent (psu_interface a) = true.
Proof.
  intros Hreach. now destruct (reachable_keeps a Hreach) as (Hc & _).
Qed.

(** ** Starting *)



(** ** Runs with a known outcome *)

Lemma wp_exactly {X} (m : M App X) (x : X) (a a' : App) :
  wp m (fun y b => y = x /\ b = a') no_raise a -> m a = (Ok x, a').
Proof.
  intros Hwp. apply wp_returns in Hwp as (y & b & Hrun & -> & ->). exact Hrun.
Qed.

(** ** The connect button *)

Ltac known_facts :=
  repeat match goal with
         | Hc : is_connected _ = _ |- _ => rewrite Hc in *; clear Hc
         | He : live_update_event _ = _ |- _ => rewrite He in *; clear He
         | Ha : is_plating_active _ = _ |- _ => rewrite Ha in *; clear Ha
         end.


(** X24.  Pressing the connect button on an application that is still
    plating although its interface is no longer connected: a failed
    reconnection aborts the run, and a successful one leaves the run
    going, with its elapsed time and its monitoring interval, while the
    output flag of the interface is off and the pause and abort buttons
    are disabled. *)
Theorem reconnect_during_offline_run (a : App) :
  is_connected (psu_interface a) = false ->
  output_on (psu_interface a) = false ->
  is_plating_active a = true ->
  loop_tracked a ->
  exists a',
    on_connect_toggle a = (Ok tt, a') /\
    if is_connected (psu_interface a')
    then is_plating_active a' = true /\
         output_on (psu_interface a') = false /\
         time_elapsed_sec a' = time_elapsed_sec a /\
         live_update_event a' = live_update_event a /\
         clock a' = clock a /\
         issued a' = issued a /\
         status_message a' = "CONNECTED (Ready to Apply)" /\
         Button.disabled (pause_btn a') = true /\
         Button.disabled (abort_btn a') = true
    else is_plating_active a' = false /\
         time_elapsed_sec a' = 0 /\
         progress_percent a' = 0 /\
         live_update_event a' = None /\
         Clock.scheduled (clock a') = [] /\
         issued a' = (issued a ++ ["OUTP OFF"])%list /\
         status_message a' = "ABORTED. Resetting." /\
         modals a' = (modals a ++ ["Connection Failed"])%list.
Proof.
  intros Hconn Hout Hactive Hloop.
  enough (Hwp : wp on_connect_toggle
            (fun _ a' =>
               if is_connected (psu_interface a')
               then is_plating_active a' = true /\
                    output_on (psu_interface a') = false /\
                    time_elapsed_sec a' = time_elapsed_sec a /\
                    live_update_event a' = live_update_event a /\
                    clock a' = clock a /\
                    issued a' = issued a /\
                    status_message a' = "CONNECTED (Ready to Apply)" /\
                    Button.disabled (pause_btn a') = true /\
                    Button.disabled (abort_btn a') = true
               else is_plating_active a' = false /\
                    time_elapsed_sec a' = 0 /\
                    progress_percent a' = 0 /\
                    live_update_event a' = None /\
                    Clock.scheduled (clock a') = [] /\
                    issued a' = (issued a ++ ["OUTP OFF"])%list /\
                    status_message a' = "ABORTED. Resetting." /\
                    modals a' = (modals a ++ ["Connection Failed"])%list)
            no_raise a).
  { apply wp_returns in Hwp. destruct Hwp as ([] & a' & Hrun & Hpost). eauto. }
  unfold on_connect_toggle, loop_tracked in *.
  do 2 wp_step. rewrite Hconn. cbn [negb].
  wp_run.
  all: cbn [Clock.scheduled Clock.cancel].
  all: known_facts; try discriminate.
  all: repeat match goal with
         | Hi : ?x = ?x -> _ |- _ => specialize (Hi eq_refl)
         end.
  all: rewrite ?Hloop, ?filter_cancelled; repeat split; try reflexivity;
    congruence.
Qed.

(** ** A whole run *)

Lemma tick_below_estimate (dt : Q) (a : App) :
  is_plating_active a = true ->
  (inject_Z (time_elapsed_sec a + 1) < estimated_time_sec a)%Q ->
  wp (live_monitor dt)
    (fun _ a' =>
       is_plating_active a' = true /\
       time_elapsed_sec a' = time_elapsed_sec a + 1 /\
       estimated_time_sec a' = estimated_time_sec a /\
       status_message a' = status_message a /\
       issued a' = issued a /\
       live_update_event a' = live_update_event a /\
       clock a' = clock a)
    no_raise a.
Proof.
  intros Hactive Hbelow.
  eapply wp_mono; [ apply (live_monitor_plating dt a Hactive) | | intros ? ? [] ].
  cbv beta zeta. intros _ a' (Htime & Hest & _ & Hgo).
  destruct (Qle_bool (estimated_time_sec a) (inject_Z (time_elapsed_sec a + 1)))
    eqn:Hreach.
  - apply Qle_bool_iff in Hreach. exfalso. apply (Qle_not_lt _ _ Hreach Hbelow).
  - destruct Hgo as (? & ? & _ & ? & ? & ?). auto 10.
Qed.

Lemma ticks_below_estimate (dt : Q) (n : nat) (a : App) :
  is_plating_active a = true ->
  (inject_Z (time_elapsed_sec a + Z.of_nat n) < estimated_time_sec a)%Q ->
  wp (ticks dt n)
    (fun _ a' =>
       is_plating_active a' = true /\
       time_elapsed_sec a' = time_elapsed_sec a + Z.of_nat n /\
       estimated_time_sec a' = estimated_time_sec a /\
       status_message a' = status_message a /\
       issued a' = issued a /\
       live_update_event a' = live_update_event a /\
       clock a' = clock a)
    no_raise a.
Proof.
  revert a. induction n as [|n IH]; intros a Hactive Hbelow; cbn [ticks].
  - apply wp_ret. rewrite Z.add_0_r. auto 10.
  - apply wp_bind.
    eapply wp_mono; [ apply (tick_below_estimate dt a Hactive) | | intros ? ? [] ].
    + eapply Qle_lt_trans; [ | exact Hbelow ].
      unfold Qle. cbn [inject_Z Qnum Qden]. lia.
    + cbv beta. intros _ a1 (Hactive1 & Htime1 & Hest1 & Hmsg1 & Hiss1 & Hev1 & Hclk1).
      eapply wp_mono; [ apply (IH a1 Hactive1) | | intros ? ? [] ].
      * rewrite Htime1, Hest1.
        replace (time_elapsed_sec a + 1 + Z.of_nat n)
          with (time_elapsed_sec a + Z.of_nat (S n)) by lia.
        exact Hbelow.
      * cbv beta. intros _ a' (? & Htime' & ? & ? & ? & ? & ?).
        repeat split; try congruence.
        rewrite Htime', Htime1. lia.
Qed.

(** X26.  While the elapsed time stays below the estimate no tick stops
    the run, whatever the instrument reports: after [n] ticks the
    application is still plating, the elapsed time has advanced by [n],
    and no command has been issued, the monitoring interval being the
    one that was scheduled. *)
Theorem run_goes_on_below_the_estimate (dt : Q) (n : nat) (a : App) :
  is_plating_active a = true ->
  (inject_Z (time_elapsed_sec a + Z.of_nat n) < estimated_time_sec a)%Q ->
  exists a',
    ticks dt n a = (Ok tt, a') /\
    is_plating_active a' = true /\
    time_elapsed_sec a' = time_elapsed_sec a + Z.of_nat n /\
    issued a' = issued a /\
    live_update_event a' = live_update_event a /\
    clock a' = clock a.
Proof.
  intros Hactive Hbelow.
  destruct (wp_returns _ _ _ (ticks_below_estimate dt n a Hactive Hbelow))
    as ([] & a' & Hrun & ? & ? & _ & _ & ? & ? & ?).
  exists a'. auto 10.
Qed.

End GuiMore.

(* ================================================================== *)
(** * What reaches the instrument *)
(* ================================================================== *)

(** The commands the controller issues are followed into the interface:
    a call whose outcome is known from the context is replayed, any other
    call is summarised. *)
Ltac wp_known run :=
  lazymatch goal with
  | H : run = (Py.Ok _, _) |- _ => eapply run_wp; [ exact H | ]
  end.

Ltac wp_call ::=
  lazymatch goal with
  | |- Logic.wp (Scpi.io _) _ _ _ => apply wp_io; [ intros ? | ]
  | |- Logic.wp (Py.float _) _ _ _ => apply wp_float; intros
  | |- Logic.wp (Gui.device _) _ _ _ => unfold Gui.device
  | |- Logic.wp (Gui.send_command _) _ _ _ => unfold Gui.send_command
  | |- Logic.wp (Gui.show_modal _) _ _ _ => unfold Gui.show_modal
  | |- Logic.wp Gui.schedule_interval _ _ _ =>
      unfold Gui.schedule_interval, Clock.schedule_interval
  | |- Logic.wp (Gui.cancel _) _ _ _ => unfold Gui.cancel
  | |- Logic.wp Gui.update_calculations _ _ _ => unfold Gui.update_calculations
  | |- Logic.wp Gui._execute_abort _ _ _ => unfold Gui._execute_abort
  | |- Logic.wp Gui.on_connect_toggle _ _ _ => unfold Gui.on_connect_toggle
  | |- Logic.wp Gui.on_pause_plating _ _ _ => unfold Gui.on_pause_plating
  | |- Logic.wp (Scpi.send_command ?c) _ _ ?p =>
      first
        [ wp_known (Scpi.send_command c p)
        | eapply wp_mono;
          [ apply send_command_summary
          | cbv beta; intros ? ? (? & ? & ? & ? & ?)
          | cbv beta; intros ? ? [] ] ]
  | |- Logic.wp Scpi.read_data _ _ ?p =>
      first
        [ wp_known (Scpi.read_data p)
        | eapply wp_mono;
          [ apply read_data_summary
          | cbv beta; intros [[? ?] ?] ? (? & ? & ?)
          | cbv beta; intros ? ? [] ] ]
  | |- Logic.wp Scpi.connect _ _ _ =>
      eapply wp_mono;
      [ apply connect_summary
      | cbv beta; intros ? ? (? & ? & ? & ?)
      | cbv beta; intros ? ? [] ]
  | |- Logic.wp Scpi.disconnect _ _ ?p =>
      first
        [ wp_known (Scpi.disconnect p)
        | eapply wp_mono;
          [ apply disconnect_summary
          | cbv beta; intros ? ? (? & ? & ? & ?)
          | cbv beta; intros ? ? [] ] ]
  end.

Section Reach.
Import Py Scpi Gui Logic Spec Notions.
Context `{Builtins}.

(** An interface that is not connected refuses every command and is
    left as it is. *)
Lemma send_command_offline (command : string) (p : PowerSupplyInterface) :
  is_connected p = false -> Scpi.send_command command p = (Ok false, p).
Proof.
  intros Hc. unfold Scpi.send_command. cbv [mbind M_bind gets].
  rewrite Hc. reflexivity.
Qed.

(** The effect of the switch-off command on the interface: one write,
    when the interface is connected and holds a resource, and the output
    flag cleared when that write is answered. *)
Lemma switch_off_effect (p : PowerSupplyInterface) :
  let off := Write "OUTPut:STATe OFF" in
  Scpi.send_command "OUTP OFF" p =
    if is_connected p && bool_decide (is_Some (psu p)) then
      match respond (visa p) (length (wire (visa p))) off with
      | Reply _ => (Ok true, set output_on (fun _ => false) (after_io [off] p))
      | Fail => (Ok false, after_io [off] p)
      end
    else (Ok false, p).
Proof.
  intros off. subst off.
  enough (Hwp : wp (Scpi.send_command "OUTP OFF")
            (fun b p' => (Ok b, p') =
               if is_connected p && bool_decide (is_Some (psu p)) then
                 match respond (visa p) (length (wire (visa p)))
                         (Write "OUTPut:STATe OFF") with
                 | Reply _ =>
                     (Ok true, set output_on (fun _ => false)
                                 (after_io [Write "OUTPut:STATe OFF"] p))
                 | Fail => (Ok false, after_io [Write "OUTPut:STATe OFF"] p)
                 end
               else (Ok false, p)) no_raise p).
  { apply wp_returns in Hwp as (b & p' & -> & ->). reflexivity. }
  unfold Scpi.send_command.
  change (upper (strip "OUTP OFF")) with "OUTP OFF".
  change (startswith "OUTP OFF" "APPLY") with false.
  change (String.eqb "OUTP OFF" "OUTP ON") with false.
  change (String.eqb "OUTP OFF" "OUTP OFF") with true.
  cbv iota.
  repeat first
    [ lazymatch goal with
      | |- wp (io _) _ _ _ => apply wp_io'; [ intros ? ? | intros ? ]
      end
    | wp_step ].
  all: repeat match goal with
         | Hr : respond _ _ _ = _ |- _ => rewrite Hr; clear Hr
         end.
  all: destruct (is_connected p), (bool_decide (is_Some (psu p)));
    try discriminate; reflexivity.
Qed.

(** What the switch-off command leaves on the wire. *)
Lemma switch_off_wire (p : PowerSupplyInterface) :
  let p' := (Scpi.send_command "OUTP OFF" p).2 in
  is_connected p' = is_connected p /\
  psu p' = psu p /\
  wire (visa p') =
    (wire (visa p) ++
     if is_connected p && bool_decide (is_Some (psu p))
     then [Write "OUTPut:STATe OFF"] else [])%list /\
  ((Scpi.send_command "OUTP OFF" p).1 = Ok true -> output_on p' = false).
Proof.
  cbv zeta. rewrite switch_off_effect. cbv zeta.
  destruct (is_connected p && bool_decide (is_Some (psu p))).
  - destruct (respond (visa p) (length (wire (visa p)))
                (Write "OUTPut:STATe OFF"));
      destruct p as [? ? ? ? []]; cbn; repeat split; congruence.
  - cbn. rewrite app_nil_r. repeat split. discriminate.
Qed.

Lemma wp_and {S X} (m : M S X) (Q Q' : X -> S -> Prop) (s : S) :
  wp m Q no_raise s -> wp m Q' no_raise s ->
  wp m (fun x s' => Q x s' /\ Q' x s') no_raise s.
Proof.
  unfold wp. destruct (m s) as [[x|e] s']; [ split; assumption | exact (fun F _ => F) ].
Qed.

Ltac wp_run_gui :=
  wp_run;
  try (apply wp_truediv;
       [ intros E0;
         match goal with Hlt : Qlt_bool 0 _ = true |- _ =>
           apply Qlt_bool_iff in Hlt; rewrite E0 in Hlt; discriminate Hlt
         end | ]);
  wp_run.

(** ** The interface after an abort, a pause, a completing tick and a
       disconnection *)

Lemma abort_reaches_the_interface (a : App) :
  wp _execute_abort
    (fun _ a' =>
       psu_interface a' = (Scpi.send_command "OUTP OFF" (psu_interface a)).2)
    no_raise a.
Proof.
  destruct (wp_returns _ _ _ (send_command_spec "OUTP OFF" (psu_interface a)))
    as (accepted & p' & Hsend & _).
  rewrite Hsend. cbn [snd].
  unfold _execute_abort. wp_run; reflexivity.
Qed.

Lemma pause_reaches_the_interface (a : App) :
  is_plating_active a = true ->
  wp on_pause_plating
    (fun _ a' =>
       psu_interface a' = (Scpi.send_command "OUTP OFF" (psu_interface a)).2)
    no_raise a.
Proof.
  intros Hactive.
  destruct (wp_returns _ _ _ (send_command_spec "OUTP OFF" (psu_interface a)))
    as (accepted & p' & Hsend & _).
  rewrite Hsend. cbn [snd].
  unfold on_pause_plating. do 2 wp_step. rewrite Hactive.
  wp_run; reflexivity.
Qed.

Lemma completion_reaches_the_interface (dt : Q) (a : App) :
  is_plating_active a = true ->
  Qle_bool (estimated_time_sec a) (inject_Z (time_elapsed_sec a + 1)) = true ->
  wp (live_monitor dt)
    (fun _ a' =>
       psu_interface a' =
         (Scpi.send_command "OUTP OFF"
            (Scpi.read_data (psu_interface a)).2).2)
    no_raise a.
Proof.
  intros Hactive Hdone.
  destruct (wp_returns _ _ _ (read_data_spec (psu_interface a)))
    as ([[V A] status] & p1 & Hread & _).
  destruct (wp_returns _ _ _ (send_command_spec "OUTP OFF" p1))
    as (accepted & p2 & Hsend & _).
  rewrite Hread. cbn [snd]. rewrite Hsend. cbn [snd].
  unfold live_monitor. do 2 wp_step. rewrite Hactive. cbn [negb].
  wp_run_gui; try reflexivity; congruence.
Qed.

Lemma disconnection_reaches_the_interface (a : App) :
  is_connected (psu_interface a) = true ->
  is_plating_active a = true ->
  wp on_connect_toggle
    (fun _ a' => psu_interface a' = (Scpi.disconnect (psu_interface a)).2)
    no_raise a.
Proof.
  intros Hconn Hactive.
  destruct (wp_returns _ _ _ (disconnect_spec (psu_interface a)))
    as ([] & p1 & Hdisc & Hoff & _).
  pose proof (send_command_offline "OUTP OFF" p1 Hoff) as Hsend.
  rewrite Hdisc. cbn [snd].
  unfold on_connect_toggle. do 2 wp_step. rewrite Hconn. cbn [negb].
  wp_run; try reflexivity.
  all: repeat match goal with
         | Hc : is_connected _ = _ |- _ => rewrite Hc in *; clear Hc
         | Ha : is_plating_active _ = _ |- _ => rewrite Ha in *; clear Ha
         end; discriminate.
Qed.

(** ** Completion *)

(** C4.  A tick that brings the elapsed time exactly to the estimated time
    completes the run: progress 100, state Complete, no interval left
    scheduled, and any later call of [live_monitor] changes nothing.
    Exactly one command, OUTP OFF, is issued, and it is passed to the
    interface as [read_data] left it: when that interface is connected
    the wire gains the one write OUTPut:STATe OFF, and the output flag
    is cleared when the command is accepted. *)
Theorem completion_at_the_boundary (dt : Q) (a : App) :
  is_plating_active a = true ->
  0 <= time_elapsed_sec a ->
  (inject_Z (time_elapsed_sec a + 1) == estimated_time_sec a)%Q ->
  loop_tracked a ->
  exists a',
    live_monitor dt a = (Ok tt, a') /\
    time_elapsed_sec a' = time_elapsed_sec a + 1 /\
    progress_percent a' = 100 /\
    progress_bar a' = 100 /\
    process_state a' = Complete /\
    issued a' = (issued a ++ ["OUTP OFF"])%list /\
    live_update_event a' = None /\
    Clock.scheduled (clock a') = [] /\
    (forall dt', live_monitor dt' a' = (Ok tt, a')) /\
    let p1 := (Scpi.read_data (psu_interface a)).2 in
    psu_interface a' = (Scpi.send_command "OUTP OFF" p1).2 /\
    wire (visa (psu_interface a')) =
      (wire (visa p1) ++
       if is_connected p1 && bool_decide (is_Some (psu p1))
       then [Write "OUTPut:STATe OFF"] else [])%list /\
    ((Scpi.send_command "OUTP OFF" p1).1 = Ok true ->
     output_on (psu_interface a') = false).
Proof.
  intros Hactive Helapsed Hreach Hloop.
  destruct (tick_completes dt a Hactive) as (a' & Hrun & Hstate);
    [ rewrite <- Hreach; unfold Qlt; cbn [inject_Z Qnum Qden]; lia
    | rewrite Hreach; apply Qle_refl
    | exact Hloop | ].
  assert (Hdone : Qle_bool (estimated_time_sec a)
                    (inject_Z (time_elapsed_sec a + 1)) = true).
  { apply Qle_bool_iff. rewrite Hreach. apply Qle_refl. }
  destruct (wp_returns _ _ _ (completion_reaches_the_interface dt a Hactive Hdone))
    as ([] & a'' & Hrun' & Hpsu).
  rewrite Hrun in Hrun'. injection Hrun' as <-.
  exists a'. split; [ exact Hrun | ].
  destruct Hstate as (? & ? & ? & ? & ? & ? & ? & ?).
  repeat (split; [ assumption | ]).
  cbv zeta. rewrite Hpsu.
  pose proof (switch_off_wire (Scpi.read_data (psu_interface a)).2) as Hoff.
  cbv zeta in Hoff. destruct Hoff as (_ & _ & Hwire & Hout).
  split; [ exact Hwire | exact Hout ].
Qed.

(** ** Abort *)

Lemma abort_resets (a : App) :
  loop_tracked a ->
  wp _execute_abort
    (fun _ a' =>
       time_elapsed_sec a' = 0 /\
       progress_percent a' = 0 /\
       progress_bar a' = 0 /\
       issued a' = (issued a ++ ["OUTP OFF"])%list /\
       live_update_event a' = None /\
       Clock.scheduled (clock a') = [] /\
       process_state a' =
         if is_connected (psu_interface a) then Connected else Disconnected)
    no_raise a.
Proof.
  intros Hloop. unfold _execute_abort, loop_tracked in *.
  wp_run; unfold process_state; simpl_state;
    rewrite ?cancel_tracked by assumption;
    repeat split; try reflexivity; try assumption;
    match goal with Hc : is_connected _ = is_connected _ |- _ => rewrite Hc end;
    destruct (is_connected (psu_interface a)); reflexivity.
Qed.

(** C5, amended.  From Active or Paused, [_execute_abort] returns
    whatever the instrument answers, leaves the elapsed time and the
    progress at 0 and no monitoring interval scheduled, and issues
    exactly one command, OUTP OFF, to the interface: on a connected
    interface the wire gains the one write OUTPut:STATe OFF.  The state
    it ends in is Connected when the interface is connected, and
    Disconnected when it is not. *)
Theorem abort_resets_the_run (a : App) :
  process_state a = Active \/ process_state a = Paused ->
  loop_tracked a ->
  exists a',
    _execute_abort a = (Ok tt, a') /\
    time_elapsed_sec a' = 0 /\
    progress_percent a' = 0 /\
    progress_bar a' = 0 /\
    issued a' = (issued a ++ ["OUTP OFF"])%list /\
    live_update_event a' = None /\
    Clock.scheduled (clock a') = [] /\
    process_state a' =
      (if is_connected (psu_interface a) then Connected else Disconnected) /\
    let p := psu_interface a in
    psu_interface a' = (Scpi.send_command "OUTP OFF" p).2 /\
    wire (visa (psu_interface a')) =
      (wire (visa p) ++
       if is_connected p && bool_decide (is_Some (psu p))
       then [Write "OUTPut:STATe OFF"] else [])%list /\
    ((Scpi.send_command "OUTP OFF" p).1 = Ok true ->
     output_on (psu_interface a') = false).
Proof.
  intros _ Hloop.
  destruct (wp_returns _ _ _
              (wp_and _ _ _ _ (abort_resets a Hloop)
                 (abort_reaches_the_interface a)))
    as ([] & a' & Hrun & Hstate & Hpsu).
  exists a'. split; [ exact Hrun | ].
  destruct Hstate as (? & ? & ? & ? & ? & ? & ?).
  repeat (split; [ assumption | ]).
  cbv zeta. rewrite Hpsu.
  pose proof (switch_off_wire (psu_interface a)) as Hoff.
  cbv zeta in Hoff. destruct Hoff as (_ & _ & Hwire & Hout).
  split; [ exact Hwire | exact Hout ].
Qed.

(** ** Pausing *)

Lemma pause_marks_paused (a : App) :
  loop_tracked a ->
  wp on_pause_plating
    (fun _ a' =>
       if is_plating_active a
       then process_state a' = Paused /\
            time_elapsed_sec a' = time_elapsed_sec a /\
            progress_percent a' = progress_percent a /\
            issued a' = (issued a ++ ["OUTP OFF"])%list /\
            live_update_event a' = None /\
            Clock.scheduled (clock a') = [] /\
            status_message a' =
              "PAUSED (Elapsed: "
              +:+ Formulas.format_time (inject_Z (time_elapsed_sec a))
              +:+ ")" /\
            status_label a' = status_message a' /\
            start_btn a' =
              {| Button.text := "RESUME"; Button.disabled := false |} /\
            Button.disabled (pause_btn a') = true /\
            Button.disabled (abort_btn a') = false /\
            Button.disabled (connect_btn a') = true
       else a' = a) no_raise a.
Proof.
  intros Hloop. unfold on_pause_plating, loop_tracked in *.
  wp_run; unfold process_state; simpl_state;
    cbn [Clock.scheduled Clock.cancel] in *;
    repeat match goal with
           | He : live_update_event _ = _ |- _ => rewrite He in *; clear He
           end;
    rewrite ?Hloop, ?filter_cancelled;
    repeat split; try reflexivity; try assumption.
Qed.

(** X19.  [on_pause_plating] on a plating application marks it Paused
    whatever the instrument answers to the one OUTP OFF it issues: the
    elapsed time and the progress are kept, the monitoring interval is
    cancelled, the status shows the elapsed time, and the start button,
    relabelled RESUME, and the abort button are enabled.  The OUTP OFF is
    passed to the interface: when it is connected the wire gains the one
    write OUTPut:STATe OFF, and the output flag is cleared when the
    command is accepted.  On an application that is not plating the
    handler does nothing. *)
Theorem pause_keeps_elapsed_time (a : App) :
  loop_tracked a ->
  exists a',
    on_pause_plating a = (Ok tt, a') /\
    if is_plating_active a
    then process_state a' = Paused /\
         time_elapsed_sec a' = time_elapsed_sec a /\
         progress_percent a' = progress_percent a /\
         issued a' = (issued a ++ ["OUTP OFF"])%list /\
         live_update_event a' = None /\
         Clock.scheduled (clock a') = [] /\
         status_message a' =
           "PAUSED (Elapsed: "
           +:+ Formulas.format_time (inject_Z (time_elapsed_sec a)) +:+ ")" /\
         status_label a' = status_message a' /\
         start_btn a' = {| Button.text := "RESUME"; Button.disabled := false |} /\
         Button.disabled (pause_btn a') = true /\
         Button.disabled (abort_btn a') = false /\
         Button.disabled (connect_btn a') = true /\
         let p := psu_interface a in
         psu_interface a' = (Scpi.send_command "OUTP OFF" p).2 /\
         wire (visa (psu_interface a')) =
           (wire (visa p) ++
            if is_connected p && bool_decide (is_Some (psu p))
            then [Write "OUTPut:STATe OFF"] else [])%list /\
         ((Scpi.send_command "OUTP OFF" p).1 = Ok true ->
          output_on (psu_interface a') = false)
    else a' = a.
Proof.
  intros Hloop.
  destruct (wp_returns _ _ _ (pause_marks_paused a Hloop))
    as ([] & a' & Hrun & Hstate).
  exists a'. split; [ exact Hrun | ].
  destruct (is_plating_active a) eqn:Hactive; [ | exact Hstate ].
  destruct (wp_returns _ _ _ (pause_reaches_the_interface a Hactive))
    as ([] & a'' & Hrun' & Hpsu).
  rewrite Hrun in Hrun'. injection Hrun' as <-.
  destruct Hstate as (? & ? & ? & ? & ? & ? & ? & ? & ? & ? & ? & ?).
  pose proof (switch_off_wire (psu_interface a)) as Hoff.
  cbv zeta in Hoff. destruct Hoff as (_ & _ & Hwire & Hout).
  cbv zeta. rewrite Hpsu. auto 20.
Qed.

(** ** Disconnecting during a run *)

Lemma disconnection_aborts (a : App) :
  is_connected (psu_interface a) = true ->
  is_plating_active a = true ->
  loop_tracked a ->
  wp on_connect_toggle
    (fun _ a' =>
       process_state a' = Disconnected /\
       is_connected (psu_interface a') = false /\
       output_on (psu_interface a') = false /\
       time_elapsed_sec a' = 0 /\
       progress_percent a' = 0 /\
       progress_bar a' = 0 /\
       live_update_event a' = None /\
       Clock.scheduled (clock a') = [] /\
       issued a' = (issued a ++ ["OUTP OFF"])%list /\
       status_message a' = "ABORTED. Resetting." /\
       status_label a' = "ABORTED. Resetting." /\
       Button.text (connect_btn a') = "CONNECT" /\
       start_btn a' =
         {| Button.text := "START PLATING"; Button.disabled := false |})
    no_raise a.
Proof.
  intros Hconn Hactive Hloop.
  unfold on_connect_toggle, loop_tracked in *.
  do 2 wp_step. rewrite Hconn. cbn [negb].
  wp_run.
  all: unfold process_state; simpl_state; cbn [Clock.scheduled Clock.cancel].
  all: repeat match goal with
         | Hc : is_connected _ = _ |- _ => rewrite Hc in *; clear Hc
         | He : live_update_event _ = _ |- _ => rewrite He in *; clear He
         | Ha : is_plating_active _ = _ |- _ => rewrite Ha in *; clear Ha
         end.
  all: try discriminate.
  all: change (upper (strip "OUTP OFF")) with "OUTP OFF" in *.
  all: match goal with
       | Ho : output_on _ = output_after "OUTP OFF" ?x _,
         Hoff : output_on _ = false |- _ =>
           rewrite Ho, Hoff; destruct x
       end.
  all: rewrite ?Hloop, ?filter_cancelled; repeat split; reflexivity.
Qed.

(** X22.  Pressing the connect button on a connected, plating
    application disconnects the supply and aborts the run: the elapsed
    time, the progress and the progress bar are 0, no interval is left
    scheduled and the state is Disconnected.  The abort overwrites the
    DISCONNECTED status with its own and enables the start button.  Its
    OUTP OFF is issued after the disconnect, to an interface that
    refuses it: the interface is as [disconnect] left it, and the wire
    holds what [disconnect] sent, the write OUTP OFF and, when that was
    answered, the close, with no OUTPut:STATe OFF after them. *)
Theorem disconnect_while_plating_aborts (a : App) :
  is_connected (psu_interface a) = true ->
  is_plating_active a = true ->
  loop_tracked a ->
  exists a',
    on_connect_toggle a = (Ok tt, a') /\
    process_state a' = Disconnected /\
    is_connected (psu_interface a') = false /\
    output_on (psu_interface a') = false /\
    time_elapsed_sec a' = 0 /\
    progress_percent a' = 0 /\
    progress_bar a' = 0 /\
    live_update_event a' = None /\
    Clock.scheduled (clock a') = [] /\
    issued a' = (issued a ++ ["OUTP OFF"])%list /\
    status_message a' = "ABORTED. Resetting." /\
    status_label a' = "ABORTED. Resetting." /\
    Button.text (connect_btn a') = "CONNECT" /\
    start_btn a' = {| Button.text := "START PLATING"; Button.disabled := false |} /\
    let p := psu_interface a in
    psu_interface a' = (Scpi.disconnect p).2 /\
    Scpi.send_command "OUTP OFF" (Scpi.disconnect p).2
      = (Ok false, (Scpi.disconnect p).2) /\
    wire (visa (psu_interface a')) =
      (wire (visa p) ++
       match psu p with
       | None => []
       | Some _ =>
           if answered (respond (visa p) (length (wire (visa p)))
                          (Write "OUTP OFF"))
           then [Write "OUTP OFF"; Close]
           else [Write "OUTP OFF"]
       end)%list.
Proof.
  intros Hconn Hactive Hloop.
  destruct (wp_returns _ _ _
              (wp_and _ _ _ _ (disconnection_aborts a Hconn Hactive Hloop)
                 (disconnection_reaches_the_interface a Hconn Hactive)))
    as ([] & a' & Hrun & Hstate & Hpsu).
  exists a'. split; [ exact Hrun | ].
  destruct Hstate as (? & ? & ? & ? & ? & ? & ? & ? & ? & ? & ? & ? & ?).
  repeat (split; [ assumption | ]).
  cbv zeta.
  destruct (wp_returns _ _ _ (disconnect_effect (psu_interface a)))
    as ([] & p1 & Hdisc & Hoff & _ & _ & _ & Hvisa).
  rewrite Hpsu, Hdisc. cbn [snd].
  split; [ apply send_command_offline, Hoff | ].
  rewrite Hvisa. reflexivity.
Qed.

End Reach.

Section AbortOffline.
Import Py Scpi Gui Spec Scenario.
#[local] Existing Instance Decimal.builtins.

(** C5, as stated, fails: after a tick on which the supply stopped
    answering, the application is still Active and its interface is
    disconnected; the abort then resets the run, issues OUTP OFF, which
    the interface refuses without a write, and ends in Disconnected, not
    in Connected. *)
Theorem abort_after_comms_failure_ends_disconnected :
  let a := after (live_monitor 1) (plating unplugged) in
  let a' := after _execute_abort a in
  reachable a /\
  process_state a = Active /\
  loop_tracked a /\
  is_connected (psu_interface a) = false /\
  (_execute_abort a).1 = Ok tt /\
  time_elapsed_sec a' = 0 /\
  progress_percent a' = 0 /\
  issued a' = (issued a ++ ["OUTP OFF"])%list /\
  wire (visa (psu_interface a')) = wire (visa (psu_interface a)) /\
  Clock.scheduled (clock a') = [] /\
  process_state a' = Disconnected.
Proof.
  split;
    [ exact (reachable_handle _ (LiveMonitor 1) (plating_reachable unplugged)) | ].
  vm_compute. repeat split.
Qed.

End AbortOffline.

(* ================================================================== *)
(** * The calculator on doubles *)
(* ================================================================== *)

Section CalculatorOnDoubles.
Import Py Double Spec64.
#[local] Set Warnings "-inexact-float".

Lemma dict_get_density64 (level : Z) :
  dict_get CURRENT_DENSITY_MAP level 5.0%float = density_for level.
Proof.
  unfold dict_get, density_for, CURRENT_DENSITY_MAP.
  destruct (Z.eqb_spec level 1) as [->|H1]; [ reflexivity | ].
  destruct (Z.eqb_spec level 2) as [->|H2]; [ reflexivity | ].
  destruct (Z.eqb_spec level 3) as [->|H3]; [ reflexivity | ].
  destruct (Z.eqb_spec level 4) as [->|H4]; [ reflexivity | ].
  destruct (Z.eqb_spec level 5) as [->|H5]; [ reflexivity | ].
  rewrite !lookup_insert_ne by lia.
  rewrite lookup_singleton_ne by lia. reflexivity.
Qed.

Lemma float_of_int_raises (n : Z) (e : exn) :
  float_of_int n = Raise e -> e = OverflowError.
Proof.
  unfold float_of_int.
  destruct (is_infinity _); [ intros [= <-]; reflexivity | discriminate ].
Qed.

Lemma calculate_metrics_computed (thickness area : binary64) (level : Z) :
  calculate_metrics thickness area level
  = computed (density_for level) thickness area level.
Proof.
  unfold calculate_metrics, computed.
  change (getitem CURRENT_DENSITY_MAP 1) with (Ok 5.0%float).
  cbn [mbind result_bind]. rewrite dict_get_density64.
  assert (Hd : truediv (density_for level) 1000.0
               = Ok (density_for level / 1000.0)%float) by reflexivity.
  rewrite Hd. cbn [mbind result_bind].
  assert (Ht : truediv thickness 10000.0 = Ok (thickness / 10000.0)%float)
    by reflexivity.
  rewrite Ht. cbn [mbind result_bind].
  change (float_of_int CHARGE_VALENCE) with (Ok 2.0%float).
  cbn [mbind result_bind].
  unfold truediv, MOLAR_MASS_G_MOL, CURRENT_EFFICIENCY, DENSITY_G_CM3, F.
  destruct (PrimFloat.eqb _ 0); [ reflexivity | ].
  cbn [mbind result_bind].
  destruct (float_of_int (level - 1)) as [steps|e] eqn:Hsteps;
    cbn [mbind result_bind try_result]; [ reflexivity | ].
  rewrite (float_of_int_raises _ _ Hsteps). reflexivity.
Qed.

(** The only exception of [calculate_metrics]: a level beyond the floats. *)
Lemma calculate_metrics_raises (thickness area : binary64) (level : Z) (e : exn) :
  calculate_metrics thickness area level = Raise e -> e = OverflowError.
Proof.
  rewrite calculate_metrics_computed. unfold computed.
  destruct (PrimFloat.eqb _ 0); [ discriminate | ].
  destruct (float_of_int (level - 1)) as [steps|e'] eqn:Hsteps;
    cbn [mbind result_bind]; [ discriminate | ].
  intros [= <-]. exact (float_of_int_raises _ _ Hsteps).
Qed.



End CalculatorOnDoubles.

(* ================================================================== *)
(** * Signs in double arithmetic *)
(* ================================================================== *)

Section SignsOfDoubles.
Import Py Double.
#[local] Set Warnings "-inexact-float".








Lemma ltb_zero_positive (x : binary64) :
  (0 <? x)%float = true -> positive_float (Prim2SF x).
Proof.
  rewrite FloatAxioms.ltb_spec. change (Prim2SF 0) with (S754_zero false).
  unfold SFltb. destruct (Prim2SF x) as [s|[]| |[] m e]; cbn; try discriminate;
    exact (fun _ => I).
Qed.

Lemma positive_not_zero (x : binary64) :
  positive_float (Prim2SF x) -> (x =? 0)%float = false.
Proof.
  rewrite FloatAxioms.eqb_spec. change (Prim2SF 0) with (S754_zero false).
  destruct (Prim2SF x) as [s|[]| |[] m e]; cbn; try contradiction; reflexivity.
Qed.




End SignsOfDoubles.

Section NumbersInDoubles.
Import Py Double.
#[local] Set Warnings "-inexact-float".

Lemma shr_1_nonneg mrs : 0 <= shr_m mrs -> 0 <= shr_m (shr_1 mrs).
Proof.
  destruct mrs as [m r s]. cbn [shr_m]. intros Hm.
  destruct m as [|[p|p|]|p]; cbn; lia.
Qed.

Lemma iter_shr_1_nonneg p mrs :
  0 <= shr_m mrs -> 0 <= shr_m (SpecFloat.iter_pos shr_1 p mrs).
Proof.
  revert mrs. induction p as [p IH|p IH|]; intros mrs Hm; cbn.
  - apply IH, IH, shr_1_nonneg, Hm.
  - apply IH, IH, Hm.
  - apply shr_1_nonneg, Hm.
Qed.

Lemma shr_fexp_nonneg m e l :
  0 <= m -> 0 <= shr_m (shr_fexp prec emax m e l).1.
Proof.
  intros Hm. unfold shr_fexp, shr.
  assert (H0 : 0 <= shr_m (shr_record_of_loc m l))
    by (destruct l as [|[]]; exact Hm).
  destruct (fexp _ _ _ - e); cbn [fst]; [ exact H0 | | exact H0 ].
  apply iter_shr_1_nonneg, H0.
Qed.

Lemma round_nearest_even_nonneg m l :
  0 <= m -> 0 <= round_nearest_even m l.
Proof.
  intros Hm. unfold round_nearest_even.
  destruct l as [|[]]; try destruct (IntDef.Z.even m); lia.
Qed.

Lemma binary_round_aux_numeric sx mx ex lx :
  0 <= mx -> binary_round_aux prec emax sx mx ex lx <> S754_nan.
Proof.
  intros Hm. unfold binary_round_aux.
  pose proof (shr_fexp_nonneg mx ex lx Hm) as H1.
  destruct (shr_fexp prec emax mx ex lx) as [mrs' e']. cbn [fst] in H1.
  pose proof (shr_fexp_nonneg _ e' loc_Exact
                (round_nearest_even_nonneg _ (loc_of_shr_record mrs') H1)) as H2.
  destruct (shr_fexp prec emax _ e' loc_Exact) as [mrs'' e'']. cbn [fst] in H2.
  destruct (shr_m mrs''); [ discriminate | | lia ].
  destruct (e'' <=? emax - prec); discriminate.
Qed.

Lemma binary_round_numeric sx mx ex :
  binary_round prec emax sx mx ex <> S754_nan.
Proof.
  unfold binary_round. destruct (shl_align _ _ _) as [mz ez].
  apply binary_round_aux_numeric. lia.
Qed.

Lemma binary_normalize_numeric m s :
  binary_normalize prec emax m 0 s <> S754_nan.
Proof.
  destruct m; [ discriminate | | ]; apply binary_round_numeric.
Qed.

Lemma SFldexp_numeric f e : f <> S754_nan -> SFldexp prec emax f e <> S754_nan.
Proof.
  destruct f; cbn [SFldexp]; try exact id.
  intros _. apply binary_round_numeric.
Qed.

Lemma SF2Prim_numeric f : f <> S754_nan -> Prim2SF (SF2Prim f) <> S754_nan.
Proof.
  destruct f as [[]|[]| |s m e]; try discriminate; [ congruence | ].
  intros _. cbn [SF2Prim]. cbv zeta.
  assert (Hf : Prim2SF (Z.ldexp (of_uint63 (Uint63Axioms.of_Z (Z.pos m))) e)
               <> S754_nan).
  { unfold Z.ldexp. rewrite FloatAxioms.ldshiftexp_spec.
    apply SFldexp_numeric. rewrite FloatAxioms.of_uint63_spec.
    apply binary_normalize_numeric. }
  destruct s; [ | exact Hf ].
  rewrite FloatAxioms.opp_spec. destruct (Prim2SF _); cbn; congruence.
Qed.

Lemma not_infinity (x : binary64) (s : bool) :
  is_infinity x = false -> Prim2SF x <> S754_infinity s.
Proof.
  intros Hx. unfold Prim2SF. rewrite Hx.
  destruct (is_nan x); [ discriminate | ].
  destruct (is_zero x); [ discriminate | ].
  destruct (Z.frexp x) as [r exp].
  destruct (shr_fexp _ _ _ _ _) as [shr e'].
  destruct (shr_m shr); discriminate.
Qed.

(** A finite float: neither an infinity nor NaN. *)
Lemma float_of_int_finite (n : Z) (x : binary64) :
  float_of_int n = Ok x ->
  Prim2SF x <> S754_nan /\ forall s, Prim2SF x <> S754_infinity s.
Proof.
  unfold float_of_int.
  destruct (is_infinity _) eqn:Hx; [ discriminate | ].
  intros [= <-]. split.
  - apply SF2Prim_numeric, binary_normalize_numeric.
  - intros s. apply not_infinity, Hx.
Qed.

Lemma div_eucl_nonneg (a b : Z) : 0 <= a -> 0 < b -> 0 <= (Z.div_eucl a b).1.
Proof.
  intros Ha Hb. change (Z.div_eucl a b).1 with (a / b). apply Z.div_pos; lia.
Qed.

Lemma div_numeric (x y : binary64) :
  Prim2SF x <> S754_nan -> (forall s, Prim2SF x <> S754_infinity s) ->
  positive_float (Prim2SF y) ->
  Prim2SF (x / y) <> S754_nan.
Proof.
  rewrite FloatAxioms.div_spec. unfold SF64div.
  destruct (Prim2SF x) as [s|s| |s m e]; intros Hnan Hinf;
    [ | destruct (Hinf s); reflexivity | congruence | ];
    destruct (Prim2SF y) as [s'|[]| |[] m' e'];
    cbn [positive_float SFdiv]; try contradiction; try discriminate.
  intros _. unfold SFdiv_core_binary. cbv zeta.
  match goal with
  | |- context [IntDef.Z.div_eucl ?a ?b] =>
      pose proof (div_eucl_nonneg a b) as Hq;
      change (IntDef.Z.div_eucl a b) with (Z.div_eucl a b);
      destruct (Z.div_eucl a b) as [q r]
  end.
  apply binary_round_aux_numeric. cbn [fst] in Hq. apply Hq; [ | lia ].
  destruct (e - e' - _); [ lia | | lia ].
  apply Z.shiftl_nonneg. lia.
Qed.

Lemma mul_100_numeric (x : binary64) :
  Prim2SF x <> S754_nan -> Prim2SF (x * 100) <> S754_nan.
Proof.
  rewrite FloatAxioms.mul_spec. unfold SF64mul.
  change (Prim2SF 100) with (S754_finite false 7036874417766400 (-46)).
  destruct (Prim2SF x) as [s|s| |s m e]; cbn [SFmul];
    try discriminate; try congruence.
  intros _. apply binary_round_aux_numeric. lia.
Qed.

Lemma int_of_float_raises (x : binary64) (e : exn) :
  int_of_float x = Raise e -> Prim2SF x <> S754_nan -> e = OverflowError.
Proof.
  unfold int_of_float.
  destruct (Prim2SF x); try discriminate; [ | congruence ].
  intros [= <-] _. reflexivity.
Qed.

End NumbersInDoubles.

(* ================================================================== *)
(** * The controller on doubles *)
(* ================================================================== *)

Ltac simpl_state ::=
  cbn [fst snd Py.set
       Scpi.is_connected Scpi.output_on Scpi.psu Scpi.rm Scpi.visa
       Scpi.set_is_connected Scpi.set_output_on Scpi.set_psu Scpi.set_rm
       Scpi.set_visa Scpi.respond Scpi.wire
       Button.text Button.disabled Button.set_text Button.set_disabled
       Gui.target_thickness_um Gui.target_area_cm2 Gui.complexity
       Gui.current_readout_V Gui.current_readout_A Gui.status_message
       Gui.progress_percent Gui.time_elapsed_sec Gui.is_plating_active
       Gui.target_current_A Gui.target_voltage_V Gui.estimated_time_sec
       Gui.psu_interface Gui.live_update_event Gui.status_label
       Gui.progress_bar Gui.connect_btn Gui.start_btn Gui.pause_btn
       Gui.abort_btn Gui.clock Gui.modals Gui.issued
       Gui.set_target_thickness_um Gui.set_target_area_cm2 Gui.set_complexity
       Gui.set_current_readout_V Gui.set_current_readout_A
       Gui.set_status_message Gui.set_progress_percent
       Gui.set_time_elapsed_sec Gui.set_is_plating_active
       Gui.set_target_current_A Gui.set_target_voltage_V
       Gui.set_estimated_time_sec Gui.set_psu_interface
       Gui.set_live_update_event Gui.set_status_label Gui.set_progress_bar
       Gui.set_connect_btn Gui.set_start_btn Gui.set_pause_btn
       Gui.set_abort_btn Gui.set_clock Gui.set_modals Gui.set_issued
       Gui64.target_thickness_um Gui64.target_area_cm2 Gui64.complexity
       Gui64.current_readout_V Gui64.current_readout_A Gui64.status_message
       Gui64.progress_percent Gui64.time_elapsed_sec Gui64.is_plating_active
       Gui64.target_current_A Gui64.target_voltage_V Gui64.estimated_time_sec
       Gui64.psu_interface Gui64.live_update_event Gui64.status_label
       Gui64.progress_bar Gui64.connect_btn Gui64.start_btn Gui64.pause_btn
       Gui64.abort_btn Gui64.clock Gui64.modals Gui64.issued
       Gui64.set_target_thickness_um Gui64.set_target_area_cm2
       Gui64.set_complexity
       Gui64.set_current_readout_V Gui64.set_current_readout_A
       Gui64.set_status_message Gui64.set_progress_percent
       Gui64.set_time_elapsed_sec Gui64.set_is_plating_active
       Gui64.set_target_current_A Gui64.set_target_voltage_V
       Gui64.set_estimated_time_sec Gui64.set_psu_interface
       Gui64.set_live_update_event Gui64.set_status_label
       Gui64.set_progress_bar
       Gui64.set_connect_btn Gui64.set_start_btn Gui64.set_pause_btn
       Gui64.set_abort_btn Gui64.set_clock Gui64.set_modals Gui64.set_issued]
    in *.

Section RulesOnDoubles.
Import Py Double Logic.

Lemma wp_float64 {S} `{Builtins} (text : string)
    (Q : binary64 -> S -> Prop) E (s : S) :
  (forall x, float_of_str text = Some x -> Q x s) ->
  (float_of_str text = None -> E ValueError s) ->
  wp (float text) Q E s.
Proof.
  intros HQ HE. unfold float.
  destruct (float_of_str text); [ apply wp_ret | apply wp_raise ]; auto.
Qed.

Lemma wp_lift_cases {S X} (r : result X) (Q : X -> S -> Prop) E (s : S) :
  (forall x, r = Ok x -> Q x s) ->
  (forall e, r = Raise e -> E e s) ->
  wp (lift r) Q E s.
Proof.
  intros HQ HE. unfold wp, lift. destruct r; auto.
Qed.

Lemma wp_run_exactly {S X} (m : M S X) (x : X) (s s' : S) :
  wp m (fun y t => y = x /\ t = s') no_raise s -> m s = (Ok x, s').
Proof.
  intros Hwp. apply wp_returns in Hwp as (y & t & Hrun & -> & ->). exact Hrun.
Qed.

Lemma format_time_raises (seconds : number) (e : exn) :
  format_time seconds = Raise e -> e = OverflowError.
Proof.
  unfold format_time, int.
  destruct seconds as [n|x]; cbn [mbind result_bind try_result].
  - destruct (n <? 0); discriminate.
  - unfold int_of_float.
    destruct (Prim2SF x); cbn [mbind result_bind try_result];
      repeat match goal with
             | |- context [if ?b then _ else _] => destruct b
             end; try discriminate.
    intros [= <-]. reflexivity.
Qed.

Lemma format_time_int (n : Z) : exists text, format_time (Int n) = Ok text.
Proof.
  unfold format_time, int. cbn [mbind result_bind try_result].
  destruct (n <? 0); eauto.
Qed.

End RulesOnDoubles.

Ltac wp_call ::=
  lazymatch goal with
  | |- Logic.wp (Scpi.io _) _ _ _ => apply wp_io; [ intros ? | ]
  | |- Logic.wp (Double.float _) _ _ _ => apply wp_float64; intros
  | |- Logic.wp (Scpi.with_locals _ _) _ _ _ => apply wp_with_locals
  | |- Logic.wp (Scpi.self _) _ _ _ => unfold Scpi.self
  | |- Logic.wp (Scpi.frame _) _ _ _ => unfold Scpi.frame
  | |- Logic.wp Scpi.disconnect _ _ _ =>
      eapply wp_mono; [ apply disconnect_spec | cbv beta; intros .. ]
  end.

Section Scpi64Total.
Import Py Double Scpi64 Logic.
Context `{Builtins}.

Lemma send_command64_spec (command : string) p :
  wp (Scpi64.send_command command)
    (fun _ p' => is_connected p' = is_connected p /\ psu p' = psu p)
    no_raise p.
Proof.
  unfold Scpi64.send_command. wp_run; auto.
Qed.

Lemma read_data64_spec p :
  wp Scpi64.read_data (fun _ _ => True) no_raise p.
Proof.
  unfold Scpi64.read_data. wp_run; auto.
Qed.

End Scpi64Total.

(** [update_calculations] is unfolded until it is specified. *)
Ltac wp_update_calculations := unfold Gui64.update_calculations.

Ltac wp_call ::=
  lazymatch goal with
  | |- Logic.wp (Scpi.io _) _ _ _ => apply wp_io; [ intros ? | ]
  | |- Logic.wp (Double.float _) _ _ _ => apply wp_float64; intros
  | |- Logic.wp (Gui64.device _) _ _ _ => unfold Gui64.device
  | |- Logic.wp (Gui64.send_command _) _ _ _ => unfold Gui64.send_command
  | |- Logic.wp (Gui64.show_modal _) _ _ _ => unfold Gui64.show_modal
  | |- Logic.wp Gui64.schedule_interval _ _ _ =>
      unfold Gui64.schedule_interval, Clock.schedule_interval
  | |- Logic.wp (Gui64.cancel _) _ _ _ => unfold Gui64.cancel
  | |- Logic.wp Gui64.update_calculations _ _ _ => wp_update_calculations
  | |- Logic.wp Gui64._execute_abort _ _ _ => unfold Gui64._execute_abort
  | |- Logic.wp (Gui64.on_thickness_input _) _ _ _ =>
      unfold Gui64.on_thickness_input
  | |- Logic.wp (Gui64.on_area_input _) _ _ _ => unfold Gui64.on_area_input
  | |- Logic.wp (Gui64.on_input_focus _ _) _ _ _ =>
      unfold Gui64.on_input_focus
  | |- Logic.wp (Gui64.on_complexity_change _) _ _ _ =>
      unfold Gui64.on_complexity_change
  | |- Logic.wp Gui64.on_connect_toggle _ _ _ =>
      unfold Gui64.on_connect_toggle
  | |- Logic.wp Gui64.on_start_plating _ _ _ => unfold Gui64.on_start_plating
  | |- Logic.wp Gui64.start_process _ _ _ => unfold Gui64.start_process
  | |- Logic.wp Gui64.on_pause_plating _ _ _ => unfold Gui64.on_pause_plating
  | |- Logic.wp Gui64.on_abort_plating _ _ _ => unfold Gui64.on_abort_plating
  | |- Logic.wp (Gui64.live_monitor _) _ _ _ => unfold Gui64.live_monitor
  | |- Logic.wp (Py.lift _) _ _ _ => apply wp_lift_cases; intros ? ?
  | |- Logic.wp (Scpi64.send_command ?c) _ _ ?p =>
      first
        [ wp_known (Scpi64.send_command c p)
        | eapply wp_mono;
          [ apply send_command64_spec
          | cbv beta; intros ? ? [? ?]
          | cbv beta; intros ? ? [] ] ]
  | |- Logic.wp Scpi64.read_data _ _ ?p =>
      first
        [ wp_known (Scpi64.read_data p)
        | eapply wp_mono;
          [ apply read_data64_spec
          | cbv beta; intros [[? ?] ?] ? _
          | cbv beta; intros ? ? [] ] ]
  | |- Logic.wp Scpi.connect _ _ _ =>
      eapply wp_mono;
      [ apply connect_spec
      | cbv beta; intros ? ? ?
      | cbv beta; intros ? ? [] ]
  | |- Logic.wp Scpi.disconnect _ _ _ =>
      eapply wp_mono;
      [ apply disconnect_spec
      | cbv beta; intros ? ? (? & ? & ?)
      | cbv beta; intros ? ? [] ]
  end.

Section Gui64Facts.
Import Py Double Scpi Gui64 Logic Spec64.
Context `{Builtins}.
#[local] Set Warnings "-inexact-float".

(** ** The progress of a tick *)


Lemma percent_raises (est : binary64) (elapsed : Z) (e : exn) :
  percent est elapsed = Raise e -> e = OverflowError.
Proof.
  unfold percent.
  destruct (0 <? est)%float eqn:Hpos; [ | discriminate ].
  apply ltb_zero_positive in Hpos.
  destruct (float_of_int elapsed) as [x|e'] eqn:Hx;
    cbn [mbind result_bind];
    [ | intros [= <-]; exact (float_of_int_raises _ _ Hx) ].
  unfold truediv. rewrite (positive_not_zero _ Hpos). cbn [mbind result_bind].
  destruct (int_of_float (x / est * 100)) as [whole|e'] eqn:Hwhole;
    cbn [mbind result_bind]; [ discriminate | ].
  intros [= <-]. apply (int_of_float_raises _ _ Hwhole).
  destruct (float_of_int_finite _ _ Hx) as [Hnan Hinf].
  apply mul_100_numeric, div_numeric; assumption.
Qed.

Lemma percent_none (est : binary64) (elapsed : Z) :
  (0 <? est)%float = false -> percent est elapsed = Ok 0.
Proof. unfold percent. intros ->. reflexivity. Qed.

Lemma percent_whole (est x ratio : binary64) (elapsed : Z) (r : result Z) :
  (0 <? est)%float = true ->
  float_of_int elapsed = Ok x ->
  truediv x est = Ok ratio ->
  int_of_float (ratio * 100) = r ->
  percent est elapsed = whole ← r; Ok (Z.min 100 whole).
Proof.
  unfold percent. intros -> -> Hratio <-. cbn [mbind result_bind].
  rewrite Hratio. reflexivity.
Qed.

Lemma percent_beyond (est : binary64) (elapsed : Z) (e : exn) :
  (0 <? est)%float = true ->
  float_of_int elapsed = Raise e ->
  percent est elapsed = Raise e.
Proof.
  unfold percent. intros -> ->. reflexivity.
Qed.

Lemma truediv_positive (x est : binary64) (e : exn) :
  (0 <? est)%float = true -> truediv x est <> Raise e.
Proof.
  intros Hpos. unfold truediv.
  rewrite (positive_not_zero _ (ltb_zero_positive _ Hpos)). discriminate.
Qed.

(** ** The monitoring tick *)

(** A tick of a plating application: the readings are stored and the
    time advances by one; then the progress is recomputed, unless its
    computation raises, and the run goes on untouched or is completed. *)
Lemma live_monitor_plating64 (dt : binary64) (a : App)
    (V A : binary64) (status : string) (p' : PowerSupplyInterface) :
  is_plating_active a = true ->
  Scpi64.read_data (psu_interface a) = (Ok (V, A, status), p') ->
  let elapsed := time_elapsed_sec a + 1 in
  let est := estimated_time_sec a in
  let alert := if contains "ALERT" status then ["Instrument Alert"] else [] in
  wp (live_monitor dt)
    (fun _ a' =>
       time_elapsed_sec a' = elapsed /\
       estimated_time_sec a' = est /\
       current_readout_V a' = V /\
       current_readout_A a' = A /\
       percent est elapsed = Ok (progress_percent a') /\
       if int_ge_float elapsed est
       then is_plating_active a' = false /\
            status_message a' = "PLATING COMPLETE" /\
            progress_bar a' = 100 /\
            issued a' = (issued a ++ ["OUTP OFF"])%list /\
            live_update_event a' = None /\
            modals a' = (modals a ++ alert ++ ["Process Complete"])%list /\
            exists text, format_time (Float est) = Ok text
       else is_plating_active a' = true /\
            status_message a' = status_message a /\
            progress_bar a' = progress_percent a' /\
            issued a' = issued a /\
            live_update_event a' = live_update_event a /\
            clock a' = clock a /\
            psu_interface a' = p' /\
            status_label a' =
              status +:+ " (" +:+ str_of_int (progress_percent a') +:+ "%)" /\
            modals a' = (modals a ++ alert)%list)
    (fun e a' =>
       e = OverflowError /\
       time_elapsed_sec a' = elapsed /\
       estimated_time_sec a' = est /\
       current_readout_V a' = V /\
       current_readout_A a' = A /\
       (percent est elapsed = Raise OverflowError /\
        progress_percent a' = progress_percent a /\
        is_plating_active a' = true /\
        progress_bar a' = progress_bar a /\
        status_label a' = status_label a /\
        issued a' = issued a /\
        live_update_event a' = live_update_event a /\
        clock a' = clock a /\
        psu_interface a' = p' /\
        modals a' = modals a
        \/
        percent est elapsed = Ok (progress_percent a') /\
        int_ge_float elapsed est = true /\
        format_time (Float est) = Raise OverflowError /\
        is_plating_active a' = false /\
        status_message a' = "PLATING COMPLETE" /\
        progress_bar a' = 100 /\
        issued a' = (issued a ++ ["OUTP OFF"])%list /\
        live_update_event a' = None /\
        modals a' = (modals a ++ alert)%list))
    a.
Proof.
  intros Hactive Hread elapsed est alert. subst elapsed est alert.
  unfold live_monitor.
  do 2 wp_step. rewrite Hactive. cbn [negb].
  wp_run.
  all: try match goal with
         | Hf : format_time (Int ?n) = Raise _ |- _ =>
             destruct (format_time_int n) as [? Hn]; congruence
         end.
  all: try match goal with
         | Hp : (0 <? ?est)%float = true, Ht : truediv ?x ?est = Raise ?e |- _ =>
             destruct (truediv_positive x est e Hp Ht)
         end.
  all: match goal with
       | Hp : (0 <? _)%float = false |- _ =>
           pose proof (percent_none _ (time_elapsed_sec a + 1) Hp) as Hpercent
       | Hp : (0 <? _)%float = true, Hx : float_of_int _ = Ok _,
         Hr : truediv _ _ = Ok _, Hw : int_of_float _ = _ |- _ =>
           pose proof (percent_whole _ _ _ _ _ Hp Hx Hr Hw) as Hpercent;
           cbn [mbind result_bind] in Hpercent
       | Hp : (0 <? _)%float = true, Hx : float_of_int _ = Raise _ |- _ =>
           pose proof (percent_beyond _ _ _ Hp Hx) as Hpercent
       end.
  all: try match goal with
         | Hpercent : percent _ _ = Raise ?e |- _ =>
             pose proof (percent_raises _ _ _ Hpercent); subst e
         end.
  all: try match goal with
         | Hf : format_time (Float _) = Raise ?e |- _ =>
             pose proof (format_time_raises _ _ Hf); subst e
         end.
  all: rewrite ?app_nil_r, <- ?app_assoc.
  all: first
         [ solve [ repeat split; eauto ]
         | repeat (split; [ reflexivity | ]);
           first [ left; solve [ repeat split; eauto ]
                 | right; solve [ repeat split; eauto ] ] ].
Qed.

End Gui64Facts.

(** ** Recomputing the targets *)

Section Recompute.
Import Py Double Scpi Gui64 Logic Spec64.
Context `{Builtins}.
#[local] Set Warnings "-inexact-float".

(** [update_calculations] stores the result of [calculate_metrics] and
    nothing else; it raises when [calculate_metrics] does, the targets
    left as they were, and when the new estimate is an infinity, which
    [format_time] does not accept. *)
Lemma update_calculations64_spec (a : App) :
  let calc :=
    calculate_metrics (target_thickness_um a) (target_area_cm2 a) (complexity a) in
  wp update_calculations
    (fun _ a' =>
       parameters a' = parameters a /\
       psu_interface a' = psu_interface a /\
       issued a' = issued a /\
       modals a' = modals a /\
       calc = Ok (targets a') /\
       exists text, format_time (Float (estimated_time_sec a')) = Ok text)
    (fun exn a' =>
       exn = OverflowError /\
       parameters a' = parameters a /\
       psu_interface a' = psu_interface a /\
       issued a' = issued a /\
       modals a' = modals a /\
       (calc = Raise OverflowError /\ targets a' = targets a
        \/
        calc = Ok (targets a') /\
        format_time (Float (estimated_time_sec a')) = Raise OverflowError))
    a.
Proof.
  cbv zeta. unfold update_calculations. wp_run.
  all: unfold parameters, targets; simpl_state.
  all: try match goal with
         | Hc : calculate_metrics _ _ _ = Raise ?e |- _ =>
             pose proof (calculate_metrics_raises _ _ _ _ Hc); subst e
         end.
  all: try match goal with
         | Hf : format_time (Float _) = Raise ?e |- _ =>
             pose proof (format_time_raises _ _ Hf); subst e
         end.
  all: try match goal with
         | Hc : calculate_metrics _ _ _ = Ok ?m |- _ => destruct m
         end.
  all: first
         [ solve [ repeat split; eauto ]
         | repeat (split; [ reflexivity | ]);
           first [ left; solve [ repeat split; eauto ]
                 | right; solve [ repeat split; eauto ] ] ].
Qed.

End Recompute.

Ltac wp_update_calculations ::=
  eapply wp_mono;
  [ apply update_calculations64_spec
  | cbv beta zeta; intros [] ? (? & ? & ? & ? & ? & ?)
  | cbv beta zeta; intros ? ? (-> & ? & ? & ? & ? & ?) ].

Section Edits.
Import Py Double Scpi Gui64 Logic Spec64.
Context `{Builtins}.
#[local] Set Warnings "-inexact-float".

Lemma edited_twice64 (e : event) (p : binary64 * binary64 * Z) :
  edited e (edited e p) = edited e p.
Proof.
  destruct p as [[thickness area] level].
  destruct e as [i | i | i value | value | | | | | | | dt]; cbn [edited];
    try reflexivity.
  - destruct (accepted (TextInput.text i)) eqn:E; cbn [edited];
      rewrite ?E; reflexivity.
  - destruct (accepted (TextInput.text i)) eqn:E; cbn [edited];
      rewrite ?E; reflexivity.
  - destruct value; [ reflexivity | ].
    destruct (String.eqb (TextInput.name i) "thickness_input") eqn:E1;
      [ | destruct (String.eqb (TextInput.name i) "area_input") eqn:E2 ];
      try reflexivity;
      destruct (accepted (TextInput.text i)) eqn:E; cbn [edited];
      rewrite ?E1, ?E2, ?E; reflexivity.
  - destruct (int_of_float value) eqn:E; cbn [edited]; rewrite ?E; reflexivity.
Qed.

(** A parameter edit: the parameters become what the edit makes of
    them, the targets are those of the new parameters unless
    [calculate_metrics] raises, and neither the interface nor the log of
    commands changes.  The handler raises when [calculate_metrics] does,
    when the new estimate is an infinity, and when the slider value has
    no whole part. *)
Lemma parameter_edit_spec (e : event) (a : App) :
  parameter_edit e = true ->
  targets_current a ->
  wp (handle e)
    (fun _ a' =>
       parameters a' = edited e (parameters a) /\
       psu_interface a' = psu_interface a /\
       issued a' = issued a /\
       match calculate_metrics (target_thickness_um a') (target_area_cm2 a')
               (complexity a') with
       | Ok m => targets a' = m
       | Raise exn => exn = OverflowError /\ targets a' = targets a
       end)
    (fun exn a' =>
       parameters a' = edited e (parameters a) /\
       psu_interface a' = psu_interface a /\
       issued a' = issued a /\
       match calculate_metrics (target_thickness_um a') (target_area_cm2 a')
               (complexity a') with
       | Ok m => targets a' = m
       | Raise exn => exn = OverflowError /\ targets a' = targets a
       end /\
       (calculate_metrics (target_thickness_um a') (target_area_cm2 a')
          (complexity a') = Raise exn
        \/ format_time (Float (estimated_time_sec a')) = Raise exn
        \/ exists value,
             e = ComplexityChange value /\ int_of_float value = Raise exn))
    a.
Proof.
  intros Hedit Hcurrent.
  destruct e as [i | i | i [] | value | | | | | | | dt]; try discriminate Hedit;
    cbn [handle]; wp_run.
  all: unfold parameters, edited, accepted, targets in *; simpl_state.
  all: cbn [negb] in *; try discriminate.
  all: repeat match goal with
         | Hp : (_, _, _) = (_, _, _) |- _ =>
             injection Hp as Hth Har Hco; rewrite ?Hth, ?Har, ?Hco
         end.
  all: repeat match goal with
         | Hf : float_of_str _ = _ |- _ => rewrite ?Hf; clear Hf
         | Hb : (_ <=? 0)%float = _ |- _ => rewrite ?Hb; clear Hb
         | Hs : String.eqb _ _ = _ |- _ => rewrite ?Hs; clear Hs
         end.
  all: try match goal with
         | Hi : int_of_float _ = _ |- _ => rewrite ?Hi
         end.
  all: try match goal with
         | Hd : _ \/ _ |- _ => destruct Hd as [[Hcalc Hkept]|[Hcalc Hfmt]]
         end.
  all: first
         [ match goal with
           | Hcalc : calculate_metrics _ _ _ = _ |- _ => rewrite Hcalc
           end
         | destruct (calculate_metrics (target_thickness_um a)
                       (target_area_cm2 a) (complexity a)) as [m|exn0]
             eqn:Hcalc;
           [ pose proof (Hcurrent m Hcalc) as Hm
           | pose proof (calculate_metrics_raises _ _ _ _ Hcalc) as Hexn ] ].
  all: repeat split; try reflexivity; try assumption.
  all: first
         [ left; reflexivity
         | right; left; assumption
         | right; right; eexists; split; [ reflexivity | eassumption ] ].
Qed.

End Edits.

Section Reach64.
Import Py Double Scpi Gui64 Logic Spec64.
Context `{Builtins}.
#[local] Set Warnings "-inexact-float".

(** Every other handler leaves the parameters and the targets alone. *)
Lemma handle_keeps_targets (e : event) (a : App) :
  parameter_edit e = false ->
  wp (handle e)
    (fun _ a' => parameters a' = parameters a /\ targets a' = targets a)
    (fun _ a' => parameters a' = parameters a /\ targets a' = targets a)
    a.
Proof.
  intros Hedit.
  destruct e as [i | i | i value | value | | | | | | | dt];
    try discriminate Hedit; cbn [handle]; wp_run.
  all: split; reflexivity.
Qed.

Lemma calculate_metrics_of_parameters (a a' : App) :
  parameters a' = parameters a ->
  calculate_metrics (target_thickness_um a') (target_area_cm2 a') (complexity a')
  = calculate_metrics (target_thickness_um a) (target_area_cm2 a) (complexity a).
Proof.
  unfold parameters. intros [= -> -> ->]. reflexivity.
Qed.

Lemma build_targets_current (v : Visa) : targets_current (build v).2.
Proof.
  unfold build.
  pose proof (update_calculations64_spec (created v)) as Hwp.
  cbv zeta in Hwp. unfold wp in Hwp.
  destruct (update_calculations (created v)) as [[[]|exn] a']; cbn [snd].
  - destruct Hwp as (Hp & _ & _ & _ & Hcalc & _).
    unfold targets_current.
    rewrite (calculate_metrics_of_parameters _ _ Hp), Hcalc.
    intros m [= <-]. reflexivity.
  - destruct Hwp as (_ & Hp & _ & _ & _ & Hcalc).
    unfold targets_current.
    rewrite (calculate_metrics_of_parameters _ _ Hp).
    destruct Hcalc as [[Hcalc _]|[Hcalc _]]; rewrite Hcalc;
      [ discriminate | intros m [= <-]; reflexivity ].
Qed.

Lemma handle_targets_current (e : event) (a : App) :
  targets_current a -> targets_current (handle e a).2.
Proof.
  intros Hcurrent.
  destruct (parameter_edit e) eqn:Hedit.
  - pose proof (parameter_edit_spec e a Hedit Hcurrent) as Hwp.
    unfold wp in Hwp.
    destruct (handle e a) as [[[]|exn] a']; cbn [snd];
      [ destruct Hwp as (_ & _ & _ & Hcalc)
      | destruct Hwp as (_ & _ & _ & Hcalc & _) ];
      unfold targets_current; intros m Hm; rewrite Hm in Hcalc; exact Hcalc.
  - pose proof (handle_keeps_targets e a Hedit) as Hwp.
    unfold wp in Hwp.
    assert (Hkept : parameters (handle e a).2 = parameters a /\
                    targets (handle e a).2 = targets a)
      by (destruct (handle e a) as [[[]|exn] a']; exact Hwp).
    destruct Hkept as [Hp Ht].
    unfold targets_current.
    rewrite (calculate_metrics_of_parameters _ _ Hp), Ht. exact Hcurrent.
Qed.

Lemma reachable_targets_current (a : App) : reachable a -> targets_current a.
Proof.
  induction 1 as [v|a e _ IH].
  - apply build_targets_current.
  - apply handle_targets_current, IH.
Qed.


(** C9.  In every reachable state a parameter edit (thickness input,
    area input, either through the focus handler, complexity slider)
    leaves the parameters as the edit makes them and the targets equal to
    what [calculate_metrics] returns for them, before the handler returns
    and without the monitoring loop; it issues no command and leaves the
    interface untouched; the same edit once more changes neither the
    parameters nor the targets.  The targets are left as they were only
    when [calculate_metrics] itself raises OverflowError.  The handler
    returns, or raises after the update: when [calculate_metrics] raises,
    when the new estimate is an infinity, which [format_time] refuses, or
    when the slider value has no whole part. *)
Theorem parameter_edit_recomputes_targets (a : App) (e : event) :
  reachable a ->
  parameter_edit e = true ->
  exists r a',
    handle e a = (r, a') /\
    parameters a' = edited e (parameters a) /\
    match calculate_metrics (target_thickness_um a') (target_area_cm2 a')
            (complexity a') with
    | Ok m => targets a' = m
    | Raise exn => exn = OverflowError /\ targets a' = targets a
    end /\
    psu_interface a' = psu_interface a /\
    issued a' = issued a /\
    (forall exn,
       r = Raise exn ->
       calculate_metrics (target_thickness_um a') (target_area_cm2 a')
         (complexity a') = Raise exn
       \/ format_time (Float (estimated_time_sec a')) = Raise exn
       \/ exists value,
            e = ComplexityChange value /\ int_of_float value = Raise exn) /\
    exists r' a'',
      handle e a' = (r', a'') /\
      parameters a'' = parameters a' /\
      targets a'' = targets a'.
Proof.
  intros Hreach Hedit.
  pose proof (reachable_targets_current a Hreach) as Hcurrent.
  pose proof (parameter_edit_spec e a Hedit Hcurrent) as Hwp.
  unfold wp in Hwp.
  destruct (handle e a) as [r a'] eqn:Hrun.
  assert (Hpost :
    parameters a' = edited e (parameters a) /\
    psu_interface a' = psu_interface a /\
    issued a' = issued a /\
    match calculate_metrics (target_thickness_um a') (target_area_cm2 a')
            (complexity a') with
    | Ok m => targets a' = m
    | Raise exn => exn = OverflowError /\ targets a' = targets a
    end /\
    forall exn,
      r = Raise exn ->
      calculate_metrics (target_thickness_um a') (target_area_cm2 a')
        (complexity a') = Raise exn
      \/ format_time (Float (estimated_time_sec a')) = Raise exn
      \/ exists value,
           e = ComplexityChange value /\ int_of_float value = Raise exn).
  { destruct r as [[]|exn].
    - destruct Hwp as (Hp & Hi & Hs & Hc). repeat split; try assumption.
      intros exn [=].
    - destruct Hwp as (Hp & Hi & Hs & Hc & Hr). repeat split; try assumption.
      intros exn' [= <-]. exact Hr. }
  destruct Hpost as (Hp & Hi & Hs & Hc & Hr).
  assert (Hcurrent' : targets_current a').
  { change a' with (r, a').2. rewrite <- Hrun.
    apply handle_targets_current, Hcurrent. }
  pose proof (parameter_edit_spec e a' Hedit Hcurrent') as Hwp'.
  unfold wp in Hwp'.
  destruct (handle e a') as [r' a''] eqn:Hrun'.
  assert (Hpost' :
    parameters a'' = edited e (parameters a') /\
    match calculate_metrics (target_thickness_um a'') (target_area_cm2 a'')
            (complexity a'') with
    | Ok m => targets a'' = m
    | Raise exn => exn = OverflowError /\ targets a'' = targets a'
    end).
  { destruct r' as [[]|exn].
    - destruct Hwp' as (Hp' & _ & _ & Hc'). split; assumption.
    - destruct Hwp' as (Hp' & _ & _ & Hc' & _). split; assumption. }
  destruct Hpost' as (Hp' & Hc').
  rewrite Hp, edited_twice64, <- Hp in Hp'.
  exists r, a'. repeat split; try assumption.
  exists r', a''. repeat split; try assumption.
  rewrite (calculate_metrics_of_parameters _ _ Hp') in Hc'.
  destruct (calculate_metrics (target_thickness_um a') (target_area_cm2 a')
              (complexity a')) as [m|exn].
  - congruence.
  - apply Hc'.
Qed.

End Reach64.

Section Ticks64.
Import Py Double Scpi Gui64 Logic Spec64.
Context `{Builtins}.
#[local] Set Warnings "-inexact-float".


(** X25.  A tick of a plating application stores the voltage and the
    current [read_data] returned.  When the progress can be computed it
    opens the Instrument Alert dialog exactly when the status contains
    ALERT and, unless the tick completes the run, returns with the run
    going on whatever the status is, the interface as [read_data] left
    it and the status label showing the status with the progress.  When
    the progress cannot be computed the tick raises OverflowError with
    the run going on, no dialog opened and the label as it was. *)
Theorem tick_shows_what_the_instrument_reports (dt : binary64) (a : App) :
  is_plating_active a = true ->
  let elapsed := time_elapsed_sec a + 1 in
  let est := estimated_time_sec a in
  exists V A status p' r a',
    Scpi64.read_data (psu_interface a) = (Ok (V, A, status), p') /\
    live_monitor dt a = (r, a') /\
    current_readout_V a' = V /\
    current_readout_A a' = A /\
    match percent est elapsed with
    | Ok n =>
        let alert :=
          if contains "ALERT" status then ["Instrument Alert"] else [] in
        let complete :=
          match r with
          | Ok _ => if int_ge_float elapsed est then ["Process Complete"] else []
          | Raise _ => []
          end in
        modals a' = (modals a ++ alert ++ complete)%list /\
        (int_ge_float elapsed est = false ->
         r = Ok tt /\
         is_plating_active a' = true /\
         psu_interface a' = p' /\
         status_label a' = status +:+ " (" +:+ str_of_int n +:+ "%)")
    | Raise _ =>
        r = Raise OverflowError /\
        is_plating_active a' = true /\
        psu_interface a' = p' /\
        modals a' = modals a /\
        status_label a' = status_label a
    end.
Proof.
  intros Hactive elapsed est. subst elapsed est.
  destruct (wp_returns _ _ _ (read_data64_spec (psu_interface a)))
    as ([[V A] status] & p' & Hread & _).
  pose proof (live_monitor_plating64 dt a V A status p' Hactive Hread) as Hwp.
  cbv zeta in Hwp. unfold wp in Hwp.
  exists V, A, status, p'.
  destruct (live_monitor dt a) as [[[]|exn] a'].
  - destruct Hwp as (_ & _ & HV & HA & Hpercent & Hdone).
    exists (Ok tt), a'. repeat (split; [ first [ reflexivity | assumption ] | ]).
    rewrite Hpercent. cbv zeta.
    destruct (int_ge_float _ _).
    + destruct Hdone as (_ & _ & _ & _ & _ & Hmodals & _).
      split; [ exact Hmodals | discriminate ].
    + destruct Hdone as (Hrun & _ & _ & _ & _ & _ & Hpsu & Hlabel & Hmodals).
      rewrite app_nil_r. split; [ exact Hmodals | ].
      intros _. repeat split; assumption.
  - destruct Hwp as (-> & _ & _ & HV & HA & Hcases).
    exists (Raise OverflowError), a'.
    repeat (split; [ first [ reflexivity | assumption ] | ]).
    destruct Hcases as [(Hpercent & _ & Hrun & _ & Hlabel & _ & _ & _ & Hpsu & Hmodals)
                       |(Hpercent & Hdone & _ & _ & _ & _ & _ & _ & Hmodals)];
      rewrite Hpercent; cbv zeta.
    + repeat split; assumption.
    + rewrite app_nil_r. split; [ exact Hmodals | ].
      rewrite Hdone. discriminate.
Qed.

(** X21.  A text that does not read as a float, or reads as a float
    [<= 0], changes no attribute of the application: the thickness and
    the area handler only open the Input Error dialog and put the last
    valid value back into the text field.  (A text that reads as NaN is
    not refused: NaN is not [<= 0].) *)
Theorem refused_input_only_warns (instance : TextInput.t) (a : App) :
  accepted (TextInput.text instance) = None ->
  on_thickness_input instance a =
    (Ok {| TextInput.name := TextInput.name instance;
           TextInput.text := str_of_float (target_thickness_um a) |},
     set modals (fun l => (l ++ ["Input Error"])%list) a) /\
  on_area_input instance a =
    (Ok {| TextInput.name := TextInput.name instance;
           TextInput.text := str_of_float (target_area_cm2 a) |},
     set modals (fun l => (l ++ ["Input Error"])%list) a).
Proof.
  unfold accepted. intros Hrefused.
  split; apply wp_run_exactly;
    [ unfold on_thickness_input | unfold on_area_input ];
    wp_run;
    repeat match goal with
           | Hf : float_of_str _ = _ |- _ => rewrite Hf in Hrefused; clear Hf
           | Hb : (_ <=? 0)%float = _ |- _ => rewrite Hb in Hrefused; clear Hb
           end;
    try discriminate Hrefused; split; reflexivity.
Qed.

End Ticks64.

(* ================================================================== *)
(** * Runs on doubles *)
(* ================================================================== *)

Section Runs64.
Import Py Double Scpi Gui64 Spec64 Scenario64.
#[local] Existing Instance Decimal64.builtins.
#[local] Set Warnings "-inexact-float".

Lemma ready_reachable64 (v : Visa) : reachable (ready v).
Proof.
  exact (reachable_handle _ ConnectToggle (reachable_build v)).
Qed.

Lemma plating_reachable64 (v : Visa) : reachable (plating v).
Proof.
  exact (reachable_handle _ StartProcess (ready_reachable64 v)).
Qed.




End Runs64.

(* ================================================================== *)
(** * The further theorems at concrete inputs *)
(* ================================================================== *)

Section WitnessesMore.
Import Py Scpi Gui Spec Scenario Notions.
#[local] Existing Instance Decimal.builtins.

Lemma format_time_hours_minutes_seconds_witness :
  (0 <= 1 /\ 0 <= 15 < 60 /\ 0 <= 13 < 60 /\
   (inject_Z (3600 * 1 + 60 * 15 + 13) <= 45139 # 10)%Q /\
   (45139 # 10 < inject_Z (3600 * 1 + 60 * 15 + 13) + 1)%Q) /\
  Formulas.format_time (45139 # 10) = "01:15:13".
Proof.
  assert (H1 : 0 <= 1) by lia.
  assert (H2 : 0 <= 15 < 60) by lia.
  assert (H3 : 0 <= 13 < 60) by lia.
  assert (H4 : (inject_Z (3600 * 1 + 60 * 15 + 13) <= 45139 # 10)%Q)
    by (unfold Qle; cbn; lia).
  assert (H5 : (45139 # 10 < inject_Z (3600 * 1 + 60 * 15 + 13) + 1)%Q)
    by (unfold Qlt; cbn; lia).
  exact (conj (conj H1 (conj H2 (conj H3 (conj H4 H5))))
           (format_time_hours_minutes_seconds (45139 # 10) 1 15 13
              H1 H2 H3 H4 H5)).
Defined.


Lemma read_data_without_io_witness :
  let p := psu_interface (ready bench) in
  (is_connected p = false \/ psu p = None \/ output_on p = false) /\
  read_data p
  = (Ok (0.0%Q, 0.0%Q,
         if is_connected p && bool_decide (is_Some (psu p))
         then "OUTPUT OFF (Connected)" else "NOT CONNECTED"), p).
Proof.
  assert (H1 : is_connected (psu_interface (ready bench)) = false \/
               psu (psu_interface (ready bench)) = None \/
               output_on (psu_interface (ready bench)) = false)
    by (right; right; vm_compute; reflexivity).
  exact (conj H1 (read_data_without_io (psu_interface (ready bench)) H1)).
Defined.

Lemma apply_writes_voltage_then_current_witness :
  let p := psu_interface (ready bench) in
  let command := " apply 2.0 0.25 " in
  (is_connected p = true /\
   is_Some (psu p) /\
   startswith (upper (strip command)) "APPLY" = true /\
   split (upper (strip command)) = ["APPLY"; "2.0"; "0.25"] /\
   float_of_str "2.0" = Some 2%Q /\
   float_of_str "0.25" = Some (1 # 4)%Q) /\
  let volt := Write ("VOLTage " +:+ format_fixed 2 2%Q) in
  let cur := Write ("CURRent " +:+ format_fixed 3 (1 # 4)%Q) in
  let n := length (wire (visa p)) in
  Scpi.send_command command p =
    match respond (visa p) n volt with
    | Fail => (Ok false, after_io [volt] p)
    | Reply _ =>
        match respond (visa p) (S n) cur with
        | Fail => (Ok false, after_io [volt; cur] p)
        | Reply _ => (Ok true, after_io [volt; cur] p)
        end
    end.
Proof.
  set (p := psu_interface (ready bench)).
  set (command := " apply 2.0 0.25 ").
  assert (H1 : is_connected p = true) by (vm_compute; reflexivity).
  assert (H2 : is_Some (psu p)) by (vm_compute; eexists; reflexivity).
  assert (H3 : startswith (upper (strip command)) "APPLY" = true)
    by (vm_compute; reflexivity).
  assert (H4 : split (upper (strip command)) = ["APPLY"; "2.0"; "0.25"])
    by (vm_compute; reflexivity).
  assert (H5 : float_of_str "2.0" = Some 2%Q) by (vm_compute; reflexivity).
  assert (H6 : float_of_str "0.25" = Some (1 # 4)%Q) by (vm_compute; reflexivity).
  exact (conj (conj H1 (conj H2 (conj H3 (conj H4 (conj H5 H6)))))
           (apply_writes_voltage_then_current command "APPLY" "2.0" "0.25"
              2%Q (1 # 4)%Q p H1 H2 H3 H4 H5 H6)).
Defined.

Lemma connect_needs_open_and_identification_witness :
  let p := Scpi.init unplugged in
  is_connected p = false /\
  let n := length (wire (visa p)) in
  let opened := answered (respond (visa p) n (Open PSU_ADDRESS)) in
  let identified := answered (respond (visa p) (S n) (Query "*IDN?")) in
  exists connected p',
    connect p = (Ok connected, p') /\
    connected = opened && identified /\
    is_connected p' = connected /\
    bool_decide (is_Some (psu p')) = connected /\
    bool_decide (is_Some (rm p')) = connected /\
    output_on p' = output_on p /\
    wire (visa p') =
      (wire (visa p) ++ if opened then [Open PSU_ADDRESS; Query "*IDN?"]
                        else [Open PSU_ADDRESS])%list.
Proof.
  assert (H1 : is_connected (Scpi.init unplugged) = false) by reflexivity.
  exact (conj H1
           (connect_needs_open_and_identification (Scpi.init unplugged) H1)).
Defined.

Lemma monitor_runs_exactly_while_plating_witness :
  let a := plating bench in
  reachable a /\
  if is_plating_active a
  then exists ev, live_update_event a = Some ev /\
                  Clock.scheduled (clock a) = [ev]
  else live_update_event a = None /\ Clock.scheduled (clock a) = [].
Proof.
  set (a := plating bench).
  assert (H1 : reachable a) by exact (plating_reachable bench).
  split; [ exact H1 | exact (monitor_runs_exactly_while_plating a H1) ].
Defined.

Lemma progress_stays_in_range_witness :
  let a := paused in
  reachable a /\
  0 <= progress_percent a <= 100 /\ 0 <= progress_bar a <= 100.
Proof.
  exact (conj paused_reachable (progress_stays_in_range paused paused_reachable)).
Defined.

Lemma application_keeps_interface_coherent_witness :
  let a := plating unplugged in
  reachable a /\ coherent (psu_interface a) = true.
Proof.
  exact (conj (plating_reachable unplugged)
           (application_keeps_interface_coherent (plating unplugged)
              (plating_reachable unplugged))).
Defined.



Lemma reconnect_during_offline_run_witness :
  let a := after (live_monitor 1) (plating unplugged) in
  (is_connected (psu_interface a) = false /\
   output_on (psu_interface a) = false /\
   is_plating_active a = true /\
   loop_tracked a) /\
  exists a',
    on_connect_toggle a = (Ok tt, a') /\
    if is_connected (psu_interface a')
    then is_plating_active a' = true /\
         output_on (psu_interface a') = false /\
         time_elapsed_sec a' = time_elapsed_sec a /\
         live_update_event a' = live_update_event a /\
         clock a' = clock a /\
         issued a' = issued a /\
         status_message a' = "CONNECTED (Ready to Apply)" /\
         Button.disabled (pause_btn a') = true /\
         Button.disabled (abort_btn a') = true
    else is_plating_active a' = false /\
         time_elapsed_sec a' = 0 /\
         progress_percent a' = 0 /\
         live_update_event a' = None /\
         Clock.scheduled (clock a') = [] /\
         issued a' = (issued a ++ ["OUTP OFF"])%list /\
         status_message a' = "ABORTED. Resetting." /\
         modals a' = (modals a ++ ["Connection Failed"])%list.
Proof.
  set (a := after (live_monitor 1) (plating unplugged)).
  assert (H1 : is_connected (psu_interface a) = false) by (vm_compute; reflexivity).
  assert (H2 : output_on (psu_interface a) = false) by (vm_compute; reflexivity).
  assert (H3 : is_plating_active a = true) by (vm_compute; reflexivity).
  assert (H4 : loop_tracked a) by (vm_compute; reflexivity).
  exact (conj (conj H1 (conj H2 (conj H3 H4)))
           (reconnect_during_offline_run a H1 H2 H3 H4)).
Defined.

Lemma run_goes_on_below_the_estimate_witness :
  let a := plating bench in
  (is_plating_active a = true /\
   (inject_Z (time_elapsed_sec a + Z.of_nat 3) < estimated_time_sec a)%Q) /\
  exists a',
    ticks 1 3 a = (Ok tt, a') /\
    is_plating_active a' = true /\
    time_elapsed_sec a' = time_elapsed_sec a + Z.of_nat 3 /\
    issued a' = issued a /\
    live_update_event a' = live_update_event a /\
    clock a' = clock a.
Proof.
  set (a := plating bench).
  assert (H1 : is_plating_active a = true) by (vm_compute; reflexivity).
  assert (H2 : (inject_Z (time_elapsed_sec a + Z.of_nat 3)
                < estimated_time_sec a)%Q) by (vm_compute; reflexivity).
  exact (conj (conj H1 H2) (run_goes_on_below_the_estimate 1 3 a H1 H2)).
Defined.

Lemma completion_at_the_boundary_witness :
  let a := set estimated_time_sec (fun _ => 1%Q) (plating bench) in
  (is_plating_active a = true /\
   0 <= time_elapsed_sec a /\
   (inject_Z (time_elapsed_sec a + 1) == estimated_time_sec a)%Q /\
   loop_tracked a) /\
  exists a',
    live_monitor 1 a = (Ok tt, a') /\
    time_elapsed_sec a' = time_elapsed_sec a + 1 /\
    progress_percent a' = 100 /\
    progress_bar a' = 100 /\
    process_state a' = Complete /\
    issued a' = (issued a ++ ["OUTP OFF"])%list /\
    live_update_event a' = None /\
    Clock.scheduled (clock a') = [] /\
    (forall dt', live_monitor dt' a' = (Ok tt, a')) /\
    let p1 := (Scpi.read_data (psu_interface a)).2 in
    psu_interface a' = (Scpi.send_command "OUTP OFF" p1).2 /\
    wire (visa (psu_interface a')) =
      (wire (visa p1) ++
       if is_connected p1 && bool_decide (is_Some (psu p1))
       then [Write "OUTPut:STATe OFF"] else [])%list /\
    ((Scpi.send_command "OUTP OFF" p1).1 = Ok true ->
     output_on (psu_interface a') = false).
Proof.
  set (a := set estimated_time_sec (fun _ => 1%Q) (plating bench)).
  assert (H1 : is_plating_active a = true) by (vm_compute; reflexivity).
  assert (H2 : 0 <= time_elapsed_sec a) by (vm_compute; discriminate).
  assert (H3 : (inject_Z (time_elapsed_sec a + 1) == estimated_time_sec a)%Q)
    by (vm_compute; reflexivity).
  assert (H4 : loop_tracked a) by (vm_compute; reflexivity).
  split; [ exact (conj H1 (conj H2 (conj H3 H4))) | ].
  exact (completion_at_the_boundary 1 a H1 H2 H3 H4).
Defined.

Lemma abort_resets_the_run_witness :
  let a := after (live_monitor 1) (plating unplugged) in
  ((process_state a = Active \/ process_state a = Paused) /\
   loop_tracked a) /\
  exists a',
    _execute_abort a = (Ok tt, a') /\
    time_elapsed_sec a' = 0 /\
    progress_percent a' = 0 /\
    progress_bar a' = 0 /\
    issued a' = (issued a ++ ["OUTP OFF"])%list /\
    live_update_event a' = None /\
    Clock.scheduled (clock a') = [] /\
    process_state a' =
      (if is_connected (psu_interface a) then Connected else Disconnected) /\
    let p := psu_interface a in
    psu_interface a' = (Scpi.send_command "OUTP OFF" p).2 /\
    wire (visa (psu_interface a')) =
      (wire (visa p) ++
       if is_connected p && bool_decide (is_Some (psu p))
       then [Write "OUTPut:STATe OFF"] else [])%list /\
    ((Scpi.send_command "OUTP OFF" p).1 = Ok true ->
     output_on (psu_interface a') = false).
Proof.
  set (a := after (live_monitor 1) (plating unplugged)).
  assert (H1 : process_state a = Active \/ process_state a = Paused)
    by (left; vm_compute; reflexivity).
  assert (H2 : loop_tracked a) by (vm_compute; reflexivity).
  split; [ exact (conj H1 H2) | ].
  exact (abort_resets_the_run a H1 H2).
Defined.

Lemma pause_keeps_elapsed_time_witness :
  let a := after (live_monitor 1) (plating bench) in
  loop_tracked a /\
  exists a',
    on_pause_plating a = (Ok tt, a') /\
    if is_plating_active a
    then process_state a' = Paused /\
         time_elapsed_sec a' = time_elapsed_sec a /\
         progress_percent a' = progress_percent a /\
         issued a' = (issued a ++ ["OUTP OFF"])%list /\
         live_update_event a' = None /\
         Clock.scheduled (clock a') = [] /\
         status_message a' =
           "PAUSED (Elapsed: "
           +:+ Formulas.format_time (inject_Z (time_elapsed_sec a)) +:+ ")" /\
         status_label a' = status_message a' /\
         start_btn a' = {| Button.text := "RESUME"; Button.disabled := false |} /\
         Button.disabled (pause_btn a') = true /\
         Button.disabled (abort_btn a') = false /\
         Button.disabled (connect_btn a') = true /\
         let p := psu_interface a in
         psu_interface a' = (Scpi.send_command "OUTP OFF" p).2 /\
         wire (visa (psu_interface a')) =
           (wire (visa p) ++
            if is_connected p && bool_decide (is_Some (psu p))
            then [Write "OUTPut:STATe OFF"] else [])%list /\
         ((Scpi.send_command "OUTP OFF" p).1 = Ok true ->
          output_on (psu_interface a') = false)
    else a' = a.
Proof.
  set (a := after (live_monitor 1) (plating bench)).
  assert (H1 : loop_tracked a) by (vm_compute; reflexivity).
  split; [ exact H1 | ].
  exact (pause_keeps_elapsed_time a H1).
Defined.

Lemma disconnect_while_plating_aborts_witness :
  let a := plating bench in
  (is_connected (psu_interface a) = true /\
   is_plating_active a = true /\
   loop_tracked a) /\
  exists a',
    on_connect_toggle a = (Ok tt, a') /\
    process_state a' = Disconnected /\
    is_connected (psu_interface a') = false /\
    output_on (psu_interface a') = false /\
    time_elapsed_sec a' = 0 /\
    progress_percent a' = 0 /\
    progress_bar a' = 0 /\
    live_update_event a' = None /\
    Clock.scheduled (clock a') = [] /\
    issued a' = (issued a ++ ["OUTP OFF"])%list /\
    status_message a' = "ABORTED. Resetting." /\
    status_label a' = "ABORTED. Resetting." /\
    Button.text (connect_btn a') = "CONNECT" /\
    start_btn a' = {| Button.text := "START PLATING"; Button.disabled := false |} /\
    let p := psu_interface a in
    psu_interface a' = (Scpi.disconnect p).2 /\
    Scpi.send_command "OUTP OFF" (Scpi.disconnect p).2
      = (Ok false, (Scpi.disconnect p).2) /\
    wire (visa (psu_interface a')) =
      (wire (visa p) ++
       match psu p with
       | None => []
       | Some _ =>
           if answered (respond (visa p) (length (wire (visa p)))
                          (Write "OUTP OFF"))
           then [Write "OUTP OFF"; Close]
           else [Write "OUTP OFF"]
       end)%list.
Proof.
  set (a := plating bench).
  assert (H1 : is_connected (psu_interface a) = true) by (vm_compute; reflexivity).
  assert (H2 : is_plating_active a = true) by (vm_compute; reflexivity).
  assert (H3 : loop_tracked a) by (vm_compute; reflexivity).
  split; [ exact (conj H1 (conj H2 H3)) | ].
  exact (disconnect_while_plating_aborts a H1 H2 H3).
Defined.

End WitnessesMore.

Section WitnessesOnDoubles.
Import Py Double Scpi Gui64 Spec64 Scenario64.
#[local] Existing Instance Decimal64.builtins.
#[local] Set Warnings "-inexact-float".


Lemma parameter_edit_recomputes_targets_witness :
  let a := plating Scenario.bench in
  let e := thickness_1e308 in
  (reachable a /\ parameter_edit e = true) /\
  exists r a',
    handle e a = (r, a') /\
    parameters a' = edited e (parameters a) /\
    match calculate_metrics (target_thickness_um a') (target_area_cm2 a')
            (complexity a') with
    | Ok m => targets a' = m
    | Raise exn => exn = OverflowError /\ targets a' = targets a
    end /\
    psu_interface a' = psu_interface a /\
    issued a' = issued a /\
    (forall exn,
       r = Raise exn ->
       calculate_metrics (target_thickness_um a') (target_area_cm2 a')
         (complexity a') = Raise exn
       \/ format_time (Float (estimated_time_sec a')) = Raise exn
       \/ exists value,
            e = ComplexityChange value /\ int_of_float value = Raise exn) /\
    exists r' a'',
      handle e a' = (r', a'') /\
      parameters a'' = parameters a' /\
      targets a'' = targets a'.
Proof.
  set (a := plating Scenario.bench).
  assert (H1 : reachable a) by exact (plating_reachable64 Scenario.bench).
  assert (H2 : parameter_edit thickness_1e308 = true) by reflexivity.
  split; [ exact (conj H1 H2) | ].
  exact (parameter_edit_recomputes_targets a thickness_1e308 H1 H2).
Defined.

Lemma refused_input_only_warns_witness :
  let a := ready Scenario.bench in
  let instance := input "area_input" "-3" in
  accepted (TextInput.text instance) = None /\
  on_thickness_input instance a =
    (Ok {| TextInput.name := TextInput.name instance;
           TextInput.text := str_of_float (target_thickness_um a) |},
     set modals (fun l => (l ++ ["Input Error"])%list) a) /\
  on_area_input instance a =
    (Ok {| TextInput.name := TextInput.name instance;
           TextInput.text := str_of_float (target_area_cm2 a) |},
     set modals (fun l => (l ++ ["Input Error"])%list) a).
Proof.
  set (a := ready Scenario.bench).
  set (instance := input "area_input" "-3").
  assert (H1 : accepted (TextInput.text instance) = None)
    by (vm_compute; reflexivity).
  split; [ exact H1 | ].
  exact (refused_input_only_warns instance a H1).
Defined.

Lemma tick_shows_what_the_instrument_reports_witness :
  let a := plating Scenario.bench in
  is_plating_active a = true /\
  let elapsed := time_elapsed_sec a + 1 in
  let est := estimated_time_sec a in
  exists V A status p' r a',
    Scpi64.read_data (psu_interface a) = (Ok (V, A, status), p') /\
    live_monitor 1 a = (r, a') /\
    current_readout_V a' = V /\
    current_readout_A a' = A /\
    match percent est elapsed with
    | Ok n =>
        let alert :=
          if contains "ALERT" status then ["Instrument Alert"] else [] in
        let complete :=
          match r with
          | Ok _ => if int_ge_float elapsed est then ["Process Complete"] else []
          | Raise _ => []
          end in
        modals a' = (modals a ++ alert ++ complete)%list /\
        (int_ge_float elapsed est = false ->
         r = Ok tt /\
         is_plating_active a' = true /\
         psu_interface a' = p' /\
         status_label a' = status +:+ " (" +:+ str_of_int n +:+ "%)")
    | Raise _ =>
        r = Raise OverflowError /\
        is_plating_active a' = true /\
        psu_interface a' = p' /\
        modals a' = modals a /\
        status_label a' = status_label a
    end.
Proof.
  set (a := plating Scenario.bench).
  assert (H1 : is_plating_active a = true) by (vm_compute; reflexivity).
  split; [ exact H1 | ].
  exact (tick_shows_what_the_instrument_reports 1 a H1).
Defined.

End WitnessesOnDoubles.
